(** * uiverse.js: runtime utility-class stylesheets

    A shallow embedding of [src/uiverse.js].  The script scans the document
    for utility class names ([m-4], [z-2n], [opacity-7], [rounded-8],
    [fs-14]), turns each unseen one into a CSS rule and hands the rules to
    constructable stylesheets; a further class publishes the viewport
    breakpoint as two custom properties.

    Conventions of the embedding.
    - A JavaScript string is a [string]; a class list is a [list string]
      (the tokens of [element.classList], in order); the document is the list
      of its elements in document order.
    - A [Set] of class names is a [gset string].
    - A [CSSStyleSheet] is the list of the rule texts it holds; the sheets
      live in a store indexed by allocation order, and objects refer to a
      sheet by its index, so that aliasing between a manager's [styleSheet]
      field and [document.adoptedStyleSheets] is kept.
    - A JavaScript number is carried as an integer (see [JSNumber]). *)

From Stdlib Require Import ZArith String Ascii List Bool Lia DecimalString DecimalZ.
From stdpp Require Import gmap strings list.

Local Open Scope Z_scope.

(** ** Strings *)

Module Str.

(** [haystack.includes(needle)]; also the test behind the attribute selector
    [[class*="needle"]]. *)
Fixpoint includes (needle haystack : string) : bool :=
  String.prefix needle haystack ||
  match haystack with
  | EmptyString => false
  | String _ rest => includes needle rest
  end.

(** [s.startsWith(p)]. *)
Definition startsWith (p s : string) : bool := String.prefix p s.

(** [cssProperty.replace(pat, by)]: the first occurrence of [pat] is replaced,
    a string without one is returned unchanged. *)
Fixpoint replace (pat by_ s : string) : string :=
  if String.prefix pat s
  then by_ +:+ String.substring (String.length pat) (String.length s - String.length pat) s
  else match s with
       | EmptyString => EmptyString
       | String c rest => String c (replace pat by_ rest)
       end.

(** The line feed written between the rules of a generated stylesheet. *)
Definition LF : ascii := ascii_of_nat 10.

Definition nl : string := String LF EmptyString.

(** [parts.join(sep)]. *)
Fixpoint join (sep : string) (parts : list string) : string :=
  match parts with
  | [] => EmptyString
  | [x] => x
  | x :: rest => x +:+ sep +:+ join sep rest
  end.

(** The non-empty lines of [s]; [cur] is the line being read. *)
Fixpoint linesFrom (cur s : string) : list string :=
  match s with
  | EmptyString => if decide (cur = EmptyString) then [] else [cur]
  | String c rest =>
      if Ascii.eqb c LF
      then (if decide (cur = EmptyString) then linesFrom EmptyString rest
            else cur :: linesFrom EmptyString rest)
      else linesFrom (cur +:+ String c EmptyString) rest
  end.

Definition lines (s : string) : list string := linesFrom EmptyString s.



End Str.

(** ** Regular expressions

    The five patterns of the script use character classes, sequencing, a
    greedy [?], a greedy [+] over a class and capture groups.  [exec] is the
    backtracking matcher of [String.prototype.match] for a pattern without
    the [g] flag: the leftmost start index that admits a match wins, and at
    that index the greedy alternatives are tried first. *)

Module Regex.

Inductive regex : Type :=
| Class (p : ascii -> bool)
| Seq (r1 r2 : regex)
| Opt (r : regex)
| Plus (p : ascii -> bool)
| Group (r : regex).

(** Number of capture groups of a pattern. *)
Fixpoint groups (r : regex) : nat :=
  match r with
  | Class _ | Plus _ => 0%nat
  | Seq r1 r2 => (groups r1 + groups r2)%nat
  | Opt r => groups r
  | Group r => S (groups r)
  end.

(** The result of a match: the matched text and the captures in the order of
    their opening parentheses ([None] for a group that did not take part). *)
Definition result : Type := string * list (option string).

Section Matcher.
Context {R : Type}.

(** Greedy [p+] from [s], [acc] being the characters already consumed:
    extend as far as possible, fall back to shorter runs when the
    continuation refuses. *)
Fixpoint plus (p : ascii -> bool) (s acc : string)
    (k : string -> string -> option R) : option R :=
  match s with
  | EmptyString => None
  | String c rest =>
      if p c then
        match plus p rest (acc +:+ String c EmptyString) k with
        | Some x => Some x
        | None => k (acc +:+ String c EmptyString) rest
        end
      else None
  end.

(** [matchAt r s k]: match [r] at the start of [s] and pass the consumed
    text, the captures and the remaining input to [k]. *)
Fixpoint matchAt (r : regex) (s : string)
    (k : string -> list (option string) -> string -> option R) : option R :=
  match r with
  | Class p =>
      match s with
      | String c rest => if p c then k (String c EmptyString) [] rest else None
      | EmptyString => None
      end
  | Seq r1 r2 =>
      matchAt r1 s (fun t1 c1 s1 =>
        matchAt r2 s1 (fun t2 c2 s2 => k (t1 +:+ t2) (c1 ++ c2) s2))
  | Opt r1 =>
      match matchAt r1 s k with
      | Some x => Some x
      | None => k EmptyString (replicate (groups r1) None) s
      end
  | Plus p => plus p s EmptyString (fun t s1 => k t [] s1)
  | Group r1 => matchAt r1 s (fun t c s1 => k t (Some t :: c) s1)
  end.
End Matcher.

(** [s.match(r)]: [None] is JavaScript's [null]. *)
Fixpoint exec (r : regex) (s : string) : option result :=
  match matchAt r s (fun t c _ => Some (t, c)) with
  | Some x => Some x
  | None =>
      match s with
      | EmptyString => None
      | String _ rest => exec r rest
      end
  end.

(** [match[i + 1]]: the text of capture group [i + 1], [None] standing for
    [undefined]. *)
Definition group (caps : list (option string)) (i : nat) : option string :=
  mjoin (caps !! i).

(** The text of a group that takes part in every match. *)
Definition text (g : option string) : string := default EmptyString g.

(** [s] does not go on with a character of the class [p]. *)
Definition stops (p : ascii -> bool) (s : string) : Prop :=
  match s with
  | EmptyString => True
  | String c _ => p c = false
  end.

Definition lit (c : ascii) : regex := Class (Ascii.eqb c).

Definition oneOf (cs : string) : regex :=
  Class (fun c => existsb (Ascii.eqb c) (list_ascii_of_string cs)).

(** [\d]: the ten ASCII digits. *)
Definition isDigit (c : ascii) : bool :=
  ((48 <=? nat_of_ascii c) && (nat_of_ascii c <=? 57))%nat.

(** Sequencing of a literal word. *)
Fixpoint word (w : string) (r : regex) : regex :=
  match w with
  | EmptyString => r
  | String c rest => Seq (lit c) (word rest r)
  end.

End Regex.

(** ** Numbers

    Every number of the script starts as [parseInt(digits, 10)] of a captured
    run of digits, that is as the IEEE-754 binary64 value nearest to a
    natural number, and is then scaled by [0.25], [-1] or [1/10].  Such a
    value is carried here as an integer: the number itself for the z-index,
    the radius and the font size, a count of hundredths for a spacing value
    and a count of tenths for an opacity.  Scaling a binary64 integer by
    [0.25] or [-1] is exact, so the only rounding is the one of [parseInt],
    which [toNumber] writes out.

    The renderings [numberToString] and [toFixed2] print the exact decimal
    expansion.  They agree with JavaScript for values of magnitude at most
    [2^53] (resp. below [10^21]); above, JavaScript prints the shortest
    digits that round-trip or switches to exponent notation, beyond twenty
    significant digits [parseInt] may approximate, and from 309 digits on it
    is [Infinity].  Those payloads are outside the embedding: the theorems
    on rendered values are stated within [2^53], and the payload
    [9007199254740993] evaluated beyond it is rounded to [2^53] itself. *)

Module JSNumber.

Definition digitValue (c : ascii) : Z := Z.of_nat (nat_of_ascii c) - 48.

(** The natural number written by the leading digits of [s]. *)
Fixpoint decimalFrom (acc : Z) (s : string) : Z :=
  match s with
  | EmptyString => acc
  | String c rest =>
      if Regex.isDigit c then decimalFrom (acc * 10 + digitValue c) rest else acc
  end.

Definition decimal (s : string) : Z := decimalFrom 0 s.

(** The binary64 value nearest to the natural number [n]: [n] is kept when
    it fits in 53 bits; otherwise it is rounded to 53 significant bits, ties
    to the even significand. *)
Definition toNumber (n : Z) : Z :=
  let bits := Z.log2 n + 1 in
  if bits <=? 53 then n
  else
    let e := bits - 53 in
    let q := Z.shiftr n e in
    let r := n - Z.shiftl q e in
    let half := Z.shiftl 1 (e - 1) in
    let q' := if (half <? r) || ((r =? half) && Z.odd q) then q + 1 else q in
    Z.shiftl q' e.

(** [parseInt(s, 10)] on a text captured by [\d+] (never empty, so [NaN]
    does not arise). *)
Definition parseInt (s : string) : Z := toNumber (decimal s).

(** Template-literal conversion [`${n}`] of an integer-valued number; the
    negative zero of [0 * -1] prints as ["0"], like the integer [0]. *)
Definition numberToString (n : Z) : string :=
  NilEmpty.string_of_int (Z.to_int n).

Definition digitChar (d : Z) : ascii := ascii_of_nat (48 + Z.to_nat d).

(** [x.toFixed(2)] for a number [x] given in hundredths. *)
Definition toFixed2 (hundredths : Z) : string :=
  let a := Z.abs hundredths in
  (if hundredths <? 0 then "-" else "")
  +:+ numberToString (a / 100)
  +:+ "."
  +:+ String (digitChar (a mod 100 / 10)) (String (digitChar (a mod 10)) EmptyString).

(** [`${x}`] for a number [x = t / 10] given in tenths, [0 <= t]. *)
Definition tenthsToString (t : Z) : string :=
  if t mod 10 =? 0 then numberToString (t / 10)
  else numberToString (t / 10) +:+ "." +:+ String (digitChar (t mod 10)) EmptyString.

End JSNumber.

(** ** The page

    The part of the browser the script talks to: the viewport width, the
    elements of [document.body], the constructed stylesheets, the list
    [document.adoptedStyleSheets], the mutation observers attached to
    [document.body], and the clock with its pending timeouts. *)

Definition element : Type := list string.

Definition CSSStyleSheet : Type := list string.

(** What a registered [MutationObserver] calls back.  The throttled
    [applyStyles] of the spacing manager carries the [lastExecTime] of its
    own closure. *)
Inductive callback : Type :=
| SpaceApplyStyles (lastExecTime : Z)
| ZIndexApplyStyles
| OpacityInspect
| BorderRadiusApplyStyles
| FontSizeApplyStyles.

Record Page : Type := mkPage {
  innerWidth : Z;
  body : list element;
  sheets : list CSSStyleSheet;
  adoptedStyleSheets : list nat;
  observers : list callback;
  clock : Z;
  timers : list (nat * Z);
  nextTimer : nat;
}.

Module Dom.

(** A page before any script has run. *)
Definition load (width : Z) (elements : list element) (now : Z) : Page :=
  {| innerWidth := width; body := elements; sheets := [];
     adoptedStyleSheets := []; observers := []; clock := now;
     timers := []; nextTimer := 0 |}.

(** [document.querySelectorAll('[class*="marker"]')]: the elements whose
    class attribute contains [marker].  No marker of the script holds white
    space, so the attribute contains it exactly when one of the class names
    does. *)
Definition querySelectorAll (marker : string) (p : Page) : list element :=
  filter (fun el : element => existsb (Str.includes marker) el = true) (body p).

(** [new CSSStyleSheet()]: a fresh, empty sheet. *)
Definition newCSSStyleSheet (p : Page) : nat * Page :=
  (length (sheets p),
   {| innerWidth := innerWidth p; body := body p;
      sheets := sheets p ++ [[]];
      adoptedStyleSheets := adoptedStyleSheets p; observers := observers p;
      clock := clock p; timers := timers p; nextTimer := nextTimer p |}).

Definition setSheets (ss : list CSSStyleSheet) (p : Page) : Page :=
  {| innerWidth := innerWidth p; body := body p; sheets := ss;
     adoptedStyleSheets := adoptedStyleSheets p; observers := observers p;
     clock := clock p; timers := timers p; nextTimer := nextTimer p |}.

(** [sheet.replaceSync(text)]: the rules of [sheet] become those written in
    [text].  The script writes one rule per line. *)
Definition replaceSync (sheet : nat) (text : string) (p : Page) : Page :=
  setSheets (<[sheet := Str.lines text]> (sheets p)) p.

(** [sheet.insertRule(rule, sheet.cssRules.length)]: [rule] becomes the last
    rule of [sheet].  A sheet index always comes from [newCSSStyleSheet], so
    that it is within the store. *)
Definition insertRuleLast (sheet : nat) (rule : string) (p : Page) : Page :=
  setSheets (alter (fun rules => rules ++ [rule]) sheet (sheets p)) p.

(** [document.adoptedStyleSheets = list]. *)
Definition setAdoptedStyleSheets (l : list nat) (p : Page) : Page :=
  {| innerWidth := innerWidth p; body := body p; sheets := sheets p;
     adoptedStyleSheets := l; observers := observers p;
     clock := clock p; timers := timers p; nextTimer := nextTimer p |}.

(** [new MutationObserver(cb).observe(document.body, ...)]. *)
Definition observe (cb : callback) (p : Page) : Page :=
  {| innerWidth := innerWidth p; body := body p; sheets := sheets p;
     adoptedStyleSheets := adoptedStyleSheets p;
     observers := observers p ++ [cb];
     clock := clock p; timers := timers p; nextTimer := nextTimer p |}.

(** [setTimeout(f, delay)]: the only function the script ever schedules is
    the breakpoint update, so a pending timeout is its id and its due time. *)
Definition setTimeout (delay : Z) (p : Page) : nat * Page :=
  (nextTimer p,
   {| innerWidth := innerWidth p; body := body p; sheets := sheets p;
      adoptedStyleSheets := adoptedStyleSheets p; observers := observers p;
      clock := clock p;
      timers := timers p ++ [(nextTimer p, clock p + delay)];
      nextTimer := S (nextTimer p) |}).

(** [clearTimeout(id)]; [None] is [undefined], which clears nothing. *)
Definition clearTimeout (id : option nat) (p : Page) : Page :=
  {| innerWidth := innerWidth p; body := body p; sheets := sheets p;
     adoptedStyleSheets := adoptedStyleSheets p; observers := observers p;
     clock := clock p;
     timers := filter (fun t : nat * Z => Some t.1 <> id) (timers p);
     nextTimer := nextTimer p |}.

Definition setObservers (l : list callback) (p : Page) : Page :=
  {| innerWidth := innerWidth p; body := body p; sheets := sheets p;
     adoptedStyleSheets := adoptedStyleSheets p; observers := l;
     clock := clock p; timers := timers p; nextTimer := nextTimer p |}.

(** The environment's moves: time passes, the viewport is resized, the
    document changes. *)
Definition setClock (now : Z) (p : Page) : Page :=
  {| innerWidth := innerWidth p; body := body p; sheets := sheets p;
     adoptedStyleSheets := adoptedStyleSheets p; observers := observers p;
     clock := now; timers := timers p; nextTimer := nextTimer p |}.

Definition setInnerWidth (width : Z) (p : Page) : Page :=
  {| innerWidth := width; body := body p; sheets := sheets p;
     adoptedStyleSheets := adoptedStyleSheets p; observers := observers p;
     clock := clock p; timers := timers p; nextTimer := nextTimer p |}.

Definition setBody (elements : list element) (p : Page) : Page :=
  {| innerWidth := innerWidth p; body := elements; sheets := sheets p;
     adoptedStyleSheets := adoptedStyleSheets p; observers := observers p;
     clock := clock p; timers := timers p; nextTimer := nextTimer p |}.

(** The rules in force: those of the adopted sheets, in adoption order. *)
Definition adoptedRules (p : Page) : list string :=
  concat (map (fun i => default [] (sheets p !! i)) (adoptedStyleSheets p)).

(** [forEach] over a list, threading the state the callback mutates. *)
Definition forEach {A S : Type} (xs : list A) (f : A -> S -> S) (s : S) : S :=
  fold_left (fun s x => f x s) xs s.

End Dom.

(** ** Screen size *)

Module ScreenSize.

(** The object: its [cssVariables] field is written once by the constructor
    and never read; [timeout] is the variable of the debounced resize
    listener the constructor installs. *)
Record t : Type := mk {
  cssVariables : list (string * string);
  timeout : option nat;
}.

Record breakpoint : Type := mkBreakpoint {
  deviceType : string;
  container : string;
}.

Definition setCssVariables (variables : list (string * string)) (p : Page) : Page :=
  let '(styleSheet, p1) := Dom.newCSSStyleSheet p in
  let p2 :=
    Dom.replaceSync styleSheet
      (":root { "
       +:+ Str.join " " (map (fun kv : string * string => kv.1 +:+ ": " +:+ kv.2 +:+ ";") variables)
       +:+ " }") p1 in
  Dom.setAdoptedStyleSheets [styleSheet] p2.

Definition getDeviceTypeAndContainer (p : Page) : breakpoint :=
  let width := innerWidth p in
  if width <? 576 then mkBreakpoint "xs" "100%"
  else if width <? 768 then mkBreakpoint "sm" "540px"
  else if width <? 992 then mkBreakpoint "md" "720px"
  else if width <? 1200 then mkBreakpoint "lg" "960px"
  else if width <? 1400 then mkBreakpoint "xl" "1140px"
  else mkBreakpoint "xxl" "1320px".

Definition updateDeviceType (p : Page) : Page :=
  let b := getDeviceTypeAndContainer p in
  setCssVariables
    [("--device-type", deviceType b); ("--container", container b)] p.

(** The function returned by [debounce(func, 300)], here with
    [func = updateDeviceType]: it cancels the pending call and schedules a
    new one. *)
Definition debounced (delay : Z) (this : t) (p : Page) : t * Page :=
  let p1 := Dom.clearTimeout (timeout this) p in
  let '(id, p2) := Dom.setTimeout delay p1 in
  ({| cssVariables := cssVariables this; timeout := Some id |}, p2).

(** [new ScreenSize()]. *)
Definition constructor (p : Page) : t * Page :=
  ({| cssVariables := [("--device-type", ""); ("--container", "")];
      timeout := None |},
   updateDeviceType p).

End ScreenSize.

(** ** Space manager (margins and paddings) *)

Module SpaceManager.

Record t : Type := mk {
  processedClassNames : gset string;
}.

(** The object literal [cssPropertyMap], in source order. *)
Definition cssPropertyMap : list (string * string) :=
  [ ("m", "margin"); ("mt", "margin-top"); ("mb", "margin-bottom");
    ("ml", "margin-left"); ("mr", "margin-right");
    ("mx", "margin-horizontal"); ("my", "margin-vertical");
    ("p", "padding"); ("pt", "padding-top"); ("pb", "padding-bottom");
    ("pl", "padding-left"); ("pr", "padding-right");
    ("px", "padding-horizontal"); ("py", "padding-vertical") ].

(** [cssPropertyMap[key]]; [None] is [undefined].  The keys looked up are
    captures of [[mp][trblxy]?], all of them own properties of the map. *)
Fixpoint lookup (key : string) (map : list (string * string)) : option string :=
  match map with
  | [] => None
  | (k, v) :: rest => if decide (k = key) then Some v else lookup key rest
  end.

(** [/([mp][trblxy]?)-(\d+)(n)?/] *)
Definition pattern : Regex.regex :=
  Regex.Seq (Regex.Group (Regex.Seq (Regex.oneOf "mp") (Regex.Opt (Regex.oneOf "trblxy"))))
    (Regex.Seq (Regex.lit "-")
       (Regex.Seq (Regex.Group (Regex.Plus Regex.isDigit))
          (Regex.Opt (Regex.Group (Regex.lit "n"))))).

Record styleDetails : Type := mkDetails {
  styleType : string;
  styleValue : string;
}.

Definition calculateSpaceValue (input : string) : option styleDetails :=
  match Regex.exec pattern input with
  | None => None
  | Some (_, caps) =>
      let styleType := Regex.text (Regex.group caps 0) in
      let number := Regex.text (Regex.group caps 1) in
      let negativeFlag := Regex.group caps 2 in
      let multiplier := if decide (negativeFlag = Some "n") then -1 else 1 in
      (* the value is carried in hundredths: [* 0.25] is [* 25] *)
      let styleValue := JSNumber.toFixed2 (JSNumber.parseInt number * 25 * multiplier) in
      Some (mkDetails styleType styleValue)
  end.

(** The body of the inner [forEach] of [applyStyles]; the state is the
    processed set and the text accumulated in [spaceStyles]. *)
Definition visit (className : string) (st : gset string * string) : gset string * string :=
  let '(processed, spaceStyles) := st in
  if decide (className ∈ processed) then st
  else
    match calculateSpaceValue className with
    | None => st
    | Some styleDetails =>
        match lookup (styleType styleDetails) cssPropertyMap with
        | None => st
        | Some cssProperty =>
            let spaceStyles' :=
              if decide (cssProperty = "margin-horizontal" \/ cssProperty = "padding-horizontal") then
                spaceStyles +:+ "." +:+ className +:+ " { "
                  +:+ Str.replace "-horizontal" "-left" cssProperty +:+ ": "
                  +:+ styleValue styleDetails +:+ "rem; "
                  +:+ Str.replace "-horizontal" "-right" cssProperty +:+ ": "
                  +:+ styleValue styleDetails +:+ "rem; }" +:+ Str.nl
              else if decide (cssProperty = "margin-vertical" \/ cssProperty = "padding-vertical") then
                spaceStyles +:+ "." +:+ className +:+ " { "
                  +:+ Str.replace "-vertical" "-top" cssProperty +:+ ": "
                  +:+ styleValue styleDetails +:+ "rem; "
                  +:+ Str.replace "-vertical" "-bottom" cssProperty +:+ ": "
                  +:+ styleValue styleDetails +:+ "rem; }" +:+ Str.nl
              else
                spaceStyles +:+ "." +:+ className +:+ " { " +:+ cssProperty +:+ ": "
                  +:+ styleValue styleDetails +:+ "rem; }" +:+ Str.nl in
            ({[ className ]} ∪ processed, spaceStyles')
        end
    end.

Definition applyStyles (this : t) (p : Page) : t * Page :=
  let elementsWithClasses := Dom.querySelectorAll "-" p in
  let '(processed, spaceStyles) :=
    Dom.forEach elementsWithClasses (fun element => Dom.forEach element visit)
      (processedClassNames this, EmptyString) in
  let this' := {| processedClassNames := processed |} in
  if decide (spaceStyles = EmptyString) then (this', p)
  else
    let '(styleSheet, p1) := Dom.newCSSStyleSheet p in
    let p2 := Dom.replaceSync styleSheet spaceStyles p1 in
    (this', Dom.setAdoptedStyleSheets (adoptedStyleSheets p2 ++ [styleSheet]) p2).

(** The callback built by [throttle(applyStyles, 300)], called at the time
    the page's clock shows: it returns the closure's new [lastExecTime]. *)
Definition throttled (delay lastExecTime : Z) (this : t) (p : Page) : Z * (t * Page) :=
  let currentTime := clock p in
  if delay <=? currentTime - lastExecTime
  then (currentTime, applyStyles this p)
  else (lastExecTime, (this, p)).

Definition observeDomChanges (p : Page) : Page :=
  Dom.observe (SpaceApplyStyles 0) p.

(** [new SpaceManager()]: no scan, only the observer. *)
Definition constructor (p : Page) : t * Page :=
  ({| processedClassNames := ∅ |}, observeDomChanges p).

End SpaceManager.

(** ** Z-index *)

Module ZIndexManager.

Record t : Type := mk {
  processedClasses : gset string;
  styleSheet : nat;
}.

(** [/z-(\d+)(n)?/] *)
Definition regex : Regex.regex :=
  Regex.word "z-"
    (Regex.Seq (Regex.Group (Regex.Plus Regex.isDigit))
       (Regex.Opt (Regex.Group (Regex.lit "n")))).

Definition calculateZIndex (className : string) : option Z :=
  match Regex.exec regex className with
  | Some (_, caps) =>
      let number := Regex.text (Regex.group caps 0) in
      let isNegative := Regex.group caps 1 in
      let multiplier := if decide (isNegative = Some "n") then -1 else 1 in
      Some (JSNumber.parseInt number * multiplier)
  | None => None
  end.

Definition visit (className : string) (st : gset string * string) : gset string * string :=
  let '(processed, styles) := st in
  if negb (bool_decide (className ∈ processed)) then
    match calculateZIndex className with
    | Some zIndex =>
        ({[ className ]} ∪ processed,
         styles +:+ "." +:+ className +:+ " { z-index: "
           +:+ JSNumber.numberToString zIndex +:+ "; }" +:+ Str.nl)
    | None => st
    end
  else st.

Definition applyZIndexStyles (this : t) (p : Page) : t * Page :=
  let elements := Dom.querySelectorAll "z-" p in
  let '(processed, styles) :=
    Dom.forEach elements (fun element => Dom.forEach element visit)
      (processedClasses this, EmptyString) in
  let this' := {| processedClasses := processed; styleSheet := styleSheet this |} in
  if decide (styles = EmptyString) then (this', p)
  else (this', Dom.replaceSync (styleSheet this) styles p).

Definition initiateDomObserver (p : Page) : Page :=
  Dom.observe ZIndexApplyStyles p.

(** [new ZIndexManager()] *)
Definition constructor (p : Page) : t * Page :=
  let '(sheet, p1) := Dom.newCSSStyleSheet p in
  let p2 := Dom.setAdoptedStyleSheets (adoptedStyleSheets p1 ++ [sheet]) p1 in
  let p3 := initiateDomObserver p2 in
  applyZIndexStyles {| processedClasses := ∅; styleSheet := sheet |} p3.

End ZIndexManager.

(** ** Opacity *)

Module OpacityManager.

Record t : Type := mk {
  processedClasses : gset string;
  styleSheet : nat;
}.

(** [/opacity-(\d+)/] *)
Definition regex : Regex.regex :=
  Regex.word "opacity-" (Regex.Group (Regex.Plus Regex.isDigit)).

(** The opacity [opacityLevel / 10], given in tenths. *)
Definition calculateOpacity (className : string) : option Z :=
  match Regex.exec regex className with
  | Some (_, caps) =>
      let opacityLevel := JSNumber.parseInt (Regex.text (Regex.group caps 0)) in
      if (1 <=? opacityLevel) && (opacityLevel <=? 10) then Some opacityLevel else None
  | None => None
  end.

Definition addOpacityStyle (className : string) (st : t * Page) : t * Page :=
  let '(this, p) := st in
  if negb (bool_decide (className ∈ processedClasses this))
     && Str.startsWith "opacity-" className
  then
    match calculateOpacity className with
    | Some opacity =>
        ({| processedClasses := {[ className ]} ∪ processedClasses this;
            styleSheet := styleSheet this |},
         Dom.insertRuleLast (styleSheet this)
           ("." +:+ className +:+ " { opacity: "
              +:+ JSNumber.tenthsToString opacity +:+ "; }") p)
    | None => st
    end
  else st.

Definition applyInitialOpacityStyles (this : t) (p : Page) : t * Page :=
  let elements := Dom.querySelectorAll "opacity-" p in
  Dom.forEach elements (fun element => Dom.forEach element addOpacityStyle) (this, p).

(** A [MutationRecord], as far as the observer reads it: its [type], its
    [attributeName] and the pieces of [target.className.split(/\s+/)]. *)
Inductive mutationType : Type := attributes | childList.

Record MutationRecord : Type := mkRecord {
  type : mutationType;
  attributeName : option string;
  targetClassNames : list string;
}.

(** The observer's callback. *)
Definition inspect (mutations : list MutationRecord) (this : t) (p : Page) : t * Page :=
  Dom.forEach mutations
    (fun mutation st =>
       match type mutation with
       | attributes =>
           if decide (attributeName mutation = Some "class")
           then Dom.forEach (targetClassNames mutation) addOpacityStyle st
           else st
       | childList => st
       end)
    (this, p).

Definition initiateDomObserver (p : Page) : Page :=
  Dom.observe OpacityInspect p.

(** [new OpacityManager()] *)
Definition constructor (p : Page) : t * Page :=
  let '(sheet, p1) := Dom.newCSSStyleSheet p in
  let p2 := Dom.setAdoptedStyleSheets (adoptedStyleSheets p1 ++ [sheet]) p1 in
  let '(this, p3) :=
    applyInitialOpacityStyles {| processedClasses := ∅; styleSheet := sheet |} p2 in
  (this, initiateDomObserver p3).

End OpacityManager.

(** ** Border radius *)

Module BorderRadiusManager.

Record t : Type := mk {
  processedClasses : gset string;
  styleSheet : nat;
}.

(** [/rounded-(\d+)/] *)
Definition regex : Regex.regex :=
  Regex.word "rounded-" (Regex.Group (Regex.Plus Regex.isDigit)).

Definition calculateBorderRadius (className : string) : option Z :=
  match Regex.exec regex className with
  | Some (_, caps) =>
      let radius := Regex.text (Regex.group caps 0) in
      Some (JSNumber.parseInt radius)
  | None => None
  end.

Definition visit (className : string) (st : gset string * string) : gset string * string :=
  let '(processed, styles) := st in
  if negb (bool_decide (className ∈ processed)) then
    match calculateBorderRadius className with
    | Some borderRadius =>
        ({[ className ]} ∪ processed,
         styles +:+ "." +:+ className +:+ " { border-radius: "
           +:+ JSNumber.numberToString borderRadius +:+ "px; }" +:+ Str.nl)
    | None => st
    end
  else st.

Definition applyBorderRadiusStyles (this : t) (p : Page) : t * Page :=
  let elements := Dom.querySelectorAll "rounded-" p in
  let '(processed, styles) :=
    Dom.forEach elements (fun element => Dom.forEach element visit)
      (processedClasses this, EmptyString) in
  let this' := {| processedClasses := processed; styleSheet := styleSheet this |} in
  if decide (styles = EmptyString) then (this', p)
  else (this', Dom.replaceSync (styleSheet this) styles p).

Definition initiateDomObserver (p : Page) : Page :=
  Dom.observe BorderRadiusApplyStyles p.

(** [new BorderRadiusManager()] *)
Definition constructor (p : Page) : t * Page :=
  let '(sheet, p1) := Dom.newCSSStyleSheet p in
  let p2 := Dom.setAdoptedStyleSheets (adoptedStyleSheets p1 ++ [sheet]) p1 in
  let p3 := initiateDomObserver p2 in
  applyBorderRadiusStyles {| processedClasses := ∅; styleSheet := sheet |} p3.

End BorderRadiusManager.

(** ** Font size *)

Module FontSizeManager.

Record t : Type := mk {
  processedClasses : gset string;
  styleSheet : nat;
}.

(** [/fs-(\d+)/] *)
Definition regex : Regex.regex :=
  Regex.word "fs-" (Regex.Group (Regex.Plus Regex.isDigit)).

Definition calculateFontSize (className : string) : option Z :=
  match Regex.exec regex className with
  | Some (_, caps) => Some (JSNumber.parseInt (Regex.text (Regex.group caps 0)))
  | None => None
  end.

(** The body of the inner [forEach]; the state is the processed set and the
    array [acc] of the [reduce]. *)
Definition visit (className : string) (st : gset string * list string) : gset string * list string :=
  let '(processed, acc) := st in
  if negb (bool_decide (className ∈ processed)) then
    match calculateFontSize className with
    | Some fontSize =>
        ({[ className ]} ∪ processed,
         acc ++ ["." +:+ className +:+ " { font-size: "
                   +:+ JSNumber.numberToString fontSize +:+ "px; }"])
    | None => st
    end
  else st.

Definition applyFontSizeStyles (this : t) (p : Page) : t * Page :=
  let elements := Dom.querySelectorAll "fs-" p in
  let '(processed, styles) :=
    Dom.forEach elements (fun element => Dom.forEach element visit)
      (processedClasses this, []) in
  let this' := {| processedClasses := processed; styleSheet := styleSheet this |} in
  if (0 <? length styles)%nat
  then (this', Dom.replaceSync (styleSheet this) (Str.join Str.nl styles) p)
  else (this', p).

Definition initiateDomObserver (p : Page) : Page :=
  Dom.observe FontSizeApplyStyles p.

(** [new FontSizeManager()]: no scan, only the observer. *)
Definition constructor (p : Page) : t * Page :=
  let '(sheet, p1) := Dom.newCSSStyleSheet p in
  let p2 := Dom.setAdoptedStyleSheets (adoptedStyleSheets p1 ++ [sheet]) p1 in
  ({| processedClasses := ∅; styleSheet := sheet |}, initiateDomObserver p2).

End FontSizeManager.

(** ** The coordinator *)

Module CSSManager.

Record t : Type := mk {
  screenSize : ScreenSize.t;
  spaceManager : SpaceManager.t;
  zIndexManager : ZIndexManager.t;
  opacityManager : OpacityManager.t;
  borderRadiusManager : BorderRadiusManager.t;
  fontSizeManager : FontSizeManager.t;
}.

Definition observeDomChanges (p : Page) : Page :=
  let p1 := SpaceManager.observeDomChanges p in
  let p2 := ZIndexManager.initiateDomObserver p1 in
  let p3 := OpacityManager.initiateDomObserver p2 in
  let p4 := BorderRadiusManager.initiateDomObserver p3 in
  FontSizeManager.initiateDomObserver p4.

(** [new CSSManager()] *)
Definition constructor (p : Page) : t * Page :=
  let '(screenSize, p1) := ScreenSize.constructor p in
  let '(spaceManager, p2) := SpaceManager.constructor p1 in
  let '(zIndexManager, p3) := ZIndexManager.constructor p2 in
  let '(opacityManager, p4) := OpacityManager.constructor p3 in
  let '(borderRadiusManager, p5) := BorderRadiusManager.constructor p4 in
  let '(fontSizeManager, p6) := FontSizeManager.constructor p5 in
  (mk screenSize spaceManager zIndexManager opacityManager
      borderRadiusManager fontSizeManager,
   observeDomChanges p6).

End CSSManager.

(** ** The script and its events

    The two statements at the end of the file build the coordinator and call
    [observeDomChanges] once more.  From then on the script only runs when
    the browser calls it back: on a [resize] event, when a timeout is due,
    and when mutation records are delivered.  An event carries the time at
    which the browser handles it. *)

Module Script.

Definition World : Type := CSSManager.t * Page.

Definition main (p : Page) : World :=
  let '(cssManager, p1) := CSSManager.constructor p in
  (cssManager, CSSManager.observeDomChanges p1).

Inductive event : Type :=
| Resize (width : Z)
| RunTimers
| Mutation (elements : list element) (records : list OpacityManager.MutationRecord).

Definition withScreenSize (x : ScreenSize.t) (m : CSSManager.t) : CSSManager.t :=
  CSSManager.mk x (CSSManager.spaceManager m) (CSSManager.zIndexManager m)
    (CSSManager.opacityManager m) (CSSManager.borderRadiusManager m)
    (CSSManager.fontSizeManager m).

Definition withSpaceManager (x : SpaceManager.t) (m : CSSManager.t) : CSSManager.t :=
  CSSManager.mk (CSSManager.screenSize m) x (CSSManager.zIndexManager m)
    (CSSManager.opacityManager m) (CSSManager.borderRadiusManager m)
    (CSSManager.fontSizeManager m).

Definition withZIndexManager (x : ZIndexManager.t) (m : CSSManager.t) : CSSManager.t :=
  CSSManager.mk (CSSManager.screenSize m) (CSSManager.spaceManager m) x
    (CSSManager.opacityManager m) (CSSManager.borderRadiusManager m)
    (CSSManager.fontSizeManager m).

Definition withOpacityManager (x : OpacityManager.t) (m : CSSManager.t) : CSSManager.t :=
  CSSManager.mk (CSSManager.screenSize m) (CSSManager.spaceManager m)
    (CSSManager.zIndexManager m) x (CSSManager.borderRadiusManager m)
    (CSSManager.fontSizeManager m).

Definition withBorderRadiusManager (x : BorderRadiusManager.t) (m : CSSManager.t) : CSSManager.t :=
  CSSManager.mk (CSSManager.screenSize m) (CSSManager.spaceManager m)
    (CSSManager.zIndexManager m) (CSSManager.opacityManager m) x
    (CSSManager.fontSizeManager m).

Definition withFontSizeManager (x : FontSizeManager.t) (m : CSSManager.t) : CSSManager.t :=
  CSSManager.mk (CSSManager.screenSize m) (CSSManager.spaceManager m)
    (CSSManager.zIndexManager m) (CSSManager.opacityManager m)
    (CSSManager.borderRadiusManager m) x.

(** The records an observer created with [attributeFilter: ['class']]
    receives. *)
Definition classRecords (records : list OpacityManager.MutationRecord) :
    list OpacityManager.MutationRecord :=
  filter (fun r : OpacityManager.MutationRecord =>
            match OpacityManager.type r with
            | OpacityManager.childList => true
            | OpacityManager.attributes =>
                bool_decide (OpacityManager.attributeName r = Some "class")
            end = true) records.

(** One observer is called back with its records; an observer without
    records is not called. *)
Definition callBack (records : list OpacityManager.MutationRecord)
    (cb : callback) (w : World) : callback * World :=
  let '(m, p) := w in
  match cb with
  | SpaceApplyStyles lastExecTime =>
      if (length records =? 0)%nat then (cb, w) else
      let '(last, (x, p1)) :=
        SpaceManager.throttled 300 lastExecTime (CSSManager.spaceManager m) p in
      (SpaceApplyStyles last, (withSpaceManager x m, p1))
  | ZIndexApplyStyles =>
      if (length records =? 0)%nat then (cb, w) else
      let '(x, p1) := ZIndexManager.applyZIndexStyles (CSSManager.zIndexManager m) p in
      (cb, (withZIndexManager x m, p1))
  | OpacityInspect =>
      if (length (classRecords records) =? 0)%nat then (cb, w) else
      let '(x, p1) :=
        OpacityManager.inspect (classRecords records) (CSSManager.opacityManager m) p in
      (cb, (withOpacityManager x m, p1))
  | BorderRadiusApplyStyles =>
      if (length records =? 0)%nat then (cb, w) else
      let '(x, p1) :=
        BorderRadiusManager.applyBorderRadiusStyles (CSSManager.borderRadiusManager m) p in
      (cb, (withBorderRadiusManager x m, p1))
  | FontSizeApplyStyles =>
      if (length records =? 0)%nat then (cb, w) else
      let '(x, p1) := FontSizeManager.applyFontSizeStyles (CSSManager.fontSizeManager m) p in
      (cb, (withFontSizeManager x m, p1))
  end.

(** The observers are called in the order of their creation. *)
Fixpoint deliver (records : list OpacityManager.MutationRecord)
    (cbs : list callback) (w : World) : list callback * World :=
  match cbs with
  | [] => ([], w)
  | cb :: rest =>
      let '(cb1, w1) := callBack records cb w in
      let '(rest1, w2) := deliver records rest w1 in
      (cb1 :: rest1, w2)
  end.

(** The timeouts due at the page's clock run, oldest first; each run is one
    call of [updateDeviceType], whose published breakpoint is reported. *)
Fixpoint fire (pending : list (nat * Z)) (p : Page) : list ScreenSize.breakpoint * Page :=
  match pending with
  | [] => ([], p)
  | (id, due) :: rest =>
      if due <=? clock p then
        let p1 := Dom.clearTimeout (Some id) p in
        let b := ScreenSize.getDeviceTypeAndContainer p1 in
        let '(bs, p2) := fire rest (ScreenSize.updateDeviceType p1) in
        (b :: bs, p2)
      else fire rest p
  end.

(** The browser handles event [e] at time [now]; the result lists the
    breakpoint recomputations the event caused. *)
Definition handle (now : Z) (e : event) (w : World) : list ScreenSize.breakpoint * World :=
  let '(m, p0) := w in
  let p := Dom.setClock now p0 in
  match e with
  | Resize width =>
      let '(x, p1) :=
        ScreenSize.debounced 300 (CSSManager.screenSize m) (Dom.setInnerWidth width p) in
      ([], (withScreenSize x m, p1))
  | RunTimers =>
      let '(bs, p1) := fire (timers p) p in
      (bs, (m, p1))
  | Mutation elements records =>
      let p1 := Dom.setBody elements p in
      let '(cbs, (m1, p2)) := deliver records (observers p1) (m, p1) in
      ([], (m1, Dom.setObservers cbs p2))
  end.

Fixpoint run (trace : list (Z * event)) (w : World) : list ScreenSize.breakpoint * World :=
  match trace with
  | [] => ([], w)
  | (now, e) :: rest =>
      let '(bs1, w1) := handle now e w in
      let '(bs2, w2) := run rest w1 in
      (bs1 ++ bs2, w2)
  end.

End Script.

(** ** The common shape of the scans

    Each of the five scans visits class names one by one, skips a name its
    manager has processed, and otherwise asks a category function for the
    rule to emit; [step] is that shape, over any way [emit] of storing the
    rule.  The functions [spaceRule], ..., [fontSizeRule] give, per category,
    the text a scan emits for a class name. *)

Module Engine.

Section Step.
Context {B : Type}.
Variable ruleOf : string -> option string.
Variable emit : string -> B -> B.

Definition step (className : string) (st : gset string * B) : gset string * B :=
  if decide (className ∈ st.1) then st
  else match ruleOf className with
       | Some rule => ({[ className ]} ∪ st.1, emit rule st.2)
       | None => st
       end.

Definition sweep (elements : list element) (st : gset string * B) : gset string * B :=
  Dom.forEach elements (fun element => Dom.forEach element step) st.
End Step.

Definition declaration (property value : string) : string :=
  property +:+ ": " +:+ value +:+ ";".

Definition spaceRule (className : string) : option string :=
  match SpaceManager.calculateSpaceValue className with
  | None => None
  | Some d =>
      match SpaceManager.lookup (SpaceManager.styleType d) SpaceManager.cssPropertyMap with
      | None => None
      | Some cssProperty =>
          Some (snd (SpaceManager.visit className (∅, EmptyString)))
      end
  end.

Definition zIndexRule (className : string) : option string :=
  match ZIndexManager.calculateZIndex className with
  | Some zIndex =>
      Some ("." +:+ className +:+ " { z-index: "
              +:+ JSNumber.numberToString zIndex +:+ "; }" +:+ Str.nl)
  | None => None
  end.

Definition opacityRule (className : string) : option string :=
  if Str.startsWith "opacity-" className then
    match OpacityManager.calculateOpacity className with
    | Some opacity =>
        Some ("." +:+ className +:+ " { opacity: "
                +:+ JSNumber.tenthsToString opacity +:+ "; }")
    | None => None
    end
  else None.

Definition borderRadiusRule (className : string) : option string :=
  match BorderRadiusManager.calculateBorderRadius className with
  | Some borderRadius =>
      Some ("." +:+ className +:+ " { border-radius: "
              +:+ JSNumber.numberToString borderRadius +:+ "px; }" +:+ Str.nl)
  | None => None
  end.

Definition fontSizeRule (className : string) : option string :=
  match FontSizeManager.calculateFontSize className with
  | Some fontSize =>
      Some ("." +:+ className +:+ " { font-size: "
              +:+ JSNumber.numberToString fontSize +:+ "px; }")
  | None => None
  end.

(** The two buffers of the scans: a text that grows at its end, and an
    array that is pushed to. *)
Definition appendText (rule text : string) : string := text +:+ rule.

Definition push (rule : string) (acc : list string) : list string := acc ++ [rule].

(** The opacity manager keeps no buffer: a rule goes straight into the
    manager's sheet. *)
Definition opacityState (sheet : nat) (st : gset string * Page) : OpacityManager.t * Page :=
  (OpacityManager.mk st.1 sheet, st.2).

(** The class lists the opacity observer reads in a batch of records. *)
Definition inspected (mutations : list OpacityManager.MutationRecord) : list element :=
  flat_map
    (fun m =>
       match OpacityManager.type m with
       | OpacityManager.attributes =>
           if decide (OpacityManager.attributeName m = Some "class")
           then [OpacityManager.targetClassNames m] else []
       | OpacityManager.childList => []
       end) mutations.

End Engine.

(** ** The specification's vocabulary

    Definitions that follow the words of the specification, to be compared
    with the ones above. *)

Module Spec.

(** The threshold table: a row [(bound, name, container)] applies to the
    widths below [bound] that no earlier row takes. *)
Definition thresholds : list (Z * ScreenSize.breakpoint) :=
  [ (576, ScreenSize.mkBreakpoint "xs" "100%");
    (768, ScreenSize.mkBreakpoint "sm" "540px");
    (992, ScreenSize.mkBreakpoint "md" "720px");
    (1200, ScreenSize.mkBreakpoint "lg" "960px");
    (1400, ScreenSize.mkBreakpoint "xl" "1140px") ].

Fixpoint lookupWidth (rows : list (Z * ScreenSize.breakpoint)) (width : Z) : ScreenSize.breakpoint :=
  match rows with
  | [] => ScreenSize.mkBreakpoint "xxl" "1320px"
  | (bound, b) :: rest => if width <? bound then b else lookupWidth rest width
  end.

(** A non-empty run of digits. *)
Definition digits (s : string) : Prop :=
  s <> EmptyString /\ forallb Regex.isDigit (list_ascii_of_string s) = true.

(** The prefix table of the spacing category: the CSS properties a prefix
    stands for. *)
Definition spacingProperties (prefix : string) : option (list string) :=
  if decide (prefix = "m") then Some ["margin"]
  else if decide (prefix = "mt") then Some ["margin-top"]
  else if decide (prefix = "mb") then Some ["margin-bottom"]
  else if decide (prefix = "ml") then Some ["margin-left"]
  else if decide (prefix = "mr") then Some ["margin-right"]
  else if decide (prefix = "mx") then Some ["margin-left"; "margin-right"]
  else if decide (prefix = "my") then Some ["margin-top"; "margin-bottom"]
  else if decide (prefix = "p") then Some ["padding"]
  else if decide (prefix = "pt") then Some ["padding-top"]
  else if decide (prefix = "pb") then Some ["padding-bottom"]
  else if decide (prefix = "pl") then Some ["padding-left"]
  else if decide (prefix = "pr") then Some ["padding-right"]
  else if decide (prefix = "px") then Some ["padding-left"; "padding-right"]
  else if decide (prefix = "py") then Some ["padding-top"; "padding-bottom"]
  else None.

(** The integer the payload writes, negated under the trailing [n]. *)
Definition signed (payload : string) (negative : bool) : Z :=
  if negative then - JSNumber.decimal payload else JSNumber.decimal payload.

Definition flag (negative : bool) : string := if negative then "n" else "".

(** [payload * 0.25], signed, with two decimal places. *)
Definition quarters (payload : string) (negative : bool) : string :=
  JSNumber.toFixed2 (25 * signed payload negative).

(** A rule [.className { property: value; ... }]. *)
Definition rule (className : string) (declarations : list (string * string)) : string :=
  "." +:+ className +:+ " { "
  +:+ Str.join " " (map (fun d : string * string => Engine.declaration d.1 d.2) declarations)
  +:+ " }".

(** The rule the specification gives a spacing class name
    [prefix-payload] or [prefix-payloadn]. *)
Definition spacingRule (prefix payload : string) (negative : bool) : option string :=
  match spacingProperties prefix with
  | None => None
  | Some props =>
      Some (rule (prefix +:+ "-" +:+ payload +:+ flag negative)
              (map (fun property => (property, quarters payload negative +:+ "rem")) props))
  end.

(** A visit emits [rule] for [className]: whatever the manager has
    processed, short of [className] itself, the rule is appended to the
    scan's buffer and [className] joins the processed set. *)
Definition emitsText (visit : string -> gset string * string -> gset string * string)
    (className rule : string) : Prop :=
  forall (S : gset string) (text : string),
    className ∉ S ->
    visit className (S, text) = ({[ className ]} ∪ S, text +:+ rule +:+ Str.nl).

Definition emitsItem
    (visit : string -> gset string * list string -> gset string * list string)
    (className rule : string) : Prop :=
  forall (S : gset string) (acc : list string),
    className ∉ S ->
    visit className (S, acc) = ({[ className ]} ∪ S, acc ++ [rule]).

(** What the specification says of a spacing class name: the visit emits
    the rule of the table, and so does the scan of a document whose one
    element carries that one class name, in a sheet of its own. *)
Definition spacingClaim (prefix payload : string) (negative : bool) : Prop :=
  exists r,
    spacingRule prefix payload negative = Some r /\
    emitsText SpaceManager.visit (prefix +:+ "-" +:+ payload +:+ flag negative) r /\
    forall (this : SpaceManager.t) (p : Page),
      body p = [[prefix +:+ "-" +:+ payload +:+ flag negative]] ->
      prefix +:+ "-" +:+ payload +:+ flag negative ∉ SpaceManager.processedClassNames this ->
      SpaceManager.applyStyles this p
      = (SpaceManager.mk
           ({[ prefix +:+ "-" +:+ payload +:+ flag negative ]}
              ∪ SpaceManager.processedClassNames this),
         Dom.setAdoptedStyleSheets (adoptedStyleSheets p ++ [length (sheets p)])
           (Dom.replaceSync (length (sheets p)) (r +:+ Str.nl)
              (Dom.newCSSStyleSheet p).2)).

(** What the specification says of the z-index, border-radius and font-size
    class names with a given payload: the value is the integer written,
    negated under [n] for the z-index, without a unit for the z-index and in
    [px] for the other two; the visit emits the rule with that value, and
    the scan of a document whose one element carries that one class name
    commits it to the manager's sheet. *)
Definition zIndexClaim (payload : string) (negative : bool) : Prop :=
  let c := "z-" +:+ payload +:+ flag negative in
  let r := rule c [("z-index", JSNumber.numberToString (signed payload negative))] in
  ZIndexManager.calculateZIndex c = Some (signed payload negative) /\
  emitsText ZIndexManager.visit c r /\
  forall (this : ZIndexManager.t) (p : Page),
    body p = [[c]] -> c ∉ ZIndexManager.processedClasses this ->
    ZIndexManager.applyZIndexStyles this p
    = (ZIndexManager.mk ({[ c ]} ∪ ZIndexManager.processedClasses this)
         (ZIndexManager.styleSheet this),
       Dom.replaceSync (ZIndexManager.styleSheet this) (r +:+ Str.nl) p).

Definition borderRadiusClaim (payload : string) : Prop :=
  let c := "rounded-" +:+ payload in
  let r := rule c [("border-radius",
                    JSNumber.numberToString (JSNumber.decimal payload) +:+ "px")] in
  BorderRadiusManager.calculateBorderRadius c = Some (JSNumber.decimal payload) /\
  emitsText BorderRadiusManager.visit c r /\
  forall (this : BorderRadiusManager.t) (p : Page),
    body p = [[c]] -> c ∉ BorderRadiusManager.processedClasses this ->
    BorderRadiusManager.applyBorderRadiusStyles this p
    = (BorderRadiusManager.mk ({[ c ]} ∪ BorderRadiusManager.processedClasses this)
         (BorderRadiusManager.styleSheet this),
       Dom.replaceSync (BorderRadiusManager.styleSheet this) (r +:+ Str.nl) p).

Definition fontSizeClaim (payload : string) : Prop :=
  let c := "fs-" +:+ payload in
  let r := rule c [("font-size",
                    JSNumber.numberToString (JSNumber.decimal payload) +:+ "px")] in
  FontSizeManager.calculateFontSize c = Some (JSNumber.decimal payload) /\
  emitsItem FontSizeManager.visit c r /\
  forall (this : FontSizeManager.t) (p : Page),
    body p = [[c]] -> c ∉ FontSizeManager.processedClasses this ->
    FontSizeManager.applyFontSizeStyles this p
    = (FontSizeManager.mk ({[ c ]} ∪ FontSizeManager.processedClasses this)
         (FontSizeManager.styleSheet this),
       Dom.replaceSync (FontSizeManager.styleSheet this) r p).

Definition integerClaim (payload : string) : Prop :=
  (forall negative : bool, zIndexClaim payload negative) /\
  borderRadiusClaim payload /\
  fontSizeClaim payload.

(** [level / 10] in decimal notation, for the levels 1 to 10. *)
Definition tenth (level : Z) : string :=
  nth (Z.to_nat (level - 1))
    ["0.1"; "0.2"; "0.3"; "0.4"; "0.5"; "0.6"; "0.7"; "0.8"; "0.9"; "1"] "".

(** [s] as a whole has the shape of the pattern [r]. *)
Definition hasShape (r : Regex.regex) (s : string) : bool :=
  match Regex.matchAt r s
          (fun _ _ rest => if decide (rest = EmptyString) then Some tt else None) with
  | Some _ => true
  | None => false
  end.

(** Every event of a trace comes less than [delay] after the resize before
    it ([last] is the time of the latest resize so far), and no event is a
    mutation. *)
Fixpoint burst (delay : Z) (last : option Z) (trace : list (Z * Script.event)) : bool :=
  match trace with
  | [] => true
  | (now, e) :: rest =>
      match last with
      | Some t0 => (t0 <=? now) && (now <? t0 + delay)
      | None => true
      end
      && match e with
         | Script.Resize _ => burst delay (Some now) rest
         | Script.RunTimers => burst delay last rest
         | Script.Mutation _ _ => false
         end
  end.

(** The resizes of a trace, as pairs of a time and a width. *)
Definition resizes (trace : list (Z * Script.event)) : list (Z * Z) :=
  flat_map (fun te : Z * Script.event =>
              match te.2 with Script.Resize w => [(te.1, w)] | _ => [] end) trace.

(** What the debounce keeps between two events: no timeout is pending, or
    exactly the one set by the latest resize, whose id the closure holds and
    which is due 300 ms after that resize; the viewport has the width of
    that resize. *)
Definition pending (latest : option (Z * Z)) (w : Script.World) : Prop :=
  match latest with
  | None => timers w.2 = []
  | Some (t0, w0) =>
      exists id : nat,
        timers w.2 = [(id, t0 + 300)] /\
        ScreenSize.timeout (CSSManager.screenSize w.1) = Some id /\
        innerWidth w.2 = w0
  end.

(** The latest resize of a trace, or [latest] when the trace has none. *)
Definition latestResize (latest : option (Z * Z)) (trace : list (Z * Script.event)) :
    option (Z * Z) :=
  match last (resizes trace) with
  | Some x => Some x
  | None => latest
  end.

End Spec.

(** ** What a pattern matches

    The texts a pattern matches, with the captures of each match: the
    declarative reading of the five patterns, against which the matcher is
    checked. *)

Module Lang.

Inductive matches : Regex.regex -> string -> list (option string) -> Prop :=
| matches_class (p : ascii -> bool) (c : ascii) :
    p c = true -> matches (Regex.Class p) (String c EmptyString) []
| matches_seq (r1 r2 : Regex.regex) (t1 t2 : string) (c1 c2 : list (option string)) :
    matches r1 t1 c1 -> matches r2 t2 c2 ->
    matches (Regex.Seq r1 r2) (t1 +:+ t2) (c1 ++ c2)
| matches_opt_some (r : Regex.regex) (t : string) (c : list (option string)) :
    matches r t c -> matches (Regex.Opt r) t c
| matches_opt_none (r : Regex.regex) :
    matches (Regex.Opt r) EmptyString (replicate (Regex.groups r) None)
| matches_plus (p : ascii -> bool) (t : string) :
    t <> EmptyString -> forallb p (list_ascii_of_string t) = true ->
    matches (Regex.Plus p) t []
| matches_group (r : Regex.regex) (t : string) (c : list (option string)) :
    matches r t c -> matches (Regex.Group r) t (Some t :: c).

(** [t] occurs in [s]. *)
Definition occursIn (t s : string) : Prop :=
  exists before after : string, s = before +:+ t +:+ after.

End Lang.

(** ** Frames

    What a step may change on the page, and when a scan has nothing left to
    do. *)

Module Frame.

(** [q] has the viewport, the elements, the observers, the clock and the
    timeouts of [p]. *)
Definition sameEnvironment (p q : Page) : Prop :=
  innerWidth q = innerWidth p /\ body q = body p /\ observers q = observers p /\
  clock q = clock p /\ timers q = timers p /\ nextTimer q = nextTimer p.

(** [q] is [p] but for the rules of the sheet [sheet]. *)
Definition onlySheet (sheet : nat) (p q : Page) : Prop :=
  sameEnvironment p q /\
  adoptedStyleSheets q = adoptedStyleSheets p /\
  length (sheets q) = length (sheets p) /\
  forall i : nat, i <> sheet -> sheets q !! i = sheets p !! i.

(** Every class name of [elements] is processed or has no rule. *)
Definition settled (ruleOf : string -> option string) (elements : list element)
    (S : gset string) : Prop :=
  forall (el : element) (c : string), el ∈ elements -> c ∈ el -> c ∈ S \/ ruleOf c = None.

(** The observer [cb] has nothing left to do in the world [w] for the
    records [records]: it would not run, or its manager is settled. *)
Definition served (records : list OpacityManager.MutationRecord) (cb : callback)
    (w : Script.World) : Prop :=
  match cb with
  | SpaceApplyStyles lastExecTime =>
      length records <> 0%nat -> 300 <= clock w.2 - lastExecTime ->
      settled Engine.spaceRule (Dom.querySelectorAll "-" w.2)
        (SpaceManager.processedClassNames (CSSManager.spaceManager w.1))
  | ZIndexApplyStyles =>
      length records <> 0%nat ->
      settled Engine.zIndexRule (Dom.querySelectorAll "z-" w.2)
        (ZIndexManager.processedClasses (CSSManager.zIndexManager w.1))
  | OpacityInspect =>
      settled Engine.opacityRule (Engine.inspected (Script.classRecords records))
        (OpacityManager.processedClasses (CSSManager.opacityManager w.1))
  | BorderRadiusApplyStyles =>
      length records <> 0%nat ->
      settled Engine.borderRadiusRule (Dom.querySelectorAll "rounded-" w.2)
        (BorderRadiusManager.processedClasses (CSSManager.borderRadiusManager w.1))
  | FontSizeApplyStyles =>
      length records <> 0%nat ->
      settled Engine.fontSizeRule (Dom.querySelectorAll "fs-" w.2)
        (FontSizeManager.processedClasses (CSSManager.fontSizeManager w.1))
  end.


(** The five observers one call of [observeDomChanges] registers. *)
Definition fiveObservers : list callback :=
  [SpaceApplyStyles 0; ZIndexApplyStyles; OpacityInspect;
   BorderRadiusApplyStyles; FontSizeApplyStyles].

(** What running observers may do to the world: the environment and the
    debounce closure stay, the processed sets grow, the managers keep their
    sheets, no sheet is removed, and a sheet newly adopted is a new sheet. *)
Record advances (w w' : Script.World) : Prop := mkAdvances {
  advances_environment : sameEnvironment w.2 w'.2;
  advances_screenSize : CSSManager.screenSize w'.1 = CSSManager.screenSize w.1;
  advances_space :
    SpaceManager.processedClassNames (CSSManager.spaceManager w.1)
    ⊆ SpaceManager.processedClassNames (CSSManager.spaceManager w'.1);
  advances_zIndex :
    ZIndexManager.processedClasses (CSSManager.zIndexManager w.1)
    ⊆ ZIndexManager.processedClasses (CSSManager.zIndexManager w'.1);
  advances_opacity :
    OpacityManager.processedClasses (CSSManager.opacityManager w.1)
    ⊆ OpacityManager.processedClasses (CSSManager.opacityManager w'.1);
  advances_borderRadius :
    BorderRadiusManager.processedClasses (CSSManager.borderRadiusManager w.1)
    ⊆ BorderRadiusManager.processedClasses (CSSManager.borderRadiusManager w'.1);
  advances_fontSize :
    FontSizeManager.processedClasses (CSSManager.fontSizeManager w.1)
    ⊆ FontSizeManager.processedClasses (CSSManager.fontSizeManager w'.1);
  advances_zIndexSheet :
    ZIndexManager.styleSheet (CSSManager.zIndexManager w'.1)
    = ZIndexManager.styleSheet (CSSManager.zIndexManager w.1);
  advances_opacitySheet :
    OpacityManager.styleSheet (CSSManager.opacityManager w'.1)
    = OpacityManager.styleSheet (CSSManager.opacityManager w.1);
  advances_borderRadiusSheet :
    BorderRadiusManager.styleSheet (CSSManager.borderRadiusManager w'.1)
    = BorderRadiusManager.styleSheet (CSSManager.borderRadiusManager w.1);
  advances_fontSizeSheet :
    FontSizeManager.styleSheet (CSSManager.fontSizeManager w'.1)
    = FontSizeManager.styleSheet (CSSManager.fontSizeManager w.1);
  advances_sheets : (length (sheets w.2) <= length (sheets w'.2))%nat;
  advances_adopted :
    forall i : nat, i ∈ adoptedStyleSheets w'.2 ->
      i ∈ adoptedStyleSheets w.2 \/ (length (sheets w.2) <= i)%nat;
}.

(** [q] is [p] with the observer [cb] registered after those of [p]. *)
Definition registers (cb : callback) (p q : Page) : Prop :=
  innerWidth q = innerWidth p /\ body q = body p /\ clock q = clock p /\
  timers q = timers p /\ nextTimer q = nextTimer p /\
  observers q = observers p ++ [cb].

(** [q] has the sheets of [p] and one more, [sheet], adopted last. *)
Definition allocates (sheet : nat) (p q : Page) : Prop :=
  sheet = length (sheets p) /\
  length (sheets q) = S (length (sheets p)) /\
  adoptedStyleSheets q = adoptedStyleSheets p ++ [sheet] /\
  forall i : nat, (i < length (sheets p))%nat -> sheets q !! i = sheets p !! i.

(** The world the script builds on the page [p]: the page keeps its
    viewport, elements, clock and timeouts; no resize is pending; the
    breakpoint's sheet and the sheets of the four managers that own one are
    new, in this order, and these five are the adopted sheets; each of the
    five observers is registered three times. *)
Record built (p : Page) (w : Script.World) : Prop := mkBuilt {
  built_innerWidth : innerWidth w.2 = innerWidth p;
  built_body : body w.2 = body p;
  built_clock : clock w.2 = clock p;
  built_timers : timers w.2 = timers p;
  built_nextTimer : nextTimer w.2 = nextTimer p;
  built_observers :
    observers w.2 = observers p ++ fiveObservers ++ fiveObservers ++ fiveObservers;
  built_timeout : ScreenSize.timeout (CSSManager.screenSize w.1) = None;
  built_sheets : length (sheets w.2) = (length (sheets p) + 5)%nat;
  built_adopted :
    adoptedStyleSheets w.2 = seq (length (sheets p)) 5;
  built_zIndexSheet :
    ZIndexManager.styleSheet (CSSManager.zIndexManager w.1) = (length (sheets p) + 1)%nat;
  built_opacitySheet :
    OpacityManager.styleSheet (CSSManager.opacityManager w.1) = (length (sheets p) + 2)%nat;
  built_borderRadiusSheet :
    BorderRadiusManager.styleSheet (CSSManager.borderRadiusManager w.1)
    = (length (sheets p) + 3)%nat;
  built_fontSizeSheet :
    FontSizeManager.styleSheet (CSSManager.fontSizeManager w.1) = (length (sheets p) + 4)%nat;
}.

(** The four managers that own a sheet own four different sheets of the
    store. *)
Definition wellFormed (w : Script.World) : Prop :=
  let z := ZIndexManager.styleSheet (CSSManager.zIndexManager w.1) in
  let o := OpacityManager.styleSheet (CSSManager.opacityManager w.1) in
  let b := BorderRadiusManager.styleSheet (CSSManager.borderRadiusManager w.1) in
  let f := FontSizeManager.styleSheet (CSSManager.fontSizeManager w.1) in
  ((z < length (sheets w.2))%nat /\ (o < length (sheets w.2))%nat /\
   (b < length (sheets w.2))%nat /\ (f < length (sheets w.2))%nat) /\
  (z <> o /\ z <> b /\ z <> f /\ o <> b /\ o <> f /\ b <> f).

(** No sheet of these four managers is adopted. *)
Definition detached (w : Script.World) : Prop :=
  forall i : nat, i ∈ adoptedStyleSheets w.2 ->
    i <> ZIndexManager.styleSheet (CSSManager.zIndexManager w.1) /\
    i <> OpacityManager.styleSheet (CSSManager.opacityManager w.1) /\
    i <> BorderRadiusManager.styleSheet (CSSManager.borderRadiusManager w.1) /\
    i <> FontSizeManager.styleSheet (CSSManager.fontSizeManager w.1).

(** The sheet of the opacity manager holds one rule for each processed
    class name, and nothing else. *)
Definition oneRulePerClass (this : OpacityManager.t) (p : Page) : Prop :=
  exists rules : list string,
    sheets p !! OpacityManager.styleSheet this = Some rules /\
    length rules = size (OpacityManager.processedClasses this) /\
    forall rule : string,
      rule ∈ rules <->
      exists c : string,
        c ∈ OpacityManager.processedClasses this /\ Engine.opacityRule c = Some rule.

(** The sheet [i] is the one the manager behind the observer [cb] writes
    to; the spacing manager holds no sheet. *)
Definition owns (cb : callback) (m : CSSManager.t) (i : nat) : Prop :=
  match cb with
  | SpaceApplyStyles _ => False
  | ZIndexApplyStyles => i = ZIndexManager.styleSheet (CSSManager.zIndexManager m)
  | OpacityInspect => i = OpacityManager.styleSheet (CSSManager.opacityManager m)
  | BorderRadiusApplyStyles =>
      i = BorderRadiusManager.styleSheet (CSSManager.borderRadiusManager m)
  | FontSizeApplyStyles => i = FontSizeManager.styleSheet (CSSManager.fontSizeManager m)
  end.






End Frame.

(** * Properties *)

(** ** Strings *)

Section StringFacts.

Lemma append_nil_l (s : string) : "" +:+ s = s.
Proof. reflexivity. Qed.

Lemma append_cons (c : ascii) (s t : string) : String c s +:+ t = String c (s +:+ t).
Proof. reflexivity. Qed.

Lemma append_nil_r (s : string) : s +:+ "" = s.
Proof. induction s as [|c s IH]; [reflexivity | rewrite append_cons; f_equal; exact IH]. Qed.

Lemma append_assoc (a b c : string) : (a +:+ b) +:+ c = a +:+ (b +:+ c).
Proof.
  induction a as [|x a IH]; [reflexivity | rewrite !append_cons; f_equal; exact IH].
Qed.

Lemma append_snoc (a : string) (c : ascii) (b : string) :
  (a +:+ String c "") +:+ b = a +:+ String c b.
Proof. now rewrite append_assoc. Qed.

Lemma append_nil_inv (a b : string) : a +:+ b = "" -> a = "" /\ b = "".
Proof. destruct a; [auto | rewrite append_cons; discriminate]. Qed.

End StringFacts.

(** ** The matcher on a run of digits *)

Section RegexFacts.
Context {R : Type}.

(** On a run of class characters that stops, the greedy [+] takes the whole
    run when the continuation accepts it. *)
Lemma plus_run (p : ascii -> bool) (run rest acc : string)
    (k : string -> string -> option R) (x : R) :
  run <> "" ->
  forallb p (list_ascii_of_string run) = true ->
  Regex.stops p rest ->
  k (acc +:+ run) rest = Some x ->
  Regex.plus p (run +:+ rest) acc k = Some x.
Proof.
  revert acc. induction run as [|c run IH]; intros acc Hne Hall Hstop Hk.
  - congruence.
  - simpl in Hall. apply andb_true_iff in Hall as [Hc Hall].
    rewrite append_cons. simpl. rewrite Hc.
    destruct run as [|c' run'].
    + rewrite append_nil_l. destruct rest as [|d rest'].
      * simpl. exact Hk.
      * simpl in Hstop |- *. rewrite Hstop. exact Hk.
    + rewrite (IH (acc +:+ String c "")); try easy.
      now rewrite append_snoc.
Qed.
End RegexFacts.

(** ** Numbers *)

Section NumberFacts.

Lemma digitValue_range (c : ascii) :
  Regex.isDigit c = true -> 0 <= JSNumber.digitValue c <= 9.
Proof.
  unfold Regex.isDigit, JSNumber.digitValue. intros H.
  apply andb_true_iff in H as [H1 H2].
  apply Nat.leb_le in H1, H2. lia.
Qed.

Lemma decimalFrom_nonneg (s : string) (acc : Z) :
  0 <= acc -> 0 <= JSNumber.decimalFrom acc s.
Proof.
  revert acc. induction s as [|c s IH]; intros acc Hacc; simpl; [exact Hacc|].
  destruct (Regex.isDigit c) eqn:Hc; [|exact Hacc].
  apply IH. pose proof (digitValue_range c Hc). lia.
Qed.

Lemma decimal_nonneg (s : string) : 0 <= JSNumber.decimal s.
Proof. apply decimalFrom_nonneg. lia. Qed.

(** Up to [2^53] every natural number is a binary64 value. *)
Lemma toNumber_exact (n : Z) : 0 <= n <= 2 ^ 53 -> JSNumber.toNumber n = n.
Proof.
  intros [H0 H53]. unfold JSNumber.toNumber.
  destruct (Z.eq_dec n (2 ^ 53)) as [->|Hne]; [reflexivity|].
  destruct (Z.eq_dec n 0) as [->|Hn0]; [reflexivity|].
  assert (Z.log2 n < 53) by (apply Z.log2_lt_pow2; lia).
  destruct (Z.leb_spec (Z.log2 n + 1) 53); [reflexivity | lia].
Qed.

(** Rounding never brings a larger number below [2^53]. *)
Lemma toNumber_large (n : Z) : 2 ^ 53 <= n -> 2 ^ 53 <= JSNumber.toNumber n.
Proof.
  intros H. unfold JSNumber.toNumber.
  assert (Hpos : 0 < n) by lia.
  assert (Hlog : 53 <= Z.log2 n) by (apply Z.log2_le_pow2; lia).
  destruct (Z.leb_spec (Z.log2 n + 1) 53); [lia|].
  set (e := Z.log2 n + 1 - 53).
  assert (He : 1 <= e) by (unfold e; lia).
  set (q := Z.shiftr n e).
  assert (Hq : 2 ^ 52 <= q).
  { unfold q. rewrite Z.shiftr_div_pow2 by lia.
    apply Z.div_le_lower_bound; [apply Z.pow_pos_nonneg; lia|].
    rewrite <- Z.pow_add_r by lia.
    replace (e + 52) with (Z.log2 n) by (unfold e; lia).
    apply Z.log2_spec. lia. }
  match goal with |- _ <= Z.shiftl ?q' e => assert (Hq' : 2 ^ 52 <= q') end.
  { destruct (_ || _); lia. }
  rewrite Z.shiftl_mul_pow2 by lia.
  assert (2 ^ 1 <= 2 ^ e) by (apply Z.pow_le_mono_r; lia).
  change (2 ^ 53) with (2 ^ 52 * 2 ^ 1). 
  apply Z.mul_le_mono_nonneg; lia.
Qed.

Lemma parseInt_exact (s : string) :
  JSNumber.decimal s <= 2 ^ 53 -> JSNumber.parseInt s = JSNumber.decimal s.
Proof.
  intros H. apply toNumber_exact. split; [apply decimal_nonneg | exact H].
Qed.

(** [parseInt] decides a small range like the number written does. *)
Lemma parseInt_small (s : string) (b : Z) :
  b < 2 ^ 53 ->
  (JSNumber.parseInt s <= b <-> JSNumber.decimal s <= b).
Proof.
  intros Hb. unfold JSNumber.parseInt.
  destruct (Z.le_gt_cases (JSNumber.decimal s) (2 ^ 53)) as [Hle|Hgt].
  - rewrite toNumber_exact; [reflexivity|]. split; [apply decimal_nonneg | exact Hle].
  - pose proof (toNumber_large (JSNumber.decimal s)). lia.
Qed.

(** The text [numberToString] writes is the decimal notation of its
    argument. *)
Lemma numberToString_value (z : Z) :
  Z.of_int <$> NilEmpty.int_of_string (JSNumber.numberToString z) = Some z.
Proof.
  unfold JSNumber.numberToString. rewrite NilEmpty.isi. cbn.
  now rewrite DecimalZ.of_to.
Qed.

Lemma digitChar_digit (d : Z) :
  0 <= d <= 9 ->
  Regex.isDigit (JSNumber.digitChar d) = true /\
  JSNumber.digitValue (JSNumber.digitChar d) = d.
Proof.
  intros H.
  assert (E : d = 0 \/ d = 1 \/ d = 2 \/ d = 3 \/ d = 4 \/ d = 5 \/ d = 6 \/
              d = 7 \/ d = 8 \/ d = 9) by lia.
  repeat (destruct E as [->|E]; [split; reflexivity|]). subst. split; reflexivity.
Qed.

(** [toFixed2] writes a sign, the whole part, a point and exactly two
    digits, which together denote its argument. *)
Lemma toFixed2_two_decimals (h : Z) :
  exists d1 d2 : ascii,
    JSNumber.toFixed2 h
    = (if h <? 0 then "-" else "")
      +:+ JSNumber.numberToString (Z.abs h / 100)
      +:+ "." +:+ String d1 (String d2 "") /\
    Regex.isDigit d1 = true /\ Regex.isDigit d2 = true /\
    Z.abs h = 100 * (Z.abs h / 100) + 10 * JSNumber.digitValue d1 + JSNumber.digitValue d2.
Proof.
  exists (JSNumber.digitChar (Z.abs h mod 100 / 10)), (JSNumber.digitChar (Z.abs h mod 10)).
  split; [reflexivity|].
  assert (H1 : 0 <= Z.abs h mod 100 / 10 <= 9).
  { pose proof (Z.mod_pos_bound (Z.abs h) 100 ltac:(lia)).
    assert (Z.abs h mod 100 / 10 < 10) by (apply Z.div_lt_upper_bound; lia).
    split; [apply Z.div_pos; lia | lia]. }
  assert (H2 : 0 <= Z.abs h mod 10 <= 9)
    by (pose proof (Z.mod_pos_bound (Z.abs h) 10 ltac:(lia)); lia).
  destruct (digitChar_digit _ H1) as [D1 V1], (digitChar_digit _ H2) as [D2 V2].
  rewrite V1, V2. repeat split; try assumption.
  pose proof (Z.div_mod (Z.abs h) 100 ltac:(lia)).
  pose proof (Z.div_mod (Z.abs h mod 100) 10 ltac:(lia)).
  assert (Z.abs h mod 100 mod 10 = Z.abs h mod 10).
  { replace 100 with (10 * 10) by lia. rewrite Z.rem_mul_r by lia.
    rewrite Z.add_mod, Z.mul_comm, Z.mod_mul by lia. rewrite Z.add_0_r.
    now rewrite !Z.mod_mod by lia. }
  lia.
Qed.

End NumberFacts.

(** ** Breakpoints *)

Section Breakpoints.

(** The code's cascade of comparisons is the threshold table, read top
    down. *)
Lemma getDeviceTypeAndContainer_table (p : Page) :
  ScreenSize.getDeviceTypeAndContainer p = Spec.lookupWidth Spec.thresholds (innerWidth p).
Proof. reflexivity. Qed.

(** C3.  For every viewport width the breakpoint computation returns the
    pair of the threshold table, each bound being exclusive: below 576 it is
    (xs, 100%), from 576 and below 768 (sm, 540px), from 768 and below 992
    (md, 720px), from 992 and below 1200 (lg, 960px), from 1200 and below
    1400 (xl, 1140px), and from 1400 on (xxl, 1320px). *)
Theorem breakpoint_thresholds (p : Page) :
  let width := innerWidth p in
  let b := ScreenSize.getDeviceTypeAndContainer p in
  (width < 576 -> b = ScreenSize.mkBreakpoint "xs" "100%") /\
  (576 <= width < 768 -> b = ScreenSize.mkBreakpoint "sm" "540px") /\
  (768 <= width < 992 -> b = ScreenSize.mkBreakpoint "md" "720px") /\
  (992 <= width < 1200 -> b = ScreenSize.mkBreakpoint "lg" "960px") /\
  (1200 <= width < 1400 -> b = ScreenSize.mkBreakpoint "xl" "1140px") /\
  (1400 <= width -> b = ScreenSize.mkBreakpoint "xxl" "1320px").
Proof.
  cbv zeta. unfold ScreenSize.getDeviceTypeAndContainer.
  repeat split; intros H;
    repeat match goal with
           | |- context [?a <? ?b] => destruct (Z.ltb_spec a b); try lia
           end; reflexivity.
Qed.

(** The boundary widths 575, 576, 767 and 768, whatever else the page
    holds. *)
Lemma breakpoint_thresholds_witness :
  let at_ (width : Z) :=
    ScreenSize.deviceType
      (ScreenSize.getDeviceTypeAndContainer (Dom.load width [["m-4"]] 0)) in
  at_ 575 = "xs" /\ at_ 576 = "sm" /\ at_ 767 = "sm" /\ at_ 768 = "md".
Proof.
  cbv zeta. split; [|split; [|split]].
  - rewrite (proj1 (breakpoint_thresholds (Dom.load 575 [["m-4"]] 0))); [reflexivity | simpl; lia].
  - rewrite (proj1 (proj2 (breakpoint_thresholds (Dom.load 576 [["m-4"]] 0)))); [reflexivity | simpl; lia].
  - rewrite (proj1 (proj2 (breakpoint_thresholds (Dom.load 767 [["m-4"]] 0)))); [reflexivity | simpl; lia].
  - rewrite (proj1 (proj2 (proj2 (breakpoint_thresholds (Dom.load 768 [["m-4"]] 0))))); [reflexivity | simpl; lia].
Defined.

End Breakpoints.

(** ** Publishing the breakpoint *)

Section Publishing.

Lemma insert_at_end {A : Type} (l : list A) (x y : A) :
  <[length l := y]> (l ++ [x]) = l ++ [y].
Proof.
  rewrite insert_app_r_alt by lia. now rewrite Nat.sub_diag.
Qed.

(** The text of the rule [setCssVariables] writes for a breakpoint. *)
Lemma updateDeviceType_eq (p : Page) :
  let b := ScreenSize.getDeviceTypeAndContainer p in
  ScreenSize.updateDeviceType p =
  Dom.setAdoptedStyleSheets [length (sheets p)]
    (Dom.setSheets
       (sheets p ++
          [[":root { --device-type: " +:+ ScreenSize.deviceType b
              +:+ "; --container: " +:+ ScreenSize.container b +:+ "; }"]]) p).
Proof.
  cbv zeta.
  unfold ScreenSize.updateDeviceType, ScreenSize.setCssVariables,
    Dom.newCSSStyleSheet, Dom.replaceSync, Dom.setSheets, Dom.setAdoptedStyleSheets.
  cbn [sheets innerWidth body adoptedStyleSheets observers clock timers nextTimer].
  rewrite insert_at_end.
  unfold ScreenSize.getDeviceTypeAndContainer.
  repeat match goal with
         | |- context [?a <? ?b] => destruct (Z.ltb_spec a b)
         end; reflexivity.
Qed.

(** A timer turn that recomputed the breakpoint ends on a page that
    [updateDeviceType] produced. *)
Lemma fire_ends_on_update (pending : list (nat * Z)) (p : Page) :
  fst (Script.fire pending p) <> [] ->
  exists q, snd (Script.fire pending p) = ScreenSize.updateDeviceType q.
Proof.
  revert p. induction pending as [|[id due] rest IH]; intros p H; simpl in *.
  - congruence.
  - destruct (due <=? clock p).
    + destruct (Script.fire rest _) as [bs p2] eqn:E. simpl.
      destruct bs as [|b bs].
      * exists (Dom.clearTimeout (Some id) p).
        clear H. revert E. generalize (ScreenSize.updateDeviceType (Dom.clearTimeout (Some id) p)).
        clear. induction rest as [|[id' due'] rest IH']; intros q E; simpl in E.
        -- now inversion E.
        -- destruct (due' <=? clock q).
           ++ destruct (Script.fire rest _) as [bs' p3]. inversion E.
           ++ now apply IH'.
      * specialize (IH (ScreenSize.updateDeviceType (Dom.clearTimeout (Some id) p))).
        rewrite E in IH. apply IH. simpl. congruence.
    + now apply IH.
Qed.

(** C8.  Every breakpoint recomputation assigns to
    [document.adoptedStyleSheets] a list of exactly one sheet, newly built,
    whose only rule is the [:root] rule with the two custom properties; no
    sheet that existed before, adopted by whichever manager, is adopted
    afterwards.  This is so at construction and after every timer turn that
    ran the debounced update. *)
Theorem updateDeviceType_replaces_adopted (p : Page) :
  let b := ScreenSize.getDeviceTypeAndContainer p in
  let p' := ScreenSize.updateDeviceType p in
  adoptedStyleSheets p' = [length (sheets p)] /\
  sheets p' =
    sheets p ++
      [[":root { --device-type: " +:+ ScreenSize.deviceType b
          +:+ "; --container: " +:+ ScreenSize.container b +:+ "; }"]] /\
  (forall i : nat, (i < length (sheets p))%nat -> i ∉ adoptedStyleSheets p') /\
  snd (ScreenSize.constructor p) = p' /\
  (forall pending : list (nat * Z),
     fst (Script.fire pending p) <> [] ->
     exists sheet : nat,
       adoptedStyleSheets (snd (Script.fire pending p)) = [sheet] /\
       exists b' : ScreenSize.breakpoint,
         sheets (snd (Script.fire pending p)) !! sheet =
           Some [":root { --device-type: " +:+ ScreenSize.deviceType b'
                   +:+ "; --container: " +:+ ScreenSize.container b' +:+ "; }"]).
Proof.
  cbv zeta. rewrite updateDeviceType_eq. cbn [adoptedStyleSheets sheets Dom.setAdoptedStyleSheets Dom.setSheets].
  split; [reflexivity|]. split; [reflexivity|]. split; [|split].
  - intros i Hi Hin. apply list_elem_of_singleton in Hin. lia.
  - unfold ScreenSize.constructor. simpl. now rewrite updateDeviceType_eq.
  - intros pending H. destruct (fire_ends_on_update pending p H) as [q ->].
    rewrite updateDeviceType_eq.
    cbn [adoptedStyleSheets sheets Dom.setAdoptedStyleSheets Dom.setSheets].
    exists (length (sheets q)). split; [reflexivity|].
    exists (ScreenSize.getDeviceTypeAndContainer q).
    now apply list_lookup_middle.
Qed.

(** After the script has run on a page, the sheet of the z-index manager
    (sheet 1) is adopted; one recomputation later it is not. *)
Lemma updateDeviceType_replaces_adopted_witness :
  let p := snd (Script.main (Dom.load 1024 [["z-5n"]] 0)) in
  1%nat ∈ adoptedStyleSheets p /\
  1%nat ∉ adoptedStyleSheets (ScreenSize.updateDeviceType p).
Proof.
  cbv zeta. split.
  - vm_compute. apply list_elem_of_In. simpl. tauto.
  - apply (proj1 (proj2 (proj2 (updateDeviceType_replaces_adopted
             (snd (Script.main (Dom.load 1024 [["z-5n"]] 0))))))).
    apply Nat.ltb_lt. vm_compute. reflexivity.
Defined.

End Publishing.

(** ** Scans *)

Section EngineFacts.
Context {B : Type}.
Variable ruleOf : string -> option string.
Variable emit : string -> B -> B.

Local Abbreviation step := (Engine.step ruleOf emit).
Local Abbreviation sweep := (Engine.sweep ruleOf emit).

Lemma step_processed (c : string) (st : gset string * B) :
  c ∈ st.1 -> step c st = st.
Proof. intros H. unfold Engine.step. now destruct (decide (c ∈ st.1)). Qed.

Lemma step_grows (c : string) (st : gset string * B) : st.1 ⊆ (step c st).1.
Proof.
  unfold Engine.step. destruct (decide (c ∈ st.1)); [set_solver|].
  destruct (ruleOf c); simpl; set_solver.
Qed.

Lemma step_covers (c : string) (st : gset string * B) :
  c ∈ (step c st).1 \/ ruleOf c = None.
Proof.
  unfold Engine.step. destruct (decide (c ∈ st.1)); [now left|].
  destruct (ruleOf c); simpl; [left; set_solver | now right].
Qed.

Lemma visits_grow (el : element) (st : gset string * B) :
  st.1 ⊆ (Dom.forEach el step st).1.
Proof.
  revert st. induction el as [|c el IH]; intros st; simpl; [set_solver|].
  etransitivity; [apply (step_grows c) | apply IH].
Qed.

Lemma sweep_grows (els : list element) (st : gset string * B) :
  st.1 ⊆ (sweep els st).1.
Proof.
  revert st. induction els as [|el els IH]; intros st; simpl; [set_solver|].
  etransitivity; [apply (visits_grow el) | apply IH].
Qed.

Lemma visits_cover (el : element) (st : gset string * B) (c : string) :
  c ∈ el -> c ∈ (Dom.forEach el step st).1 \/ ruleOf c = None.
Proof.
  revert st. induction el as [|d el IH]; intros st Hc.
  - now apply elem_of_nil in Hc.
  - apply elem_of_cons in Hc as [->|Hc]; simpl.
    + destruct (step_covers d st) as [H|H]; [left | now right].
      now apply (visits_grow el).
    + now apply IH.
Qed.

Lemma sweep_covers (els : list element) (st : gset string * B) (el : element) (c : string) :
  el ∈ els -> c ∈ el -> c ∈ (sweep els st).1 \/ ruleOf c = None.
Proof.
  revert st. induction els as [|e els IH]; intros st Hel Hc.
  - now apply elem_of_nil in Hel.
  - apply elem_of_cons in Hel as [->|Hel]; simpl.
    + destruct (visits_cover e st c Hc) as [H|H]; [left | now right].
      now apply (sweep_grows els).
    + now apply IH.
Qed.

(** Nothing happens where every class name is processed or has no rule. *)
Lemma visits_settled (el : element) (st : gset string * B) :
  (forall c, c ∈ el -> c ∈ st.1 \/ ruleOf c = None) ->
  Dom.forEach el step st = st.
Proof.
  induction el as [|d el IH]; intros H; simpl; [reflexivity|].
  assert (Hd : step d st = st).
  { unfold Engine.step. destruct (decide (d ∈ st.1)); [reflexivity|].
    destruct (H d) as [H1|H1]; [left | tauto | now rewrite H1]. }
  rewrite Hd. apply IH. intros c Hc. apply H. now right.
Qed.

Lemma sweep_settled (els : list element) (st : gset string * B) :
  (forall el c, el ∈ els -> c ∈ el -> c ∈ st.1 \/ ruleOf c = None) ->
  sweep els st = st.
Proof.
  induction els as [|e els IH]; intros H; simpl; [reflexivity|].
  rewrite visits_settled.
  - apply IH. intros el c Hel Hc. apply (H el c); [now right | exact Hc].
  - intros c Hc. apply (H e c); [left | exact Hc].
Qed.

(** A sweep over elements that were just swept changes nothing. *)
Lemma sweep_again (els : list element) (st : gset string * B) (b : B) :
  sweep els ((sweep els st).1, b) = ((sweep els st).1, b).
Proof.
  apply sweep_settled. intros el c Hel Hc. simpl.
  now apply (sweep_covers els st el c).
Qed.
End EngineFacts.

Lemma forEach_ext {A S : Type} (f g : A -> S -> S) (xs : list A) (s : S) :
  (forall x s, f x s = g x s) -> Dom.forEach xs f s = Dom.forEach xs g s.
Proof.
  intros H. revert s. induction xs as [|x xs IH]; intros s; simpl; [reflexivity|].
  rewrite H. apply IH.
Qed.

Lemma forEach2_ext {A S : Type} (f g : A -> S -> S) (xss : list (list A)) (s : S) :
  (forall x s, f x s = g x s) ->
  Dom.forEach xss (fun xs => Dom.forEach xs f) s
  = Dom.forEach xss (fun xs => Dom.forEach xs g) s.
Proof.
  intros H. apply forEach_ext. intros xs s'. now apply forEach_ext.
Qed.

(** ** The five scans are instances of the common shape *)

Section Instances.

Lemma forEach_cons {A S : Type} (f : A -> S -> S) (x : A) (xs : list A) (s : S) :
  Dom.forEach (x :: xs) f s = Dom.forEach xs f (f x s).
Proof. reflexivity. Qed.

Lemma space_visit (c : string) (st : gset string * string) :
  SpaceManager.visit c st = Engine.step Engine.spaceRule Engine.appendText c st.
Proof.
  destruct st as [S buf].
  unfold Engine.step, Engine.spaceRule, SpaceManager.visit, Engine.appendText.
  cbn [fst snd].
  destruct (decide (c ∈ S)); [reflexivity|].
  destruct (decide (c ∈ (∅ : gset string))) as [Hin|_]; [set_solver|].
  destruct (SpaceManager.calculateSpaceValue c) as [d|]; [|reflexivity].
  destruct (SpaceManager.lookup (SpaceManager.styleType d) SpaceManager.cssPropertyMap)
    as [prop|]; [|reflexivity].
  cbn [fst snd].
  destruct (decide (prop = "margin-horizontal" \/ prop = "padding-horizontal"));
    [reflexivity|].
  destruct (decide (prop = "margin-vertical" \/ prop = "padding-vertical")); reflexivity.
Qed.

Lemma zIndex_visit (c : string) (st : gset string * string) :
  ZIndexManager.visit c st = Engine.step Engine.zIndexRule Engine.appendText c st.
Proof.
  destruct st as [S buf].
  unfold Engine.step, Engine.zIndexRule, ZIndexManager.visit, Engine.appendText. simpl.
  destruct (decide (c ∈ S)).
  - now rewrite bool_decide_true.
  - rewrite bool_decide_false by assumption. simpl.
    now destruct (ZIndexManager.calculateZIndex c).
Qed.

Lemma borderRadius_visit (c : string) (st : gset string * string) :
  BorderRadiusManager.visit c st = Engine.step Engine.borderRadiusRule Engine.appendText c st.
Proof.
  destruct st as [S buf].
  unfold Engine.step, Engine.borderRadiusRule, BorderRadiusManager.visit, Engine.appendText. simpl.
  destruct (decide (c ∈ S)).
  - now rewrite bool_decide_true.
  - rewrite bool_decide_false by assumption. simpl.
    now destruct (BorderRadiusManager.calculateBorderRadius c).
Qed.

Lemma fontSize_visit (c : string) (st : gset string * list string) :
  FontSizeManager.visit c st = Engine.step Engine.fontSizeRule Engine.push c st.
Proof.
  destruct st as [S buf].
  unfold Engine.step, Engine.fontSizeRule, FontSizeManager.visit, Engine.push. simpl.
  destruct (decide (c ∈ S)).
  - now rewrite bool_decide_true.
  - rewrite bool_decide_false by assumption. simpl.
    now destruct (FontSizeManager.calculateFontSize c).
Qed.

Lemma opacity_visit (sheet : nat) (c : string) (st : gset string * Page) :
  OpacityManager.addOpacityStyle c (Engine.opacityState sheet st)
  = Engine.opacityState sheet (Engine.step Engine.opacityRule (Dom.insertRuleLast sheet) c st).
Proof.
  destruct st as [S p].
  unfold Engine.step, Engine.opacityRule, OpacityManager.addOpacityStyle, Engine.opacityState. simpl.
  destruct (decide (c ∈ S)).
  - now rewrite bool_decide_true.
  - rewrite bool_decide_false by assumption. simpl.
    destruct (Str.startsWith "opacity-" c); [|reflexivity].
    now destruct (OpacityManager.calculateOpacity c).
Qed.

Lemma opacity_visits (sheet : nat) (el : element) (st : gset string * Page) :
  Dom.forEach el OpacityManager.addOpacityStyle (Engine.opacityState sheet st)
  = Engine.opacityState sheet
      (Dom.forEach el (Engine.step Engine.opacityRule (Dom.insertRuleLast sheet)) st).
Proof.
  revert st. induction el as [|c el IH]; intros st; [reflexivity|].
  rewrite !forEach_cons, opacity_visit. apply IH.
Qed.

Lemma opacity_sweep (sheet : nat) (els : list element) (st : gset string * Page) :
  Dom.forEach els (fun el => Dom.forEach el OpacityManager.addOpacityStyle)
    (Engine.opacityState sheet st)
  = Engine.opacityState sheet (Engine.sweep Engine.opacityRule (Dom.insertRuleLast sheet) els st).
Proof.
  revert st. induction els as [|el els IH]; intros st; [reflexivity|].
  unfold Engine.sweep. rewrite !forEach_cons, opacity_visits. apply IH.
Qed.

Lemma opacity_inspect (sheet : nat) (mutations : list OpacityManager.MutationRecord)
    (st : gset string * Page) :
  OpacityManager.inspect mutations (OpacityManager.mk st.1 sheet) st.2
  = Engine.opacityState sheet
      (Engine.sweep Engine.opacityRule (Dom.insertRuleLast sheet) (Engine.inspected mutations) st).
Proof.
  unfold OpacityManager.inspect.
  change (OpacityManager.mk st.1 sheet, st.2) with (Engine.opacityState sheet st).
  revert st. induction mutations as [|m ms IH]; intros st; [reflexivity|].
  rewrite forEach_cons. cbn [Engine.inspected flat_map].
  destruct (OpacityManager.type m).
  - destruct (decide (OpacityManager.attributeName m = Some "class")).
    + rewrite opacity_visits. cbn [app]. unfold Engine.sweep. rewrite forEach_cons. apply IH.
    + apply IH.
  - apply IH.
Qed.

End Instances.

(** ** What a scan does to its manager and to the page *)

Section ScanResults.

Lemma applyStyles_sweep (this : SpaceManager.t) (p : Page) :
  SpaceManager.applyStyles this p =
  let st := Engine.sweep Engine.spaceRule Engine.appendText
              (Dom.querySelectorAll "-" p) (SpaceManager.processedClassNames this, "") in
  (SpaceManager.mk st.1,
   if decide (st.2 = "") then p
   else Dom.setAdoptedStyleSheets (adoptedStyleSheets p ++ [length (sheets p)])
          (Dom.replaceSync (length (sheets p)) st.2 (Dom.newCSSStyleSheet p).2)).
Proof.
  unfold SpaceManager.applyStyles, Engine.sweep.
  rewrite (forEach2_ext _ _ _ _ space_visit).
  destruct (Dom.forEach _ _ _) as [S text]. cbn [fst snd].
  destruct (decide (text = "")); reflexivity.
Qed.

Lemma applyZIndexStyles_sweep (this : ZIndexManager.t) (p : Page) :
  ZIndexManager.applyZIndexStyles this p =
  let st := Engine.sweep Engine.zIndexRule Engine.appendText
              (Dom.querySelectorAll "z-" p) (ZIndexManager.processedClasses this, "") in
  (ZIndexManager.mk st.1 (ZIndexManager.styleSheet this),
   if decide (st.2 = "") then p
   else Dom.replaceSync (ZIndexManager.styleSheet this) st.2 p).
Proof.
  unfold ZIndexManager.applyZIndexStyles, Engine.sweep.
  rewrite (forEach2_ext _ _ _ _ zIndex_visit).
  destruct (Dom.forEach _ _ _) as [S text]. cbn [fst snd].
  destruct (decide (text = "")); reflexivity.
Qed.

Lemma applyBorderRadiusStyles_sweep (this : BorderRadiusManager.t) (p : Page) :
  BorderRadiusManager.applyBorderRadiusStyles this p =
  let st := Engine.sweep Engine.borderRadiusRule Engine.appendText
              (Dom.querySelectorAll "rounded-" p)
              (BorderRadiusManager.processedClasses this, "") in
  (BorderRadiusManager.mk st.1 (BorderRadiusManager.styleSheet this),
   if decide (st.2 = "") then p
   else Dom.replaceSync (BorderRadiusManager.styleSheet this) st.2 p).
Proof.
  unfold BorderRadiusManager.applyBorderRadiusStyles, Engine.sweep.
  rewrite (forEach2_ext _ _ _ _ borderRadius_visit).
  destruct (Dom.forEach _ _ _) as [S text]. cbn [fst snd].
  destruct (decide (text = "")); reflexivity.
Qed.

Lemma applyFontSizeStyles_sweep (this : FontSizeManager.t) (p : Page) :
  FontSizeManager.applyFontSizeStyles this p =
  let st := Engine.sweep Engine.fontSizeRule Engine.push
              (Dom.querySelectorAll "fs-" p) (FontSizeManager.processedClasses this, []) in
  (FontSizeManager.mk st.1 (FontSizeManager.styleSheet this),
   if decide (st.2 = []) then p
   else Dom.replaceSync (FontSizeManager.styleSheet this) (Str.join Str.nl st.2) p).
Proof.
  unfold FontSizeManager.applyFontSizeStyles, Engine.sweep.
  rewrite (forEach2_ext _ _ _ _ fontSize_visit).
  destruct (Dom.forEach _ _ _) as [S acc]. cbn [fst snd].
  destruct acc; reflexivity.
Qed.

Lemma applyInitialOpacityStyles_sweep (this : OpacityManager.t) (p : Page) :
  OpacityManager.applyInitialOpacityStyles this p =
  Engine.opacityState (OpacityManager.styleSheet this)
    (Engine.sweep Engine.opacityRule (Dom.insertRuleLast (OpacityManager.styleSheet this))
       (Dom.querySelectorAll "opacity-" p) (OpacityManager.processedClasses this, p)).
Proof.
  unfold OpacityManager.applyInitialOpacityStyles.
  rewrite <- opacity_sweep. now destruct this.
Qed.

(** Emitting a rule leaves the document's elements alone. *)
Lemma sweep_insertRule_body (sheet : nat) (els : list element) (st : gset string * Page) :
  body (Engine.sweep Engine.opacityRule (Dom.insertRuleLast sheet) els st).2 = body st.2.
Proof.
  unfold Engine.sweep. revert st.
  induction els as [|el els IH]; intros st; [reflexivity|].
  rewrite forEach_cons, IH. clear IH. revert st.
  induction el as [|c el IH]; intros st; [reflexivity|].
  rewrite forEach_cons, IH. unfold Engine.step.
  destruct (decide (c ∈ st.1)); [reflexivity|].
  destruct (Engine.opacityRule c); reflexivity.
Qed.

End ScanResults.

(** ** Scanning twice *)

Section Rescan.

Lemma space_rescan (this : SpaceManager.t) (p : Page) :
  let r := SpaceManager.applyStyles this p in
  SpaceManager.applyStyles r.1 r.2 = r.
Proof.
  cbv zeta. rewrite (applyStyles_sweep this p). cbv zeta.
  set (st := Engine.sweep _ _ _ _). cbn [fst snd].
  rewrite applyStyles_sweep. cbv zeta. cbn [SpaceManager.processedClassNames].
  assert (Hq : forall q, body q = body p ->
            Engine.sweep Engine.spaceRule Engine.appendText
              (Dom.querySelectorAll "-" q) (st.1, "") = (st.1, "")).
  { intros q Hq. unfold Dom.querySelectorAll. rewrite Hq. apply sweep_again. }
  destruct (decide (st.2 = "")); rewrite Hq by reflexivity; reflexivity.
Qed.

Lemma zIndex_rescan (this : ZIndexManager.t) (p : Page) :
  let r := ZIndexManager.applyZIndexStyles this p in
  ZIndexManager.applyZIndexStyles r.1 r.2 = r.
Proof.
  cbv zeta. rewrite (applyZIndexStyles_sweep this p). cbv zeta.
  set (st := Engine.sweep _ _ _ _). cbn [fst snd].
  rewrite applyZIndexStyles_sweep. cbv zeta.
  cbn [ZIndexManager.processedClasses ZIndexManager.styleSheet].
  assert (Hq : forall q, body q = body p ->
            Engine.sweep Engine.zIndexRule Engine.appendText
              (Dom.querySelectorAll "z-" q) (st.1, "") = (st.1, "")).
  { intros q Hq. unfold Dom.querySelectorAll. rewrite Hq. apply sweep_again. }
  destruct (decide (st.2 = "")); rewrite Hq by reflexivity; reflexivity.
Qed.

Lemma borderRadius_rescan (this : BorderRadiusManager.t) (p : Page) :
  let r := BorderRadiusManager.applyBorderRadiusStyles this p in
  BorderRadiusManager.applyBorderRadiusStyles r.1 r.2 = r.
Proof.
  cbv zeta. rewrite (applyBorderRadiusStyles_sweep this p). cbv zeta.
  set (st := Engine.sweep _ _ _ _). cbn [fst snd].
  rewrite applyBorderRadiusStyles_sweep. cbv zeta.
  cbn [BorderRadiusManager.processedClasses BorderRadiusManager.styleSheet].
  assert (Hq : forall q, body q = body p ->
            Engine.sweep Engine.borderRadiusRule Engine.appendText
              (Dom.querySelectorAll "rounded-" q) (st.1, "") = (st.1, "")).
  { intros q Hq. unfold Dom.querySelectorAll. rewrite Hq. apply sweep_again. }
  destruct (decide (st.2 = "")); rewrite Hq by reflexivity; reflexivity.
Qed.

Lemma fontSize_rescan (this : FontSizeManager.t) (p : Page) :
  let r := FontSizeManager.applyFontSizeStyles this p in
  FontSizeManager.applyFontSizeStyles r.1 r.2 = r.
Proof.
  cbv zeta. rewrite (applyFontSizeStyles_sweep this p). cbv zeta.
  set (st := Engine.sweep _ _ _ _). cbn [fst snd].
  rewrite applyFontSizeStyles_sweep. cbv zeta.
  cbn [FontSizeManager.processedClasses FontSizeManager.styleSheet].
  assert (Hq : forall q, body q = body p ->
            Engine.sweep Engine.fontSizeRule Engine.push
              (Dom.querySelectorAll "fs-" q) (st.1, []) = (st.1, [])).
  { intros q Hq. unfold Dom.querySelectorAll. rewrite Hq. apply sweep_again. }
  destruct (decide (st.2 = [])); rewrite Hq by reflexivity; reflexivity.
Qed.

Lemma opacity_rescan (this : OpacityManager.t) (p : Page) :
  let r := OpacityManager.applyInitialOpacityStyles this p in
  OpacityManager.applyInitialOpacityStyles r.1 r.2 = r.
Proof.
  cbv zeta. rewrite (applyInitialOpacityStyles_sweep this p).
  set (st := Engine.sweep _ _ _ _).
  rewrite applyInitialOpacityStyles_sweep.
  cbn [Engine.opacityState fst snd OpacityManager.processedClasses OpacityManager.styleSheet].
  f_equal.
  assert (Hb : Dom.querySelectorAll "opacity-" st.2 = Dom.querySelectorAll "opacity-" p).
  { unfold Dom.querySelectorAll, st. now rewrite sweep_insertRule_body. }
  rewrite Hb. unfold st. rewrite sweep_again. now destruct (Engine.sweep _ _ _ _).
Qed.

Lemma opacity_reinspect (mutations : list OpacityManager.MutationRecord)
    (this : OpacityManager.t) (p : Page) :
  let r := OpacityManager.inspect mutations this p in
  OpacityManager.inspect mutations r.1 r.2 = r.
Proof.
  cbv zeta. destruct this as [S sheet].
  pose proof (opacity_inspect sheet mutations (S, p)) as H1.
  cbn [fst snd] in H1. rewrite H1.
  pose proof (sweep_again Engine.opacityRule (Dom.insertRuleLast sheet)
                (Engine.inspected mutations) (S, p)) as H2.
  destruct (Engine.sweep Engine.opacityRule (Dom.insertRuleLast sheet)
              (Engine.inspected mutations) (S, p)) as [S1 p1].
  cbn [fst snd Engine.opacityState] in *.
  pose proof (opacity_inspect sheet mutations (S1, p1)) as H3.
  cbn [fst snd] in H3. rewrite H3, H2. reflexivity.
Qed.

End Rescan.

(** ** Idempotence *)

Section Idempotence.

(** A processed class name can be struck from the elements a scan visits
    without changing what the scan does. *)
Lemma sweep_without {B : Type} (ruleOf : string -> option string) (emit : string -> B -> B)
    (c : string) (els : list element) (st : gset string * B) :
  c ∈ st.1 ->
  Engine.sweep ruleOf emit els st
  = Engine.sweep ruleOf emit (map (filter (fun d => d <> c)) els) st.
Proof.
  unfold Engine.sweep, element in *. revert st.
  induction els as [|el els IH]; intros st Hc; [reflexivity|].
  cbn [map]. rewrite !forEach_cons.
  assert (Hel : forall st', c ∈ st'.1 ->
            Dom.forEach el (Engine.step ruleOf emit) st'
            = Dom.forEach (filter (fun d => d <> c) el) (Engine.step ruleOf emit) st').
  { clear IH Hc st. induction el as [|d el IHel]; intros st Hc; [reflexivity|].
    rewrite forEach_cons. destruct (decide (d = c)) as [->|Hne].
    - rewrite filter_cons_False by tauto.
      rewrite step_processed by exact Hc. now apply IHel.
    - rewrite filter_cons_True by exact Hne. rewrite forEach_cons.
      apply IHel. now apply (step_grows ruleOf emit d st). }
  rewrite <- Hel by exact Hc. apply IH.
  now apply (visits_grow ruleOf emit el st).
Qed.

(** C7.  For each of the five managers and every page, a second scan over
    the unchanged document returns the manager and the page of the first
    scan: no rule is added or repeated, the sheets keep their contents and
    the processed set keeps its elements (hence its size).  A class name
    that is in a processed set is skipped by every later visit, and a scan
    never takes a class name out of the processed set, whatever document it
    runs on. *)
Theorem rescan_is_noop (p : Page) :
  ((forall this, let r := SpaceManager.applyStyles this p in
                 SpaceManager.applyStyles r.1 r.2 = r) /\
   (forall this, let r := ZIndexManager.applyZIndexStyles this p in
                 ZIndexManager.applyZIndexStyles r.1 r.2 = r) /\
   (forall this, let r := OpacityManager.applyInitialOpacityStyles this p in
                 OpacityManager.applyInitialOpacityStyles r.1 r.2 = r) /\
   (forall this mutations, let r := OpacityManager.inspect mutations this p in
                 OpacityManager.inspect mutations r.1 r.2 = r) /\
   (forall this, let r := BorderRadiusManager.applyBorderRadiusStyles this p in
                 BorderRadiusManager.applyBorderRadiusStyles r.1 r.2 = r) /\
   (forall this, let r := FontSizeManager.applyFontSizeStyles this p in
                 FontSizeManager.applyFontSizeStyles r.1 r.2 = r)) /\
  ((forall c S text, c ∈ S -> SpaceManager.visit c (S, text) = (S, text)) /\
   (forall c S text, c ∈ S -> ZIndexManager.visit c (S, text) = (S, text)) /\
   (forall c this, c ∈ OpacityManager.processedClasses this ->
                   OpacityManager.addOpacityStyle c (this, p) = (this, p)) /\
   (forall c S text, c ∈ S -> BorderRadiusManager.visit c (S, text) = (S, text)) /\
   (forall c S acc, c ∈ S -> FontSizeManager.visit c (S, acc) = (S, acc))) /\
  ((forall this, SpaceManager.processedClassNames this
                 ⊆ SpaceManager.processedClassNames (SpaceManager.applyStyles this p).1) /\
   (forall this, ZIndexManager.processedClasses this
                 ⊆ ZIndexManager.processedClasses (ZIndexManager.applyZIndexStyles this p).1) /\
   (forall this, OpacityManager.processedClasses this
                 ⊆ OpacityManager.processedClasses
                     (OpacityManager.applyInitialOpacityStyles this p).1) /\
   (forall this, BorderRadiusManager.processedClasses this
                 ⊆ BorderRadiusManager.processedClasses
                     (BorderRadiusManager.applyBorderRadiusStyles this p).1) /\
   (forall this, FontSizeManager.processedClasses this
                 ⊆ FontSizeManager.processedClasses
                     (FontSizeManager.applyFontSizeStyles this p).1)).
Proof.
  split; [|split].
  - split; [|split; [|split; [|split; [|split]]]]; intros.
    + apply space_rescan.
    + apply zIndex_rescan.
    + apply opacity_rescan.
    + apply opacity_reinspect.
    + apply borderRadius_rescan.
    + apply fontSize_rescan.
  - split; [|split; [|split; [|split]]]; intros.
    + rewrite space_visit. now apply step_processed.
    + rewrite zIndex_visit. now apply step_processed.
    + destruct this as [S sheet].
      pose proof (opacity_visit sheet c (S, p)) as E.
      unfold Engine.opacityState in E. cbn [fst snd] in E. rewrite E.
      now rewrite step_processed.
    + rewrite borderRadius_visit. now apply step_processed.
    + rewrite fontSize_visit. now apply step_processed.
  - split; [|split; [|split; [|split]]]; intros this.
    + rewrite applyStyles_sweep.
      apply (sweep_grows _ _ _ (SpaceManager.processedClassNames this, "")).
    + rewrite applyZIndexStyles_sweep.
      apply (sweep_grows _ _ _ (ZIndexManager.processedClasses this, "")).
    + rewrite applyInitialOpacityStyles_sweep.
      apply (sweep_grows _ _ _ (OpacityManager.processedClasses this, p)).
    + rewrite applyBorderRadiusStyles_sweep.
      apply (sweep_grows _ _ _ (BorderRadiusManager.processedClasses this, "")).
    + rewrite applyFontSizeStyles_sweep.
      apply (sweep_grows _ _ _ (FontSizeManager.processedClasses this, [])).
Qed.

(** The class name [z-1], once processed, is skipped. *)
Lemma rescan_is_noop_witness :
  "z-1" ∈ ({[ "z-1" ]} : gset string) /\
  ZIndexManager.visit "z-1" ({[ "z-1" ]}, "") = ({[ "z-1" ]}, "").
Proof.
  split.
  - now apply elem_of_singleton.
  - apply (proj1 (proj2 (proj1 (proj2 (rescan_is_noop (Dom.load 1024 [["z-1"]] 0)))))).
    now apply elem_of_singleton.
Defined.

End Idempotence.

(** ** Matching a class name of the documented shape *)

Section Matching.

Lemma exec_here (r : Regex.regex) (s : string) (x : Regex.result) :
  Regex.matchAt r s (fun t c _ => Some (t, c)) = Some x -> Regex.exec r s = Some x.
Proof. intros H. destruct s; simpl; now rewrite H. Qed.

Lemma matchAt_word {R : Type} (w : string) (r : Regex.regex) (s : string)
    (k : string -> list (option string) -> string -> option R) :
  Regex.matchAt (Regex.word w r) (w +:+ s) k
  = Regex.matchAt r s (fun t c rest => k (w +:+ t) c rest).
Proof.
  revert k. induction w as [|a w IH]; intros k; [reflexivity|].
  rewrite append_cons. cbn [Regex.word Regex.matchAt Regex.lit].
  rewrite Ascii.eqb_refl. apply IH.
Qed.

(** [word(\d+)] on the word followed by a run of digits. *)
Lemma exec_word_digits (w ds : string) :
  Spec.digits ds ->
  Regex.exec (Regex.word w (Regex.Group (Regex.Plus Regex.isDigit))) (w +:+ ds)
  = Some (w +:+ ds, [Some ds]).
Proof.
  intros [Hne Hall]. apply exec_here. rewrite matchAt_word.
  cbn [Regex.matchAt].
  rewrite <- (append_nil_r ds) at 1.
  now apply plus_run.
Qed.

(** [word(\d+)(n)?] on the word followed by a run of digits and, or not, the
    letter [n]. *)
Lemma exec_word_digits_flag (w ds : string) (negative : bool) :
  Spec.digits ds ->
  Regex.exec
    (Regex.word w (Regex.Seq (Regex.Group (Regex.Plus Regex.isDigit))
                     (Regex.Opt (Regex.Group (Regex.lit "n")))))
    (w +:+ ds +:+ Spec.flag negative)
  = Some (w +:+ ds +:+ Spec.flag negative,
          [Some ds; if negative then Some "n" else None]).
Proof.
  intros [Hne Hall]. apply exec_here. rewrite matchAt_word.
  cbn [Regex.matchAt].
  apply plus_run; try assumption.
  - now destruct negative.
  - now destruct negative.
Qed.

End Matching.

(** ** Opacity *)

Section Opacity.

Lemma tenthsToString_level (level : Z) :
  1 <= level <= 10 -> JSNumber.tenthsToString level = Spec.tenth level.
Proof.
  intros H.
  assert (E : level = 1 \/ level = 2 \/ level = 3 \/ level = 4 \/ level = 5 \/
              level = 6 \/ level = 7 \/ level = 8 \/ level = 9 \/ level = 10) by lia.
  repeat (destruct E as [->|E]; [reflexivity|]). now subst.
Qed.

Lemma calculateOpacity_shape (ds : string) :
  Spec.digits ds ->
  OpacityManager.calculateOpacity ("opacity-" +:+ ds)
  = if (1 <=? JSNumber.decimal ds) && (JSNumber.decimal ds <=? 10)
    then Some (JSNumber.decimal ds) else None.
Proof.
  intros Hd. unfold OpacityManager.calculateOpacity, OpacityManager.regex.
  rewrite exec_word_digits by exact Hd.
  change (Regex.text (Regex.group [Some ds] 0)) with ds.
  pose proof (eq_refl : 2 ^ 53 = 9007199254740992) as P53.
  pose proof (parseInt_small ds 10 ltac:(reflexivity)) as H10.
  pose proof (parseInt_small ds 0 ltac:(reflexivity)) as H0.
  pose proof (decimal_nonneg ds) as Hnn.
  destruct (Z.leb_spec 1 (JSNumber.decimal ds));
    destruct (Z.leb_spec (JSNumber.decimal ds) 10); cbn [andb].
  - rewrite parseInt_exact by lia.
    destruct (Z.leb_spec 1 (JSNumber.decimal ds)); [|lia].
    destruct (Z.leb_spec (JSNumber.decimal ds) 10); [reflexivity|lia].
  - destruct (Z.leb_spec (JSNumber.parseInt ds) 10); [lia|].
    now rewrite andb_false_r.
  - destruct (Z.leb_spec 1 (JSNumber.parseInt ds)); [lia | reflexivity].
  - lia.
Qed.

(** C6.  For a class name [opacity-<digits>]: when the digits write a level
    from 1 to 10, a manager that has not processed the class name appends
    the rule with opacity level/10 to its sheet and adds the class name to
    its processed set; when the level is outside 1 to 10, the manager and
    the page are left as they were: no rule, and the class name is not
    added to the processed set, so that a later scan looks at it again. *)
Theorem opacity_levels (ds : string) (this : OpacityManager.t) (p : Page) :
  Spec.digits ds ->
  let className := "opacity-" +:+ ds in
  let level := JSNumber.decimal ds in
  (1 <= level <= 10 ->
   className ∉ OpacityManager.processedClasses this ->
   OpacityManager.addOpacityStyle className (this, p)
   = (OpacityManager.mk ({[ className ]} ∪ OpacityManager.processedClasses this)
        (OpacityManager.styleSheet this),
      Dom.insertRuleLast (OpacityManager.styleSheet this)
        ("." +:+ className +:+ " { opacity: " +:+ Spec.tenth level +:+ "; }") p)) /\
  (~ 1 <= level <= 10 ->
   OpacityManager.addOpacityStyle className (this, p) = (this, p)).
Proof.
  intros Hd className level. unfold OpacityManager.addOpacityStyle.
  assert (Hs : Str.startsWith "opacity-" className = true).
  { unfold className, Str.startsWith. rewrite prefix_correct.
    clear. cbn. now destruct ds. }
  rewrite Hs, andb_true_r.
  assert (Hc : OpacityManager.calculateOpacity className
               = if (1 <=? level) && (level <=? 10) then Some level else None)
    by (apply calculateOpacity_shape; exact Hd).
  rewrite Hc. split.
  - intros Hl Hnew. rewrite bool_decide_false by exact Hnew. cbn [negb].
    destruct (Z.leb_spec 1 level); [|lia].
    destruct (Z.leb_spec level 10); [|lia]. cbn [andb].
    now rewrite tenthsToString_level.
  - intros Hl. destruct (negb _); [|reflexivity].
    destruct (Z.leb_spec 1 level); destruct (Z.leb_spec level 10);
      cbn [andb]; try reflexivity. lia.
Qed.

(** The four boundary class names, seen by a manager that has processed
    nothing: [opacity-1] and [opacity-10] are given a rule, [opacity-0] and
    [opacity-11] leave everything as it was. *)
Lemma opacity_levels_witness :
  let this := OpacityManager.mk ∅ 0 in
  let p := (Dom.newCSSStyleSheet (Dom.load 1024 [] 0)).2 in
  let after (className : string) := OpacityManager.addOpacityStyle className (this, p) in
  sheets (after "opacity-1").2 = [[".opacity-1 { opacity: 0.1; }"]] /\
  sheets (after "opacity-10").2 = [[".opacity-10 { opacity: 1; }"]] /\
  OpacityManager.processedClasses (after "opacity-10").1 = {[ "opacity-10" ]} ∪ ∅ /\
  after "opacity-0" = (this, p) /\
  after "opacity-11" = (this, p).
Proof.
  cbv beta zeta.
  assert (D : forall ds, ds <> "" ->
            forallb Regex.isDigit (list_ascii_of_string ds) = true -> Spec.digits ds)
    by (intros ds H1 H2; split; assumption).
  pose proof (proj1 (opacity_levels "1" (OpacityManager.mk ∅ 0)
                      (Dom.newCSSStyleSheet (Dom.load 1024 [] 0)).2
                      (D "1" ltac:(discriminate) eq_refl))
                ltac:(vm_compute; split; discriminate) (not_elem_of_empty _)) as E1.
  pose proof (proj1 (opacity_levels "10" (OpacityManager.mk ∅ 0)
                      (Dom.newCSSStyleSheet (Dom.load 1024 [] 0)).2
                      (D "10" ltac:(discriminate) eq_refl))
                ltac:(vm_compute; split; discriminate) (not_elem_of_empty _)) as E10.
  pose proof (proj2 (opacity_levels "0" (OpacityManager.mk ∅ 0)
                      (Dom.newCSSStyleSheet (Dom.load 1024 [] 0)).2
                      (D "0" ltac:(discriminate) eq_refl))
                ltac:(vm_compute; intros [H _]; now apply H)) as E0.
  pose proof (proj2 (opacity_levels "11" (OpacityManager.mk ∅ 0)
                      (Dom.newCSSStyleSheet (Dom.load 1024 [] 0)).2
                      (D "11" ltac:(discriminate) eq_refl))
                ltac:(vm_compute; intros [_ H]; now apply H)) as E11.
  cbv zeta in E1, E10, E0, E11.
  change ("opacity-" +:+ "1") with "opacity-1" in E1.
  change ("opacity-" +:+ "10") with "opacity-10" in E10.
  change ("opacity-" +:+ "0") with "opacity-0" in E0.
  change ("opacity-" +:+ "11") with "opacity-11" in E11.
  rewrite E1, E10, E0, E11.
  split; [reflexivity|]. split; [reflexivity|]. split; [reflexivity|].
  split; reflexivity.
Defined.

End Opacity.

(** ** From a visit to a scan

    The rule a visit emits is the rule a scan commits: on a document whose
    one element carries one class name, the text handed to [replaceSync] is
    that rule and its line feed. *)

Section SingleClass.

Lemma prefix_append (a b : string) : String.prefix a (a +:+ b) = true.
Proof.
  induction a as [|c a IH]; [now destruct b|].
  rewrite append_cons. cbn. destruct (Ascii.ascii_dec c c); [exact IH | congruence].
Qed.

Lemma includes_unfold (needle haystack : string) :
  Str.includes needle haystack
  = String.prefix needle haystack
    || match haystack with
       | "" => false
       | String _ rest => Str.includes needle rest
       end.
Proof. now destruct haystack. Qed.

Lemma includes_middle (a needle b : string) :
  Str.includes needle (a +:+ needle +:+ b) = true.
Proof.
  induction a as [|c a IH].
  - rewrite append_nil_l, includes_unfold, prefix_append. reflexivity.
  - rewrite append_cons, includes_unfold, IH. apply orb_true_r.
Qed.

Lemma querySelectorAll_single (marker c : string) (p : Page) :
  body p = [[c]] -> Str.includes marker c = true ->
  Dom.querySelectorAll marker p = [[c]].
Proof.
  intros Hb Hm. unfold Dom.querySelectorAll. rewrite Hb.
  rewrite filter_cons_True by (cbn; now rewrite Hm). reflexivity.
Qed.

Lemma rule_text_nonempty (r : string) : r +:+ Str.nl <> "".
Proof. intros H. apply append_nil_inv in H as [_ H]. discriminate H. Qed.

Lemma space_scan_single (this : SpaceManager.t) (p : Page) (c r : string) :
  body p = [[c]] -> Str.includes "-" c = true ->
  c ∉ SpaceManager.processedClassNames this ->
  Spec.emitsText SpaceManager.visit c r ->
  SpaceManager.applyStyles this p
  = (SpaceManager.mk ({[ c ]} ∪ SpaceManager.processedClassNames this),
     Dom.setAdoptedStyleSheets (adoptedStyleSheets p ++ [length (sheets p)])
       (Dom.replaceSync (length (sheets p)) (r +:+ Str.nl) (Dom.newCSSStyleSheet p).2)).
Proof.
  intros Hb Hm Hnew He. unfold SpaceManager.applyStyles.
  rewrite (querySelectorAll_single "-" c p Hb Hm).
  cbn [Dom.forEach fold_left]. rewrite (He _ "" Hnew), append_nil_l.
  destruct (decide (r +:+ Str.nl = "")) as [E|_]; [now apply rule_text_nonempty in E|].
  reflexivity.
Qed.

Lemma zIndex_scan_single (this : ZIndexManager.t) (p : Page) (c r : string) :
  body p = [[c]] -> Str.includes "z-" c = true ->
  c ∉ ZIndexManager.processedClasses this ->
  Spec.emitsText ZIndexManager.visit c r ->
  ZIndexManager.applyZIndexStyles this p
  = (ZIndexManager.mk ({[ c ]} ∪ ZIndexManager.processedClasses this)
       (ZIndexManager.styleSheet this),
     Dom.replaceSync (ZIndexManager.styleSheet this) (r +:+ Str.nl) p).
Proof.
  intros Hb Hm Hnew He. unfold ZIndexManager.applyZIndexStyles.
  rewrite (querySelectorAll_single "z-" c p Hb Hm).
  cbn [Dom.forEach fold_left]. rewrite (He _ "" Hnew), append_nil_l.
  destruct (decide (r +:+ Str.nl = "")) as [E|_]; [now apply rule_text_nonempty in E|].
  reflexivity.
Qed.

Lemma borderRadius_scan_single (this : BorderRadiusManager.t) (p : Page) (c r : string) :
  body p = [[c]] -> Str.includes "rounded-" c = true ->
  c ∉ BorderRadiusManager.processedClasses this ->
  Spec.emitsText BorderRadiusManager.visit c r ->
  BorderRadiusManager.applyBorderRadiusStyles this p
  = (BorderRadiusManager.mk ({[ c ]} ∪ BorderRadiusManager.processedClasses this)
       (BorderRadiusManager.styleSheet this),
     Dom.replaceSync (BorderRadiusManager.styleSheet this) (r +:+ Str.nl) p).
Proof.
  intros Hb Hm Hnew He. unfold BorderRadiusManager.applyBorderRadiusStyles.
  rewrite (querySelectorAll_single "rounded-" c p Hb Hm).
  cbn [Dom.forEach fold_left]. rewrite (He _ "" Hnew), append_nil_l.
  destruct (decide (r +:+ Str.nl = "")) as [E|_]; [now apply rule_text_nonempty in E|].
  reflexivity.
Qed.

Lemma fontSize_scan_single (this : FontSizeManager.t) (p : Page) (c r : string) :
  body p = [[c]] -> Str.includes "fs-" c = true ->
  c ∉ FontSizeManager.processedClasses this ->
  Spec.emitsItem FontSizeManager.visit c r ->
  FontSizeManager.applyFontSizeStyles this p
  = (FontSizeManager.mk ({[ c ]} ∪ FontSizeManager.processedClasses this)
       (FontSizeManager.styleSheet this),
     Dom.replaceSync (FontSizeManager.styleSheet this) r p).
Proof.
  intros Hb Hm Hnew He. unfold FontSizeManager.applyFontSizeStyles.
  rewrite (querySelectorAll_single "fs-" c p Hb Hm).
  cbn [Dom.forEach fold_left]. rewrite (He _ [] Hnew). reflexivity.
Qed.

End SingleClass.

(** ** Z-index, border radius and font size *)

Section Integers.

Lemma calculateZIndex_shape (ds : string) (negative : bool) :
  Spec.digits ds ->
  ZIndexManager.calculateZIndex ("z-" +:+ ds +:+ Spec.flag negative)
  = Some (JSNumber.parseInt ds * (if negative then -1 else 1)).
Proof.
  intros Hd. unfold ZIndexManager.calculateZIndex, ZIndexManager.regex.
  rewrite exec_word_digits_flag by exact Hd.
  change (Regex.text (Regex.group [Some ds; if negative then Some "n" else None] 0)) with ds.
  now destruct negative.
Qed.

Lemma calculateBorderRadius_shape (ds : string) :
  Spec.digits ds ->
  BorderRadiusManager.calculateBorderRadius ("rounded-" +:+ ds)
  = Some (JSNumber.parseInt ds).
Proof.
  intros Hd. unfold BorderRadiusManager.calculateBorderRadius, BorderRadiusManager.regex.
  now rewrite exec_word_digits by exact Hd.
Qed.

Lemma calculateFontSize_shape (ds : string) :
  Spec.digits ds ->
  FontSizeManager.calculateFontSize ("fs-" +:+ ds) = Some (JSNumber.parseInt ds).
Proof.
  intros Hd. unfold FontSizeManager.calculateFontSize, FontSizeManager.regex.
  now rewrite exec_word_digits by exact Hd.
Qed.

Lemma signed_parseInt (ds : string) (negative : bool) :
  JSNumber.decimal ds <= 2 ^ 53 ->
  JSNumber.parseInt ds * (if negative then -1 else 1) = Spec.signed ds negative.
Proof.
  intros H. rewrite parseInt_exact by exact H. unfold Spec.signed.
  destruct negative; lia.
Qed.

(** C5, as the code has it.  For a payload of digits that writes a number of
    at most [2^53], the range in which a JavaScript number holds every
    integer: a class name [z-<digits>] or [z-<digits>n] yields the integer
    written, negated under [n], and the rule [z-index: <integer>] without a
    unit; [rounded-<digits>] yields [border-radius: <integer>px];
    [fs-<digits>] yields [font-size: <integer>px]. *)
Theorem integer_payloads (payload : string) :
  Spec.digits payload ->
  JSNumber.decimal payload <= 2 ^ 53 ->
  Spec.integerClaim payload.
Proof.
  intros Hd Hb. unfold Spec.integerClaim. split; [|split].
  - intros negative. unfold Spec.zIndexClaim. cbv zeta.
    set (c := "z-" +:+ payload +:+ Spec.flag negative).
    assert (Hc : ZIndexManager.calculateZIndex c = Some (Spec.signed payload negative)).
    { unfold c. rewrite calculateZIndex_shape by exact Hd.
      now rewrite signed_parseInt. }
    assert (He : Spec.emitsText ZIndexManager.visit c
                   (Spec.rule c [("z-index",
                      JSNumber.numberToString (Spec.signed payload negative))])).
    { intros S text Hnew. unfold ZIndexManager.visit.
      rewrite bool_decide_false by exact Hnew. cbn [negb]. rewrite Hc.
      f_equal. unfold Spec.rule, Engine.declaration. cbn [map Str.join fst snd].
      now rewrite !append_assoc. }
    split; [exact Hc|]. split; [exact He|].
    intros this p Hbody Hnew. apply zIndex_scan_single; try assumption.
    apply (includes_middle "" "z-").
  - unfold Spec.borderRadiusClaim. cbv zeta.
    set (c := "rounded-" +:+ payload).
    assert (Hc : BorderRadiusManager.calculateBorderRadius c = Some (JSNumber.decimal payload)).
    { unfold c. rewrite calculateBorderRadius_shape by exact Hd.
      now rewrite parseInt_exact. }
    assert (He : Spec.emitsText BorderRadiusManager.visit c
                   (Spec.rule c [("border-radius",
                      JSNumber.numberToString (JSNumber.decimal payload) +:+ "px")])).
    { intros S text Hnew. unfold BorderRadiusManager.visit.
      rewrite bool_decide_false by exact Hnew. cbn [negb]. rewrite Hc.
      f_equal. unfold Spec.rule, Engine.declaration. cbn [map Str.join fst snd].
      now rewrite !append_assoc. }
    split; [exact Hc|]. split; [exact He|].
    intros this p Hbody Hnew. apply borderRadius_scan_single; try assumption.
    apply (includes_middle "" "rounded-").
  - unfold Spec.fontSizeClaim. cbv zeta.
    set (c := "fs-" +:+ payload).
    assert (Hc : FontSizeManager.calculateFontSize c = Some (JSNumber.decimal payload)).
    { unfold c. rewrite calculateFontSize_shape by exact Hd.
      now rewrite parseInt_exact. }
    assert (He : Spec.emitsItem FontSizeManager.visit c
                   (Spec.rule c [("font-size",
                      JSNumber.numberToString (JSNumber.decimal payload) +:+ "px")])).
    { intros S text Hnew. unfold FontSizeManager.visit.
      rewrite bool_decide_false by exact Hnew. cbn [negb]. rewrite Hc.
      do 3 f_equal. unfold Spec.rule, Engine.declaration. cbn [map Str.join fst snd].
      now rewrite !append_assoc. }
    split; [exact Hc|]. split; [exact He|].
    intros this p Hbody Hnew. apply fontSize_scan_single; try assumption.
    apply (includes_middle "" "fs-").
Qed.

(** The payload 12. *)
Lemma integer_payloads_witness :
  Spec.digits "12" /\ JSNumber.decimal "12" <= 2 ^ 53 /\ Spec.integerClaim "12".
Proof.
  assert (Hd : Spec.digits "12") by (split; [discriminate | reflexivity]).
  assert (Hb : JSNumber.decimal "12" <= 2 ^ 53) by (vm_compute; discriminate).
  split; [exact Hd|]. split; [exact Hb|].
  exact (integer_payloads "12" Hd Hb).
Defined.

(** C5, as stated, fails on a payload beyond [2^53]: the class name
    [z-9007199254740993] is given the z-index 9007199254740992, the binary64
    value nearest to the number written. *)
Lemma integer_payloads_counterexample :
  Spec.digits "9007199254740993" /\
  ZIndexManager.calculateZIndex "z-9007199254740993" = Some 9007199254740992 /\
  ~ Spec.integerClaim "9007199254740993".
Proof.
  split; [split; [discriminate | reflexivity]|].
  split; [vm_compute; reflexivity|].
  intros [Hz _]. destruct (Hz false) as [Hc _].
  vm_compute in Hc. discriminate Hc.
Qed.

End Integers.

(** ** Spacing *)

Section Spacing.

Ltac spacing_case negative Hne Hall :=
  apply exec_here; rewrite ?append_cons, ?append_nil_l;
  unfold SpaceManager.pattern; cbn -[Regex.plus];
  destruct negative;
  (erewrite plus_run; [reflexivity | exact Hne | exact Hall | reflexivity | reflexivity]).

Ltac evaluate_closed :=
  repeat match goal with
         | |- context [SpaceManager.lookup ?k ?m] =>
             let r := eval vm_compute in (SpaceManager.lookup k m) in
             change (SpaceManager.lookup k m) with r
         | |- context [Str.replace ?a ?b ?c] =>
             let r := eval vm_compute in (Str.replace a b c) in
             change (Str.replace a b c) with r
         end.

Ltac decide_property :=
  repeat match goal with
         | |- context [decide (?a = ?b \/ ?c = ?d)] =>
             let H := fresh "H" in
             destruct (decide (a = b \/ c = d)) as [[H|H]|H];
             [try discriminate H | try discriminate H
             | try (exfalso; apply H; (left; reflexivity) || (right; reflexivity))]
         end.

Ltac spacing_rule_case :=
  evaluate_closed; cbv iota beta; decide_property; evaluate_closed;
  f_equal; unfold Spec.rule, Engine.declaration;
  cbn [map Str.join fst snd]; rewrite !append_assoc; reflexivity.

Lemma exec_spacing (prefix ds : string) (negative : bool) (props : list string) :
  Spec.digits ds ->
  Spec.spacingProperties prefix = Some props ->
  Regex.exec SpaceManager.pattern (prefix +:+ "-" +:+ ds +:+ Spec.flag negative)
  = Some (prefix +:+ "-" +:+ ds +:+ Spec.flag negative,
          [Some prefix; Some ds; if negative then Some "n" else None]).
Proof.
  intros [Hne Hall] H. unfold Spec.spacingProperties in H.
  repeat match type of H with
         | (if decide (prefix = ?v) then _ else _) = _ =>
             destruct (decide (prefix = v)) as [->|_];
             [clear H; spacing_case negative Hne Hall|]
         end.
  discriminate H.
Qed.

Lemma calculateSpaceValue_shape (prefix ds : string) (negative : bool) (props : list string) :
  Spec.digits ds ->
  Spec.spacingProperties prefix = Some props ->
  SpaceManager.calculateSpaceValue (prefix +:+ "-" +:+ ds +:+ Spec.flag negative)
  = Some (SpaceManager.mkDetails prefix
            (JSNumber.toFixed2
               (JSNumber.parseInt ds * 25 * (if negative then -1 else 1)))).
Proof.
  intros Hd Hp. unfold SpaceManager.calculateSpaceValue.
  rewrite (exec_spacing prefix ds negative props Hd Hp).
  change (Regex.text (Regex.group [Some prefix; Some ds; if negative then Some "n" else None] 0))
    with prefix.
  change (Regex.text (Regex.group [Some prefix; Some ds; if negative then Some "n" else None] 1))
    with ds.
  now destruct negative.
Qed.

Lemma quarters_parseInt (ds : string) (negative : bool) :
  JSNumber.decimal ds <= 2 ^ 53 ->
  JSNumber.toFixed2 (JSNumber.parseInt ds * 25 * (if negative then -1 else 1))
  = Spec.quarters ds negative.
Proof.
  intros H. unfold Spec.quarters, Spec.signed. rewrite parseInt_exact by exact H.
  f_equal. destruct negative; lia.
Qed.

(** C4, as the code has it.  For a class name [prefix-<digits>] or
    [prefix-<digits>n] whose prefix is one of the fourteen of the table and
    whose digits write a number of at most [2^53]: the rule emitted names
    the CSS properties of the table ([mx] and [px] the left and right ones,
    [my] and [py] the top and bottom ones), each with the value
    digits * 0.25, negated under [n], written with two decimal places and
    the unit [rem]. *)
Theorem spacing_rules (prefix payload : string) (negative : bool) (props : list string) :
  Spec.digits payload ->
  JSNumber.decimal payload <= 2 ^ 53 ->
  Spec.spacingProperties prefix = Some props ->
  Spec.spacingClaim prefix payload negative.
Proof.
  intros Hd Hb Hp. unfold Spec.spacingClaim, Spec.spacingRule. rewrite Hp.
  eexists. split; [reflexivity|].
  match goal with |- Spec.emitsText _ ?c ?r /\ _ => assert (He : Spec.emitsText SpaceManager.visit c r) end.
  { intros S text Hnew. unfold SpaceManager.visit.
    destruct (decide (_ ∈ S)) as [Hin|_]; [contradiction|].
    rewrite (calculateSpaceValue_shape prefix payload negative props Hd Hp).
    cbn [SpaceManager.styleType SpaceManager.styleValue].
    rewrite (quarters_parseInt payload negative Hb).
    generalize (Spec.quarters payload negative). intros v.
    generalize (Spec.flag negative). intros fl.
    unfold Spec.spacingProperties in Hp.
    repeat match type of Hp with
           | (if decide (prefix = ?x) then _ else _) = _ =>
               destruct (decide (prefix = x)) as [->|_];
               [injection Hp as <-; clear; spacing_rule_case|]
           end.
    discriminate Hp. }
  split; [exact He|].
  intros this p Hbody Hnew. apply space_scan_single; try assumption.
  apply (includes_middle prefix "-" (payload +:+ Spec.flag negative)).
Qed.

(** The class name [m-4n] yields [margin: -1.00rem]. *)
Lemma spacing_rules_witness :
  Spec.digits "4" /\ JSNumber.decimal "4" <= 2 ^ 53 /\
  Spec.spacingProperties "m" = Some ["margin"] /\
  SpaceManager.visit "m-4n" (∅, "")
  = ({[ "m-4n" ]} ∪ ∅, ".m-4n { margin: -1.00rem; }" +:+ Str.nl).
Proof.
  assert (Hd : Spec.digits "4") by (split; [discriminate | reflexivity]).
  assert (Hb : JSNumber.decimal "4" <= 2 ^ 53) by (vm_compute; discriminate).
  split; [exact Hd|]. split; [exact Hb|]. split; [reflexivity|].
  destruct (spacing_rules "m" "4" true ["margin"] Hd Hb eq_refl) as [r [Hr [He _]]].
  vm_compute in Hr. injection Hr as <-.
  exact (He ∅ "" (not_elem_of_empty _)).
Defined.

(** C4, as stated, fails on a payload beyond [2^53]: [parseInt] rounds
    9007199254740993 to 9007199254740992, and the class name
    [m-9007199254740993] is given the margin 2251799813685248.00rem instead
    of 2251799813685248.25rem. *)
Lemma spacing_rules_counterexample :
  Spec.digits "9007199254740993" /\
  Spec.spacingProperties "m" = Some ["margin"] /\
  (SpaceManager.visit "m-9007199254740993" (∅, "")).2
  = ".m-9007199254740993 { margin: 2251799813685248.00rem; }" +:+ Str.nl /\
  ~ Spec.spacingClaim "m" "9007199254740993" false.
Proof.
  split; [split; [discriminate | reflexivity]|].
  split; [reflexivity|]. split; [vm_compute; reflexivity|].
  intros [r [Hr [He _]]]. vm_compute in Hr. injection Hr as <-.
  specialize (He ∅ "" (not_elem_of_empty _)).
  apply (f_equal snd) in He. vm_compute in He. discriminate He.
Qed.

End Spacing.

(** ** The debounced resize *)

Section Debounce.

Lemma run_app (a b : list (Z * Script.event)) (w : Script.World) :
  Script.run (a ++ b) w
  = ((Script.run a w).1 ++ (Script.run b (Script.run a w).2).1,
     (Script.run b (Script.run a w).2).2).
Proof.
  revert w. induction a as [|[now e] a IH]; intros w.
  - cbn [app Script.run fst snd]. now destruct (Script.run b w).
  - cbn [app Script.run]. destruct (Script.handle now e w) as [bs1 w1].
    rewrite IH. destruct (Script.run a w1) as [bs2 w2]. cbn [fst snd].
    destruct (Script.run b w2) as [bs3 w3]. cbn [fst snd].
    now rewrite app_assoc.
Qed.

Lemma latestResize_cons (latest : option (Z * Z)) (now width : Z)
    (rest : list (Z * Script.event)) :
  Spec.latestResize latest ((now, Script.Resize width) :: rest)
  = Spec.latestResize (Some (now, width)) rest.
Proof.
  unfold Spec.latestResize, Spec.resizes. cbn [flat_map fst snd app].
  destruct (flat_map _ rest) as [|x l] eqn:E; [reflexivity|].
  rewrite last_cons. now destruct (last (x :: l)) eqn:El.
Qed.

Lemma handle_resize (latest : option (Z * Z)) (now width : Z) (w : Script.World) :
  Spec.pending latest w ->
  (Script.handle now (Script.Resize width) w).1 = [] /\
  Spec.pending (Some (now, width)) (Script.handle now (Script.Resize width) w).2.
Proof.
  destruct w as [m p]. intros H. split; [reflexivity|].
  unfold Script.handle, ScreenSize.debounced, Dom.setTimeout, Dom.clearTimeout,
    Dom.setInnerWidth, Dom.setClock, Spec.pending.
  cbn [fst snd timers clock nextTimer innerWidth CSSManager.screenSize
       Script.withScreenSize ScreenSize.timeout].
  exists (nextTimer p).
  assert (Hf : filter (fun t : nat * Z => Some t.1 <> ScreenSize.timeout (CSSManager.screenSize m))
                 (timers p) = []).
  { destruct latest as [[t0 w0]|]; cbn [Spec.pending snd fst] in H.
    - destruct H as (id & Ht & Hid & _). rewrite Ht, Hid.
      rewrite filter_cons_False by (cbn; tauto). reflexivity.
    - now rewrite H. }
  rewrite Hf. repeat split.
Qed.

Lemma handle_early_turn (latest : option (Z * Z)) (now : Z) (w : Script.World) :
  Spec.pending latest w ->
  match latest with Some (t0, _) => now < t0 + 300 | None => True end ->
  (Script.handle now Script.RunTimers w).1 = [] /\
  Spec.pending latest (Script.handle now Script.RunTimers w).2.
Proof.
  destruct w as [m p]. intros H Hearly.
  unfold Script.handle, Dom.setClock. cbn [timers].
  destruct latest as [[t0 w0]|]; cbn [Spec.pending fst snd] in H.
  - destruct H as (id & Ht & Hid & Hw). rewrite Ht.
    cbn [Script.fire clock].
    destruct (Z.leb_spec (t0 + 300) now); [lia|].
    cbn [fst snd Spec.pending timers innerWidth]. split; [reflexivity|].
    exists id. repeat split; assumption.
  - rewrite H. cbn [Script.fire fst snd Spec.pending timers]. split; reflexivity.
Qed.

Lemma run_burst (trace : list (Z * Script.event)) (latest : option (Z * Z))
    (w : Script.World) :
  Spec.pending latest w ->
  Spec.burst 300 (fst <$> latest) trace = true ->
  (Script.run trace w).1 = [] /\
  Spec.pending (Spec.latestResize latest trace) (Script.run trace w).2.
Proof.
  revert latest w. induction trace as [|[now e] rest IH]; intros latest w Hp Hb.
  - cbn [Script.run fst snd]. split; [reflexivity|].
    unfold Spec.latestResize. cbn. exact Hp.
  - cbn [Spec.burst] in Hb. apply andb_true_iff in Hb as [Hwin Hb].
    cbn [Script.run]. destruct e as [width| |els records].
    + destruct (handle_resize latest now width w Hp) as [H1 H2].
      destruct (Script.handle now (Script.Resize width) w) as [bs1 w1].
      cbn [fst snd] in H1, H2. subst bs1.
      destruct (IH (Some (now, width)) w1 H2 Hb) as [H3 H4].
      destruct (Script.run rest w1) as [bs2 w2]. cbn [fst snd] in *.
      split; [now rewrite H3|]. now rewrite latestResize_cons.
    + assert (Hearly : match latest with Some (t0, _) => now < t0 + 300 | None => True end).
      { destruct latest as [[t0 w0]|]; [|exact I]. cbn in Hwin.
        apply andb_true_iff in Hwin as [_ Hwin]. now apply Z.ltb_lt in Hwin. }
      destruct (handle_early_turn latest now w Hp Hearly) as [H1 H2].
      destruct (Script.handle now Script.RunTimers w) as [bs1 w1].
      cbn [fst snd] in H1, H2. subst bs1.
      destruct (IH latest w1 H2 Hb) as [H3 H4].
      destruct (Script.run rest w1) as [bs2 w2]. cbn [fst snd] in *.
      split; [now rewrite H3|]. exact H4.
    + discriminate Hb.
Qed.

(** With no timeout pending, timer turns do nothing. *)
Lemma run_idle_turns (turns : list Z) (w : Script.World) :
  timers w.2 = [] ->
  (Script.run (map (fun t => (t, Script.RunTimers)) turns) w).1 = [].
Proof.
  revert w. induction turns as [|t turns IH]; intros [m p] H; [reflexivity|].
  cbn [map Script.run]. unfold Script.handle, Dom.setClock. cbn [timers snd] in *.
  rewrite H. cbn [Script.fire].
  specialize (IH (m, {| innerWidth := innerWidth p; body := body p; sheets := sheets p;
                        adoptedStyleSheets := adoptedStyleSheets p;
                        observers := observers p; clock := t; timers := [];
                        nextTimer := nextTimer p |}) eq_refl).
  destruct (Script.run _ _) as [bs w2]. cbn [fst] in *. now rewrite IH.
Qed.

(** With the timeout of the latest resize pending, the first timer turn at
    or after its due time runs the update, once, for the width of that
    resize; the turns before and after it run nothing. *)
Lemma run_turns (turns : list Z) (t0 w0 : Z) (w : Script.World) :
  Spec.pending (Some (t0, w0)) w ->
  (Script.run (map (fun t => (t, Script.RunTimers)) turns) w).1
  = if existsb (fun t => t0 + 300 <=? t) turns
    then [Spec.lookupWidth Spec.thresholds w0] else [].
Proof.
  revert w. induction turns as [|t turns IH]; intros [m p] H; [reflexivity|].
  cbn [map Script.run existsb].
  destruct (Z.leb_spec (t0 + 300) t) as [Hdue|Hearly].
  - cbn [orb]. cbn [Spec.pending fst snd] in H. destruct H as (id & Ht & Hid & Hw).
    unfold Script.handle, Dom.setClock. cbn [timers]. rewrite Ht.
    cbn [Script.fire clock].
    destruct (Z.leb_spec (t0 + 300) t); [|lia].
    cbn [Script.fire].
    match goal with
    | |- context [Script.run ?tr (m, ScreenSize.updateDeviceType ?q)] =>
        pose proof (run_idle_turns turns (m, ScreenSize.updateDeviceType q)) as Hidle;
        assert (Hq : innerWidth q = w0) by exact Hw;
        assert (Hempty : timers (ScreenSize.updateDeviceType q) = [])
    end.
    { rewrite updateDeviceType_eq. cbn [timers Dom.setAdoptedStyleSheets Dom.setSheets
        Dom.clearTimeout].
      rewrite filter_cons_False by (cbn; tauto). reflexivity. }
    specialize (Hidle Hempty).
    destruct (Script.run _ _) as [bs w2]. cbn [fst] in *. subst bs.
    rewrite getDeviceTypeAndContainer_table.
    cbn [innerWidth Dom.clearTimeout]. now rewrite Hw.
  - cbn [orb].
    destruct (handle_early_turn (Some (t0, w0)) t (m, p) H Hearly) as [H1 H2].
    destruct (Script.handle t Script.RunTimers (m, p)) as [bs1 w1].
    cbn [fst snd] in H1, H2. subst bs1.
    specialize (IH w1 H2).
    destruct (Script.run _ w1) as [bs2 w2]. cbn [fst] in *. exact IH.
Qed.

(** C9.  Take a trace of resize events and timer turns in which every event
    comes less than 300 ms after the resize before it, the last resize being
    at time [tn] with width [wn], and let any timer turns follow.  While the
    burst lasts nothing is recomputed (no call on the leading edge); the
    whole run recomputes the breakpoint exactly once, for the final width
    [wn], provided one of the following turns comes 300 ms or more after
    [tn], and not at all otherwise. *)
Theorem debounced_resize (w : Script.World) (trace : list (Z * Script.event))
    (tn wn : Z) (turns : list Z) :
  timers w.2 = [] ->
  Spec.burst 300 None trace = true ->
  last (Spec.resizes trace) = Some (tn, wn) ->
  (Script.run trace w).1 = [] /\
  (Script.run (trace ++ map (fun t => (t, Script.RunTimers)) turns) w).1
  = if existsb (fun t => tn + 300 <=? t) turns
    then [Spec.lookupWidth Spec.thresholds wn] else [].
Proof.
  intros Hidle Hburst Hlast.
  destruct (run_burst trace None w Hidle Hburst) as [H1 H2].
  split; [exact H1|].
  rewrite run_app. cbn [fst]. rewrite H1. cbn [app].
  apply run_turns. unfold Spec.latestResize in H2. now rewrite Hlast in H2.
Qed.

(** Ten resizes within 300 ms, the last at 270 ms with width 500, followed by
    timer turns at 400, 569, 570 and 900 ms: one recomputation, for the
    width 500. *)
Lemma debounced_resize_witness :
  let w := Script.main (Dom.load 1024 [["m-4"]] 0) in
  let trace :=
    [ (0, Script.Resize 1000); (30, Script.Resize 950); (60, Script.Resize 900);
      (90, Script.Resize 850); (120, Script.Resize 800); (150, Script.Resize 750);
      (180, Script.Resize 700); (210, Script.Resize 650); (240, Script.Resize 600);
      (270, Script.Resize 500) ] in
  (Script.run trace w).1 = [] /\
  (Script.run (trace ++ map (fun t => (t, Script.RunTimers)) [400; 569; 570; 900]) w).1
  = [ScreenSize.mkBreakpoint "xs" "100%"].
Proof.
  cbv zeta.
  apply (debounced_resize (Script.main (Dom.load 1024 [["m-4"]] 0)) _ 270 500
           [400; 569; 570; 900]); reflexivity.
Defined.

End Debounce.

(** ** The script on a page *)

Section EndToEnd.

(** C1, at a page whose one element has the class
    [p-8 rounded-12 z-5n fs-20].  When the script has run and no mutation
    has been delivered yet, the rules in force are the [:root] rule and the
    rules of [z-5n] and [rounded-12]; the rules of [p-8] and [fs-20] are
    missing, the spacing and the font-size manager having processed
    nothing: their constructors attach the observer without scanning. *)
Theorem initial_scan_missing :
  let w := Script.main (Dom.load 1024 [["p-8"; "rounded-12"; "z-5n"; "fs-20"]] 0) in
  Dom.adoptedRules w.2
  = [ ":root { --device-type: lg; --container: 960px; }";
      ".z-5n { z-index: -5; }";
      ".rounded-12 { border-radius: 12px; }" ] /\
  (".p-8 { padding: 2.00rem; }" ∉ Dom.adoptedRules w.2) /\
  (".fs-20 { font-size: 20px; }" ∉ Dom.adoptedRules w.2) /\
  SpaceManager.processedClassNames (CSSManager.spaceManager w.1) = ∅ /\
  FontSizeManager.processedClasses (CSSManager.fontSizeManager w.1) = ∅ /\
  (forall p : Page,
     (SpaceManager.constructor p).1 = SpaceManager.mk ∅ /\
     sheets (SpaceManager.constructor p).2 = sheets p /\
     FontSizeManager.processedClasses (FontSizeManager.constructor p).1 = ∅ /\
     sheets (FontSizeManager.constructor p).2 = sheets p ++ [[]]).
Proof.
  cbv zeta.
  assert (E : Dom.adoptedRules
                (Script.main (Dom.load 1024 [["p-8"; "rounded-12"; "z-5n"; "fs-20"]] 0)).2
              = [ ":root { --device-type: lg; --container: 960px; }";
                  ".z-5n { z-index: -5; }";
                  ".rounded-12 { border-radius: 12px; }" ])
    by (vm_compute; reflexivity).
  rewrite E. split; [reflexivity|].
  split; [|split; [|split; [|split]]].
  - intros H. apply list_elem_of_In in H. cbn in H. intuition discriminate.
  - intros H. apply list_elem_of_In in H. cbn in H. intuition discriminate.
  - vm_compute. reflexivity.
  - vm_compute. reflexivity.
  - intros p. repeat split.
Qed.

(** The observers make up for it: once a first batch of mutation records has
    been delivered, the document being what it was, the four rules are in
    force. *)
Lemma first_mutation_completes :
  let elements := [["p-8"; "rounded-12"; "z-5n"; "fs-20"]] in
  let w := Script.main (Dom.load 1024 elements 0) in
  let record := OpacityManager.mkRecord OpacityManager.childList None [] in
  let w' := (Script.run [(1000, Script.Mutation elements [record])] w).2 in
  Dom.adoptedRules w'.2
  = [ ":root { --device-type: lg; --container: 960px; }";
      ".z-5n { z-index: -5; }";
      ".rounded-12 { border-radius: 12px; }";
      ".fs-20 { font-size: 20px; }";
      ".p-8 { padding: 2.00rem; }" ].
Proof. vm_compute. reflexivity. Qed.

(** C2, at a document that gains a class name between two scans.  The first
    scan commits the rule of [z-1]; the second, which sees [z-2] for the
    first time, leaves the sheet with the rule of [z-2] only, although
    [z-1] stays in the processed set and will get no rule again.  The
    border-radius and the font-size manager do the same. *)
Theorem replaceSync_drops_rules :
  (let r1 := ZIndexManager.constructor (Dom.load 1024 [["z-1"]] 0) in
   let r2 := ZIndexManager.applyZIndexStyles r1.1 (Dom.setBody [["z-1"]; ["z-2"]] r1.2) in
   sheets r1.2 !! ZIndexManager.styleSheet r1.1 = Some [".z-1 { z-index: 1; }"] /\
   sheets r2.2 !! ZIndexManager.styleSheet r2.1 = Some [".z-2 { z-index: 2; }"] /\
   ("z-1" ∈ ZIndexManager.processedClasses r2.1)) /\
  (let r1 := BorderRadiusManager.constructor (Dom.load 1024 [["rounded-1"]] 0) in
   let r2 := BorderRadiusManager.applyBorderRadiusStyles r1.1
               (Dom.setBody [["rounded-1"]; ["rounded-2"]] r1.2) in
   sheets r1.2 !! BorderRadiusManager.styleSheet r1.1
   = Some [".rounded-1 { border-radius: 1px; }"] /\
   sheets r2.2 !! BorderRadiusManager.styleSheet r2.1
   = Some [".rounded-2 { border-radius: 2px; }"] /\
   ("rounded-1" ∈ BorderRadiusManager.processedClasses r2.1)) /\
  (let r0 := FontSizeManager.constructor (Dom.load 1024 [["fs-1"]] 0) in
   let r1 := FontSizeManager.applyFontSizeStyles r0.1 r0.2 in
   let r2 := FontSizeManager.applyFontSizeStyles r1.1
               (Dom.setBody [["fs-1"]; ["fs-2"]] r1.2) in
   sheets r1.2 !! FontSizeManager.styleSheet r1.1 = Some [".fs-1 { font-size: 1px; }"] /\
   sheets r2.2 !! FontSizeManager.styleSheet r2.1 = Some [".fs-2 { font-size: 2px; }"] /\
   ("fs-1" ∈ FontSizeManager.processedClasses r2.1)).
Proof.
  cbv zeta.
  split; [|split]; (split; [vm_compute; reflexivity|]);
    (split; [vm_compute; reflexivity|]);
    apply (bool_decide_unpack _); vm_compute; exact I.
Qed.

(** The opacity manager, which inserts rule by rule, keeps what it
    committed: the rules of its sheet before a visit are the first rules of
    the sheet after it. *)
Lemma opacity_rules_persist (className : string) (this : OpacityManager.t) (p : Page)
    (rules : list string) :
  sheets p !! OpacityManager.styleSheet this = Some rules ->
  let r := OpacityManager.addOpacityStyle className (this, p) in
  OpacityManager.styleSheet r.1 = OpacityManager.styleSheet this /\
  exists more : list string,
    sheets r.2 !! OpacityManager.styleSheet this = Some (rules ++ more).
Proof.
  intros H. cbv zeta. unfold OpacityManager.addOpacityStyle, CSSStyleSheet in *.
  destruct (negb _ && _).
  - destruct (OpacityManager.calculateOpacity className) as [o|].
    + cbn [fst snd OpacityManager.styleSheet]. split; [reflexivity|].
      eexists [_]. unfold Dom.insertRuleLast, Dom.setSheets. cbn [sheets].
      rewrite list_lookup_alter_eq, H. reflexivity.
    + split; [reflexivity|]. exists []. now rewrite app_nil_r.
  - split; [reflexivity|]. exists []. now rewrite app_nil_r.
Qed.

(** C10.  Class names that do not have the shape of their category as a
    whole but hold it inside are given a rule all the same: the value comes
    from the part that has the shape, the selector is the whole class name.
    [camp-4] holds [p-4] and gets the padding 1.00rem, [az-3n] holds [z-3n]
    and gets the z-index -3, and likewise for the other three patterns (the
    opacity manager insists on the class name starting with [opacity-], so
    its stray text is at the end). *)
Theorem unanchored_patterns :
  (Spec.hasShape SpaceManager.pattern "camp-4" = false /\
   Spec.hasShape SpaceManager.pattern "p-4" = true /\
   Str.includes "p-4" "camp-4" = true /\
   Dom.adoptedRules
     (SpaceManager.applyStyles (SpaceManager.constructor (Dom.load 1024 [["camp-4"]] 0)).1
        (SpaceManager.constructor (Dom.load 1024 [["camp-4"]] 0)).2).2
   = [".camp-4 { padding: 1.00rem; }"]) /\
  (Spec.hasShape ZIndexManager.regex "az-3n" = false /\
   Spec.hasShape ZIndexManager.regex "z-3n" = true /\
   Str.includes "z-3n" "az-3n" = true /\
   Dom.adoptedRules (ZIndexManager.constructor (Dom.load 1024 [["az-3n"]] 0)).2
   = [".az-3n { z-index: -3; }"]) /\
  (Spec.hasShape BorderRadiusManager.regex "unrounded-7" = false /\
   Spec.hasShape BorderRadiusManager.regex "rounded-7" = true /\
   Str.includes "rounded-7" "unrounded-7" = true /\
   Dom.adoptedRules (BorderRadiusManager.constructor (Dom.load 1024 [["unrounded-7"]] 0)).2
   = [".unrounded-7 { border-radius: 7px; }"]) /\
  (Spec.hasShape FontSizeManager.regex "xfs-9" = false /\
   Spec.hasShape FontSizeManager.regex "fs-9" = true /\
   Str.includes "fs-9" "xfs-9" = true /\
   Dom.adoptedRules
     (FontSizeManager.applyFontSizeStyles
        (FontSizeManager.constructor (Dom.load 1024 [["xfs-9"]] 0)).1
        (FontSizeManager.constructor (Dom.load 1024 [["xfs-9"]] 0)).2).2
   = [".xfs-9 { font-size: 9px; }"]) /\
  (Spec.hasShape OpacityManager.regex "opacity-5x" = false /\
   Spec.hasShape OpacityManager.regex "opacity-5" = true /\
   Str.includes "opacity-5" "opacity-5x" = true /\
   Dom.adoptedRules (OpacityManager.constructor (Dom.load 1024 [["opacity-5x"]] 0)).2
   = [".opacity-5x { opacity: 0.5; }"]).
Proof.
  repeat split; vm_compute; reflexivity.
Qed.

End EndToEnd.

(** ** The matcher finds only what the pattern matches *)

Section MatcherSound.

Lemma string_snoc_app (acc : string) (c : ascii) (t : string) :
  (acc +:+ String c "") +:+ t = acc +:+ String c t.
Proof. apply append_snoc. Qed.

Lemma plus_sound {R : Type} (p : ascii -> bool) (s acc : string)
    (k : string -> string -> option R) (x : R) :
  Regex.plus p s acc k = Some x ->
  exists t rest : string,
    s = t +:+ rest /\ t <> "" /\
    forallb p (list_ascii_of_string t) = true /\
    k (acc +:+ t) rest = Some x.
Proof.
  revert acc. induction s as [|c s IH]; intros acc H; [discriminate H|].
  cbn [Regex.plus] in H. destruct (p c) eqn:Hc; [|discriminate H].
  destruct (Regex.plus p s (acc +:+ String c "") k) as [y|] eqn:E.
  - injection H as ->. destruct (IH _ E) as (t & rest & -> & Hne & Hall & Hk).
    exists (String c t), rest. rewrite append_cons. split; [reflexivity|].
    split; [discriminate|]. split; [cbn; rewrite Hc; exact Hall|].
    now rewrite <- string_snoc_app.
  - exists (String c ""), s. split; [reflexivity|]. split; [discriminate|].
    split; [cbn; now rewrite Hc | exact H].
Qed.

(** A result of [matchAt] is what the continuation made of a text the
    pattern matches at the start of the input. *)
Lemma matchAt_sound {R : Type} (r : Regex.regex) (s : string)
    (k : string -> list (option string) -> string -> option R) (x : R) :
  Regex.matchAt r s k = Some x ->
  exists (t : string) (c : list (option string)) (rest : string),
    s = t +:+ rest /\ Lang.matches r t c /\ k t c rest = Some x.
Proof.
  revert s k. induction r as [p|r1 IH1 r2 IH2|r1 IH1|p|r1 IH1]; intros s k H;
    cbn [Regex.matchAt] in H.
  - destruct s as [|c s]; [discriminate H|].
    destruct (p c) eqn:Hc; [|discriminate H].
    exists (String c ""), [], s. repeat split; [now constructor | exact H].
  - destruct (IH1 _ _ H) as (t1 & c1 & s1 & -> & M1 & H1).
    destruct (IH2 _ _ H1) as (t2 & c2 & s2 & -> & M2 & H2).
    exists (t1 +:+ t2), (c1 ++ c2), s2.
    split; [now rewrite append_assoc|]. split; [now constructor | exact H2].
  - destruct (Regex.matchAt r1 s k) as [y|] eqn:E.
    + injection H as ->. destruct (IH1 _ _ E) as (t & c & rest & -> & M & Hk).
      exists t, c, rest. repeat split; [now constructor | exact Hk].
    + exists "", (replicate (Regex.groups r1) None), s.
      repeat split; [apply Lang.matches_opt_none | exact H].
  - destruct (plus_sound _ _ _ _ _ H) as (t & rest & -> & Hne & Hall & Hk).
    exists t, [], rest. repeat split; [now constructor | exact Hk].
  - destruct (IH1 _ _ H) as (t & c & rest & -> & M & Hk).
    exists t, (Some t :: c), rest. repeat split; [now constructor | exact Hk].
Qed.

Lemma exec_sound (r : Regex.regex) (s t : string) (c : list (option string)) :
  Regex.exec r s = Some (t, c) -> Lang.matches r t c /\ Lang.occursIn t s.
Proof.
  induction s as [|a s IH]; cbn [Regex.exec]; intros H.
  - destruct (Regex.matchAt r "" _) as [y|] eqn:E; [|discriminate H].
    injection H as ->.
    destruct (matchAt_sound _ _ _ _ E) as (t' & c' & rest & Hs & M & Hk).
    injection Hk as <- <-. split; [exact M|]. exists "", rest. exact Hs.
  - destruct (Regex.matchAt r (String a s) _) as [y|] eqn:E.
    + injection H as ->.
      destruct (matchAt_sound _ _ _ _ E) as (t' & c' & rest & Hs & M & Hk).
      injection Hk as <- <-. split; [exact M|]. exists "", rest. exact Hs.
    + destruct (IH H) as [M (before & after & ->)]. split; [exact M|].
      exists (String a before), after. reflexivity.
Qed.

End MatcherSound.

(** ** What the five patterns match *)

Section PatternShapes.

Lemma matches_lit (a : ascii) (t : string) (c : list (option string)) :
  Lang.matches (Regex.lit a) t c -> t = String a "" /\ c = [].
Proof.
  unfold Regex.lit. intros H. inversion H as [p ch Hp| | | | |]; subst.
  apply Ascii.eqb_eq in Hp. now subst.
Qed.

Lemma matches_word (w : string) (r : Regex.regex) (t : string) (c : list (option string)) :
  Lang.matches (Regex.word w r) t c ->
  exists t' : string, t = w +:+ t' /\ Lang.matches r t' c.
Proof.
  revert t c. induction w as [|a w IH]; intros t c H; cbn [Regex.word] in H.
  - exists t. split; [reflexivity | exact H].
  - inversion H as [|r1 r2 t1 t2 c1 c2 M1 M2| | | |]; subst.
    apply matches_lit in M1 as [-> ->].
    destruct (IH _ _ M2) as (t' & -> & M). exists t'. split; [reflexivity | exact M].
Qed.

Lemma matches_digits (t : string) (c : list (option string)) :
  Lang.matches (Regex.Group (Regex.Plus Regex.isDigit)) t c ->
  Spec.digits t /\ c = [Some t].
Proof.
  intros H. inversion H as [| | | | |r t0 c0 M]; subst.
  inversion M; subst. split; [split; assumption | reflexivity].
Qed.

Lemma matches_flag (t : string) (c : list (option string)) :
  Lang.matches (Regex.Opt (Regex.Group (Regex.lit "n"))) t c ->
  exists negative : bool,
    t = Spec.flag negative /\ c = [if negative then Some "n" else None].
Proof.
  intros H. inversion H as [| |r t0 c0 M|r| |]; subst.
  - inversion M as [| | | | |r t1 c1 M1]; subst.
    apply matches_lit in M1 as [-> ->]. now exists true.
  - now exists false.
Qed.

Lemma matches_digits_flag (t : string) (c : list (option string)) :
  Lang.matches
    (Regex.Seq (Regex.Group (Regex.Plus Regex.isDigit))
       (Regex.Opt (Regex.Group (Regex.lit "n")))) t c ->
  exists (ds : string) (negative : bool),
    Spec.digits ds /\ t = ds +:+ Spec.flag negative /\
    c = [Some ds; if negative then Some "n" else None].
Proof.
  intros H. inversion H as [|r1 r2 t1 t2 c1 c2 M1 M2| | | |]; subst.
  apply matches_digits in M1 as [Hd ->].
  apply matches_flag in M2 as (negative & -> & ->).
  now exists t1, negative.
Qed.

Lemma matches_oneOf (cs t : string) (c : list (option string)) :
  Lang.matches (Regex.oneOf cs) t c ->
  exists a : ascii, In a (list_ascii_of_string cs) /\ t = String a "" /\ c = [].
Proof.
  unfold Regex.oneOf. intros H. inversion H as [p ch Hp| | | | |]; subst.
  apply existsb_exists in Hp as (a & Hin & Ha). apply Ascii.eqb_eq in Ha. subst.
  now exists a.
Qed.

(** The texts the spacing pattern matches start with one of the fourteen
    keys of [cssPropertyMap]. *)
Lemma matches_spacing (t : string) (c : list (option string)) :
  Lang.matches SpaceManager.pattern t c ->
  exists (prefix ds : string) (negative : bool),
    is_Some (SpaceManager.lookup prefix SpaceManager.cssPropertyMap) /\
    Spec.digits ds /\
    t = prefix +:+ "-" +:+ ds +:+ Spec.flag negative /\
    c = [Some prefix; Some ds; if negative then Some "n" else None].
Proof.
  unfold SpaceManager.pattern. intros H.
  inversion H as [|r1 r2 t1 t2 c1 c2 M1 M2| | | |]; subst. clear H.
  inversion M1 as [| | | | |r t0 c0 M]; subst. clear M1.
  inversion M as [|r1 r2 ta tb ca cb Ma Mb| | | |]; subst. clear M.
  inversion M2 as [|r1 r2 t3 t4 c3 c4 M3 M4| | | |]; subst. clear M2.
  apply matches_lit in M3 as [-> ->].
  apply matches_digits_flag in M4 as (ds & negative & Hd & -> & ->).
  apply matches_oneOf in Ma as (a & Ha & -> & ->).
  assert (Hkey : forall k, k = String a "" \/ (exists b, In b (list_ascii_of_string "trblxy")
                   /\ k = String a (String b "")) ->
                 is_Some (SpaceManager.lookup k SpaceManager.cssPropertyMap)).
  { intros k Hk. cbn in Ha.
    destruct Hk as [->|(b & Hb & ->)].
    - destruct Ha as [<-|[<-|[]]]; vm_compute; eauto.
    - cbn in Hb.
      destruct Ha as [<-|[<-|[]]];
        destruct Hb as [<-|[<-|[<-|[<-|[<-|[<-|[]]]]]]]; vm_compute; eauto. }
  inversion Mb as [| |r t0 c0 M|r| |]; subst; clear Mb.
  - apply matches_oneOf in M as (b & Hb & -> & ->).
    exists (String a (String b "")), ds, negative.
    split; [apply Hkey; right; eauto|]. split; [exact Hd|]. split; reflexivity.
  - exists (String a ""), ds, negative.
    split; [apply Hkey; now left|]. split; [exact Hd|]. split; reflexivity.
Qed.


End PatternShapes.

(** ** Values come from the pattern only *)

Section ValuesFromPattern.

Lemma length_append (a b : string) :
  String.length (a +:+ b) = (String.length a + String.length b)%nat.
Proof.
  induction a as [|c a IH]; [reflexivity|].
  rewrite append_cons. cbn [String.length]. now rewrite IH.
Qed.

Lemma append_grows (text b : string) : b <> "" -> text +:+ b <> text.
Proof.
  intros Hb Hab. apply (f_equal String.length) in Hab.
  rewrite length_append in Hab. destruct b; [congruence | cbn in Hab; lia].
Qed.

Lemma calculateSpaceValue_inv (c : string) (d : SpaceManager.styleDetails) :
  SpaceManager.calculateSpaceValue c = Some d ->
  exists (prefix ds : string) (negative : bool),
    is_Some (SpaceManager.lookup prefix SpaceManager.cssPropertyMap) /\
    Spec.digits ds /\
    Lang.occursIn (prefix +:+ "-" +:+ ds +:+ Spec.flag negative) c /\
    d = SpaceManager.mkDetails prefix
          (JSNumber.toFixed2 (JSNumber.parseInt ds * 25 * (if negative then -1 else 1))).
Proof.
  intros H. unfold SpaceManager.calculateSpaceValue in H.
  destruct (Regex.exec SpaceManager.pattern c) as [[t caps]|] eqn:E; [|discriminate H].
  apply exec_sound in E as [M Hocc].
  apply matches_spacing in M as (prefix & ds & negative & Hkey & Hd & -> & ->).
  change (Regex.text (Regex.group [Some prefix; Some ds; if negative then Some "n" else None] 0))
    with prefix in H.
  change (Regex.text (Regex.group [Some prefix; Some ds; if negative then Some "n" else None] 1))
    with ds in H.
  exists prefix, ds, negative.
  split; [exact Hkey|]. split; [exact Hd|]. split; [exact Hocc|].
  destruct negative; injection H as <-; reflexivity.
Qed.

Lemma calculateZIndex_inv (c : string) (z : Z) :
  ZIndexManager.calculateZIndex c = Some z ->
  exists (ds : string) (negative : bool),
    Spec.digits ds /\
    Lang.occursIn ("z-" +:+ ds +:+ Spec.flag negative) c /\
    z = JSNumber.parseInt ds * (if negative then -1 else 1).
Proof.
  intros H. unfold ZIndexManager.calculateZIndex in H.
  destruct (Regex.exec ZIndexManager.regex c) as [[t caps]|] eqn:E; [|discriminate H].
  apply exec_sound in E as [M Hocc]. unfold ZIndexManager.regex in M.
  apply matches_word in M as (t' & -> & M).
  apply matches_digits_flag in M as (ds & negative & Hd & -> & ->).
  exists ds, negative. split; [exact Hd|]. split; [exact Hocc|].
  change (Regex.text (Regex.group [Some ds; if negative then Some "n" else None] 0))
    with ds in H.
  destruct negative; injection H as <-; reflexivity.
Qed.

Lemma calculateBorderRadius_inv (c : string) (v : Z) :
  BorderRadiusManager.calculateBorderRadius c = Some v ->
  exists ds : string,
    Spec.digits ds /\ Lang.occursIn ("rounded-" +:+ ds) c /\ v = JSNumber.parseInt ds.
Proof.
  intros H. unfold BorderRadiusManager.calculateBorderRadius in H.
  destruct (Regex.exec BorderRadiusManager.regex c) as [[t caps]|] eqn:E; [|discriminate H].
  apply exec_sound in E as [M Hocc]. unfold BorderRadiusManager.regex in M.
  apply matches_word in M as (t' & -> & M).
  apply matches_digits in M as [Hd ->].
  change (Regex.text (Regex.group [Some t'] 0)) with t' in H. injection H as <-.
  now exists t'.
Qed.

Lemma calculateFontSize_inv (c : string) (v : Z) :
  FontSizeManager.calculateFontSize c = Some v ->
  exists ds : string,
    Spec.digits ds /\ Lang.occursIn ("fs-" +:+ ds) c /\ v = JSNumber.parseInt ds.
Proof.
  intros H. unfold FontSizeManager.calculateFontSize in H.
  destruct (Regex.exec FontSizeManager.regex c) as [[t caps]|] eqn:E; [|discriminate H].
  apply exec_sound in E as [M Hocc]. unfold FontSizeManager.regex in M.
  apply matches_word in M as (t' & -> & M).
  apply matches_digits in M as [Hd ->].
  change (Regex.text (Regex.group [Some t'] 0)) with t' in H. injection H as <-.
  now exists t'.
Qed.

Lemma calculateOpacity_inv (c : string) (opacity : Z) :
  OpacityManager.calculateOpacity c = Some opacity ->
  1 <= opacity <= 10 /\
  exists ds : string,
    Spec.digits ds /\ Lang.occursIn ("opacity-" +:+ ds) c /\
    opacity = JSNumber.decimal ds.
Proof.
  intros H. unfold OpacityManager.calculateOpacity in H.
  destruct (Regex.exec OpacityManager.regex c) as [[t caps]|] eqn:E; [|discriminate H].
  apply exec_sound in E as [M Hocc]. unfold OpacityManager.regex in M.
  apply matches_word in M as (t' & -> & M).
  apply matches_digits in M as [Hd ->].
  change (Regex.text (Regex.group [Some t'] 0)) with t' in H.
  destruct (Z.leb_spec 1 (JSNumber.parseInt t')); [|discriminate H].
  destruct (Z.leb_spec (JSNumber.parseInt t') 10); [|discriminate H].
  injection H as <-.
  split; [lia|].
  exists t'. split; [exact Hd|]. split; [exact Hocc|].
  apply parseInt_exact.
  pose proof (proj1 (parseInt_small t' 10 ltac:(reflexivity)) ltac:(assumption)).
  pose proof (eq_refl : 2 ^ 53 = 9007199254740992). lia.
Qed.

(** X1.  Whenever [calculateSpaceValue] returns details for a class name, the
    class name holds a text [key-<digits>] or [key-<digits>n] whose key is
    one of the fourteen keys of [cssPropertyMap]; the value is that of the
    digits.  The lookup in [applyStyles] therefore never comes back empty:
    a class name the pattern matches is always given a rule and marked as
    processed. *)
Theorem calculateSpaceValue_key (c : string) (d : SpaceManager.styleDetails) :
  SpaceManager.calculateSpaceValue c = Some d ->
  is_Some (SpaceManager.lookup (SpaceManager.styleType d) SpaceManager.cssPropertyMap) /\
  (exists (ds : string) (negative : bool),
     Spec.digits ds /\
     Lang.occursIn (SpaceManager.styleType d +:+ "-" +:+ ds +:+ Spec.flag negative) c /\
     SpaceManager.styleValue d
     = JSNumber.toFixed2 (JSNumber.parseInt ds * 25 * (if negative then -1 else 1))) /\
  (forall (S : gset string) (text : string),
     c ∉ S ->
     c ∈ (SpaceManager.visit c (S, text)).1 /\
     (SpaceManager.visit c (S, text)).2 <> text).
Proof.
  intros Hcalc.
  destruct (calculateSpaceValue_inv c d Hcalc)
    as (prefix & ds & negative & Hkey & Hd & Hocc & ->).
  cbn [SpaceManager.styleType SpaceManager.styleValue].
  split; [exact Hkey|]. split; [now exists ds, negative|].
  intros S text Hnew. unfold SpaceManager.visit.
  destruct (decide (c ∈ S)) as [Hin|_]; [contradiction|].
  rewrite Hcalc. cbn [SpaceManager.styleType SpaceManager.styleValue].
  destruct Hkey as [prop Hprop]. rewrite Hprop. cbn [fst snd].
  split; [set_solver|].
  destruct (decide (prop = "margin-horizontal" \/ prop = "padding-horizontal"));
    [|destruct (decide (prop = "margin-vertical" \/ prop = "padding-vertical"))];
    apply append_grows; discriminate.
Qed.

(** The class name [camp-4x]: the key is [p]. *)
Lemma calculateSpaceValue_key_witness :
  SpaceManager.calculateSpaceValue "camp-4x"
  = Some (SpaceManager.mkDetails "p" "1.00") /\
  is_Some (SpaceManager.lookup "p" SpaceManager.cssPropertyMap).
Proof.
  split; [reflexivity|].
  exact (proj1 (calculateSpaceValue_key "camp-4x" (SpaceManager.mkDetails "p" "1.00")
                  eq_refl)).
Defined.

Lemma toNumber_nonneg (n : Z) : 0 <= n -> 0 <= JSNumber.toNumber n.
Proof.
  intros H. destruct (Z.le_gt_cases n (2 ^ 53)) as [Hle|Hgt].
  - rewrite toNumber_exact; lia.
  - pose proof (toNumber_large n ltac:(lia)).
    pose proof (eq_refl : 2 ^ 53 = 9007199254740992). lia.
Qed.

Lemma parseInt_nonneg (s : string) : 0 <= JSNumber.parseInt s.
Proof. apply toNumber_nonneg, decimal_nonneg. Qed.

(** X2.  A z-index, a border radius or a font size is only ever computed from a
    text [z-<digits>], [z-<digits>n], [rounded-<digits>] or [fs-<digits>]
    that occurs in the class name, and is the number [parseInt] reads in
    those digits, negated under [n] for the z-index; a radius and a font
    size are never negative. *)
Theorem integer_values_from_pattern (c : string) :
  (forall z : Z,
     ZIndexManager.calculateZIndex c = Some z ->
     exists (ds : string) (negative : bool),
       Spec.digits ds /\
       Lang.occursIn ("z-" +:+ ds +:+ Spec.flag negative) c /\
       z = JSNumber.parseInt ds * (if negative then -1 else 1)) /\
  (forall v : Z,
     BorderRadiusManager.calculateBorderRadius c = Some v ->
     0 <= v /\
     exists ds : string,
       Spec.digits ds /\ Lang.occursIn ("rounded-" +:+ ds) c /\
       v = JSNumber.parseInt ds) /\
  (forall v : Z,
     FontSizeManager.calculateFontSize c = Some v ->
     0 <= v /\
     exists ds : string,
       Spec.digits ds /\ Lang.occursIn ("fs-" +:+ ds) c /\
       v = JSNumber.parseInt ds).
Proof.
  split; [|split].
  - intros z H. now apply calculateZIndex_inv.
  - intros v H. destruct (calculateBorderRadius_inv c v H) as (ds & Hd & Hocc & ->).
    split; [apply parseInt_nonneg|]. now exists ds.
  - intros v H. destruct (calculateFontSize_inv c v H) as (ds & Hd & Hocc & ->).
    split; [apply parseInt_nonneg|]. now exists ds.
Qed.

(** The class name [az-3n]. *)
Lemma integer_values_from_pattern_witness :
  ZIndexManager.calculateZIndex "az-3n" = Some (-3) /\
  exists (ds : string) (negative : bool),
    Spec.digits ds /\
    Lang.occursIn ("z-" +:+ ds +:+ Spec.flag negative) "az-3n" /\
    -3 = JSNumber.parseInt ds * (if negative then -1 else 1).
Proof.
  split; [reflexivity|].
  exact (proj1 (integer_values_from_pattern "az-3n") (-3) eq_refl).
Defined.

(** X3.  An opacity is only ever computed from a text [opacity-<digits>] that
    occurs in the class name; it is the tenth of the number written, which
    lies between 1 and 10, so that the value printed is one of 0.1, 0.2, ...,
    0.9 and 1. *)
Theorem calculateOpacity_range (c : string) (opacity : Z) :
  OpacityManager.calculateOpacity c = Some opacity ->
  1 <= opacity <= 10 /\
  JSNumber.tenthsToString opacity = Spec.tenth opacity /\
  exists ds : string,
    Spec.digits ds /\ Lang.occursIn ("opacity-" +:+ ds) c /\
    opacity = JSNumber.decimal ds.
Proof.
  intros H. destruct (calculateOpacity_inv c opacity H) as [Hr Hex].
  split; [exact Hr|]. split; [now apply tenthsToString_level | exact Hex].
Qed.

(** The class name [opacity-7]. *)
Lemma calculateOpacity_range_witness :
  OpacityManager.calculateOpacity "opacity-7" = Some 7 /\ 1 <= 7 <= 10.
Proof.
  split; [reflexivity|].
  exact (proj1 (calculateOpacity_range "opacity-7" 7 eq_refl)).
Defined.

End ValuesFromPattern.

(** ** What a scan adds to the processed set *)

Section Exactness.


















End Exactness.

(** ** What a scan leaves alone *)

Section Frames.

Lemma sameEnvironment_refl (p : Page) : Frame.sameEnvironment p p.
Proof. repeat split. Qed.

Lemma sameEnvironment_trans (p q r : Page) :
  Frame.sameEnvironment p q -> Frame.sameEnvironment q r -> Frame.sameEnvironment p r.
Proof.
  unfold Frame.sameEnvironment. intros (A1 & A2 & A3 & A4 & A5 & A6) (B1 & B2 & B3 & B4 & B5 & B6).
  repeat split; congruence.
Qed.

Lemma onlySheet_refl (sheet : nat) (p : Page) : Frame.onlySheet sheet p p.
Proof. split; [apply sameEnvironment_refl|]. repeat split. Qed.

Lemma onlySheet_trans (sheet : nat) (p q r : Page) :
  Frame.onlySheet sheet p q -> Frame.onlySheet sheet q r -> Frame.onlySheet sheet p r.
Proof.
  intros (E1 & A1 & L1 & S1) (E2 & A2 & L2 & S2).
  split; [eapply sameEnvironment_trans; eassumption|].
  split; [congruence|]. split; [congruence|].
  intros i Hi. rewrite S2 by exact Hi. now apply S1.
Qed.

Lemma replaceSync_onlySheet (sheet : nat) (text : string) (p : Page) :
  Frame.onlySheet sheet p (Dom.replaceSync sheet text p).
Proof.
  unfold Dom.replaceSync, Dom.setSheets, CSSStyleSheet. split; [repeat split|].
  cbn [adoptedStyleSheets sheets]. split; [reflexivity|].
  split; [apply length_insert|].
  intros i Hi. now apply list_lookup_insert_ne.
Qed.

Lemma insertRuleLast_onlySheet (sheet : nat) (rule : string) (p : Page) :
  Frame.onlySheet sheet p (Dom.insertRuleLast sheet rule p).
Proof.
  unfold Dom.insertRuleLast, Dom.setSheets, CSSStyleSheet. split; [repeat split|].
  cbn [adoptedStyleSheets sheets]. split; [reflexivity|].
  split; [apply length_alter|].
  intros i Hi. now apply list_lookup_alter_ne.
Qed.

(** A relation between pages that every emission respects is respected by a
    whole sweep. *)
Lemma sweep_preserves (R : Page -> Page -> Prop) (ruleOf : string -> option string)
    (emit : string -> Page -> Page) (els : list element) (st : gset string * Page) :
  (forall p, R p p) -> (forall p q r, R p q -> R q r -> R p r) ->
  (forall rule p, R p (emit rule p)) ->
  R st.2 (Engine.sweep ruleOf emit els st).2.
Proof.
  intros Hrefl Htrans Hemit. unfold Engine.sweep. revert st.
  induction els as [|el els IH]; intros st; [apply Hrefl|].
  rewrite forEach_cons. eapply Htrans; [|apply IH].
  clear IH. revert st. induction el as [|c el IH]; intros st; [apply Hrefl|].
  rewrite forEach_cons. eapply Htrans; [|apply IH].
  unfold Engine.step. destruct (decide (c ∈ st.1)); [apply Hrefl|].
  destruct (ruleOf c); [apply Hemit | apply Hrefl].
Qed.

Lemma applyZIndexStyles_frame (this : ZIndexManager.t) (p : Page) :
  let r := ZIndexManager.applyZIndexStyles this p in
  ZIndexManager.styleSheet r.1 = ZIndexManager.styleSheet this /\
  Frame.onlySheet (ZIndexManager.styleSheet this) p r.2.
Proof.
  cbv zeta. rewrite applyZIndexStyles_sweep. cbv zeta. cbn [fst snd ZIndexManager.styleSheet].
  split; [reflexivity|].
  destruct (decide _); [apply onlySheet_refl | apply replaceSync_onlySheet].
Qed.

Lemma applyBorderRadiusStyles_frame (this : BorderRadiusManager.t) (p : Page) :
  let r := BorderRadiusManager.applyBorderRadiusStyles this p in
  BorderRadiusManager.styleSheet r.1 = BorderRadiusManager.styleSheet this /\
  Frame.onlySheet (BorderRadiusManager.styleSheet this) p r.2.
Proof.
  cbv zeta. rewrite applyBorderRadiusStyles_sweep. cbv zeta.
  cbn [fst snd BorderRadiusManager.styleSheet].
  split; [reflexivity|].
  destruct (decide _); [apply onlySheet_refl | apply replaceSync_onlySheet].
Qed.

Lemma applyFontSizeStyles_frame (this : FontSizeManager.t) (p : Page) :
  let r := FontSizeManager.applyFontSizeStyles this p in
  FontSizeManager.styleSheet r.1 = FontSizeManager.styleSheet this /\
  Frame.onlySheet (FontSizeManager.styleSheet this) p r.2.
Proof.
  cbv zeta. rewrite applyFontSizeStyles_sweep. cbv zeta.
  cbn [fst snd FontSizeManager.styleSheet].
  split; [reflexivity|].
  destruct (decide _); [apply onlySheet_refl | apply replaceSync_onlySheet].
Qed.

Lemma applyInitialOpacityStyles_frame (this : OpacityManager.t) (p : Page) :
  let r := OpacityManager.applyInitialOpacityStyles this p in
  OpacityManager.styleSheet r.1 = OpacityManager.styleSheet this /\
  Frame.onlySheet (OpacityManager.styleSheet this) p r.2.
Proof.
  cbv zeta. rewrite applyInitialOpacityStyles_sweep.
  cbn [fst snd Engine.opacityState OpacityManager.styleSheet].
  split; [reflexivity|].
  apply (sweep_preserves (Frame.onlySheet (OpacityManager.styleSheet this))
           Engine.opacityRule _ _ (OpacityManager.processedClasses this, p)).
  - apply onlySheet_refl.
  - apply onlySheet_trans.
  - intros rule q. apply insertRuleLast_onlySheet.
Qed.

Lemma inspect_frame (mutations : list OpacityManager.MutationRecord)
    (this : OpacityManager.t) (p : Page) :
  let r := OpacityManager.inspect mutations this p in
  OpacityManager.styleSheet r.1 = OpacityManager.styleSheet this /\
  Frame.onlySheet (OpacityManager.styleSheet this) p r.2.
Proof.
  cbv zeta. destruct this as [S sheet].
  pose proof (opacity_inspect sheet mutations (S, p)) as E. cbn [fst snd] in E.
  rewrite E. cbn [fst snd Engine.opacityState OpacityManager.styleSheet].
  split; [reflexivity|].
  apply (sweep_preserves (Frame.onlySheet sheet) Engine.opacityRule _ _ (S, p)).
  - apply onlySheet_refl.
  - apply onlySheet_trans.
  - intros rule q. apply insertRuleLast_onlySheet.
Qed.

Lemma applyStyles_frame (this : SpaceManager.t) (p : Page) :
  let r := SpaceManager.applyStyles this p in
  Frame.sameEnvironment p r.2 /\
  ((sheets r.2 = sheets p /\ adoptedStyleSheets r.2 = adoptedStyleSheets p) \/
   (exists rules : CSSStyleSheet,
      sheets r.2 = sheets p ++ [rules] /\
      adoptedStyleSheets r.2 = adoptedStyleSheets p ++ [length (sheets p)])).
Proof.
  cbv zeta. rewrite applyStyles_sweep. cbv zeta. cbn [fst snd].
  destruct (decide _).
  - split; [apply sameEnvironment_refl | now left].
  - split; [repeat split|]. right.
    unfold Dom.replaceSync, Dom.newCSSStyleSheet, Dom.setSheets, Dom.setAdoptedStyleSheets.
    cbn [sheets adoptedStyleSheets snd]. rewrite insert_at_end. eauto.
Qed.

End Frames.

(** ** Sheets and their owners *)

Section Owners.

(** X5.  A scan of the z-index, the opacity, the border-radius or the font-size
    manager changes the rules of the manager's own sheet and nothing else on
    the page: the other sheets keep their rules, no sheet is added, removed,
    adopted or dropped, and the manager keeps its sheet.  So does the
    callback of the opacity observer. *)
Theorem scans_touch_own_sheet (p : Page) :
  (forall this, let r := ZIndexManager.applyZIndexStyles this p in
     ZIndexManager.styleSheet r.1 = ZIndexManager.styleSheet this /\
     Frame.onlySheet (ZIndexManager.styleSheet this) p r.2) /\
  (forall this, let r := OpacityManager.applyInitialOpacityStyles this p in
     OpacityManager.styleSheet r.1 = OpacityManager.styleSheet this /\
     Frame.onlySheet (OpacityManager.styleSheet this) p r.2) /\
  (forall mutations this, let r := OpacityManager.inspect mutations this p in
     OpacityManager.styleSheet r.1 = OpacityManager.styleSheet this /\
     Frame.onlySheet (OpacityManager.styleSheet this) p r.2) /\
  (forall this, let r := BorderRadiusManager.applyBorderRadiusStyles this p in
     BorderRadiusManager.styleSheet r.1 = BorderRadiusManager.styleSheet this /\
     Frame.onlySheet (BorderRadiusManager.styleSheet this) p r.2) /\
  (forall this, let r := FontSizeManager.applyFontSizeStyles this p in
     FontSizeManager.styleSheet r.1 = FontSizeManager.styleSheet this /\
     Frame.onlySheet (FontSizeManager.styleSheet this) p r.2).
Proof.
  split; [|split; [|split; [|split]]]; intros.
  - apply applyZIndexStyles_frame.
  - apply applyInitialOpacityStyles_frame.
  - apply inspect_frame.
  - apply applyBorderRadiusStyles_frame.
  - apply applyFontSizeStyles_frame.
Qed.

(** On the page the script built for the classes [z-1] and [rounded-2], a
    scan of the z-index manager (sheet 1) that sees [z-9] for the first time
    leaves the sheet of the border radius (sheet 3) as it was. *)
Lemma scans_touch_own_sheet_witness :
  let w := Script.main (Dom.load 1024 [["z-1"; "rounded-2"]] 0) in
  let p := Dom.setBody [["z-9"]] w.2 in
  let this := CSSManager.zIndexManager w.1 in
  ZIndexManager.styleSheet this = 1%nat /\
  sheets (ZIndexManager.applyZIndexStyles this p).2 !! 3%nat
  = Some [".rounded-2 { border-radius: 2px; }"].
Proof.
  intros w p this.
  assert (Hs : ZIndexManager.styleSheet this = 1%nat) by (vm_compute; reflexivity).
  assert (Hp : sheets p !! 3%nat = Some [".rounded-2 { border-radius: 2px; }"])
    by (vm_compute; reflexivity).
  split; [exact Hs|].
  destruct (proj1 (scans_touch_own_sheet p) this) as (_ & _ & _ & _ & H).
  rewrite <- Hp. apply H. rewrite Hs. discriminate.
Defined.

Lemma adoptedRules_extended (p q : Page) (more : list CSSStyleSheet) (new : list nat) :
  sheets q = sheets p ++ more ->
  adoptedStyleSheets q = adoptedStyleSheets p ++ new ->
  (forall i, i ∈ adoptedStyleSheets p -> (i < length (sheets p))%nat) ->
  exists rules : list string, Dom.adoptedRules q = Dom.adoptedRules p ++ rules.
Proof.
  intros Hs Ha Hin. unfold Dom.adoptedRules, CSSStyleSheet in *. rewrite Ha, Hs.
  rewrite map_app, concat_app. eexists. f_equal. f_equal.
  apply map_ext_in. intros i Hi. apply list_elem_of_In in Hi.
  now rewrite lookup_app_l by (apply Hin; exact Hi).
Qed.

(** X6.  A scan of the spacing manager leaves every sheet and the adopted list as
    they are, or adds one sheet at the end of both: no rule in force before
    the scan is lost.  (The sheets adopted are taken to exist.) *)
Theorem applyStyles_keeps_rules (this : SpaceManager.t) (p : Page) :
  (forall i, i ∈ adoptedStyleSheets p -> (i < length (sheets p))%nat) ->
  let r := SpaceManager.applyStyles this p in
  Frame.sameEnvironment p r.2 /\
  ((sheets r.2 = sheets p /\ adoptedStyleSheets r.2 = adoptedStyleSheets p) \/
   (exists rules : CSSStyleSheet,
      sheets r.2 = sheets p ++ [rules] /\
      adoptedStyleSheets r.2 = adoptedStyleSheets p ++ [length (sheets p)])) /\
  exists rules : list string, Dom.adoptedRules r.2 = Dom.adoptedRules p ++ rules.
Proof.
  intros Hin. cbv zeta.
  destruct (applyStyles_frame this p) as [He Hs]. cbv zeta in He, Hs.
  split; [exact He|]. split; [exact Hs|].
  destruct Hs as [[Hs Ha]|(rules & Hs & Ha)].
  - apply (adoptedRules_extended p _ [] []); rewrite ?app_nil_r; assumption.
  - now apply (adoptedRules_extended p _ [rules] [length (sheets p)]).
Qed.

(** After the script ran on [z-1], a spacing scan that meets [m-4] keeps the
    two rules in force and adds its own. *)
Lemma applyStyles_keeps_rules_witness :
  let w := Script.main (Dom.load 1024 [["z-1"]] 0) in
  let p := Dom.setBody [["z-1"; "m-4"]] w.2 in
  exists rules : list string,
    Dom.adoptedRules (SpaceManager.applyStyles (CSSManager.spaceManager w.1) p).2
    = [":root { --device-type: lg; --container: 960px; }"; ".z-1 { z-index: 1; }"]
      ++ rules.
Proof.
  intros w p.
  assert (Hp : Dom.adoptedRules p
               = [":root { --device-type: lg; --container: 960px; }";
                  ".z-1 { z-index: 1; }"]) by (vm_compute; reflexivity).
  assert (Ha : adoptedStyleSheets p = [0%nat; 1%nat; 2%nat; 3%nat; 4%nat]) by (vm_compute; reflexivity).
  assert (Hl : length (sheets p) = 5%nat) by (vm_compute; reflexivity).
  rewrite <- Hp.
  apply (applyStyles_keeps_rules (CSSManager.spaceManager w.1) p).
  intros i Hi. rewrite Ha in Hi. rewrite Hl.
  apply list_elem_of_In in Hi.
  repeat (destruct Hi as [<-|Hi]; [lia|]). destruct Hi.
Defined.

End Owners.

(** ** The observers of one batch of records *)

Section Observers.



(** *** Each scan: the processed set grows, the scan settles its manager,
    and a settled manager's scan changes nothing *)

Lemma applyStyles_grows (this : SpaceManager.t) (p : Page) :
  SpaceManager.processedClassNames this
  ⊆ SpaceManager.processedClassNames (SpaceManager.applyStyles this p).1.
Proof.
  rewrite applyStyles_sweep. cbv zeta. cbn [fst SpaceManager.processedClassNames].
  apply (sweep_grows Engine.spaceRule Engine.appendText _ (_, _)).
Qed.


Lemma applyStyles_settled (this : SpaceManager.t) (p : Page) :
  Frame.settled Engine.spaceRule (Dom.querySelectorAll "-" p)
    (SpaceManager.processedClassNames this) ->
  SpaceManager.applyStyles this p = (this, p).
Proof.
  intros H. rewrite applyStyles_sweep. cbv zeta.
  rewrite sweep_settled by exact H. cbn [fst snd]. now destruct this.
Qed.

Lemma applyZIndexStyles_grows (this : ZIndexManager.t) (p : Page) :
  ZIndexManager.processedClasses this
  ⊆ ZIndexManager.processedClasses (ZIndexManager.applyZIndexStyles this p).1.
Proof.
  rewrite applyZIndexStyles_sweep. cbv zeta. cbn [fst ZIndexManager.processedClasses].
  apply (sweep_grows Engine.zIndexRule Engine.appendText _ (_, _)).
Qed.


Lemma applyZIndexStyles_settled (this : ZIndexManager.t) (p : Page) :
  Frame.settled Engine.zIndexRule (Dom.querySelectorAll "z-" p)
    (ZIndexManager.processedClasses this) ->
  ZIndexManager.applyZIndexStyles this p = (this, p).
Proof.
  intros H. rewrite applyZIndexStyles_sweep. cbv zeta.
  rewrite sweep_settled by exact H. cbn [fst snd]. now destruct this.
Qed.

Lemma applyBorderRadiusStyles_grows (this : BorderRadiusManager.t) (p : Page) :
  BorderRadiusManager.processedClasses this
  ⊆ BorderRadiusManager.processedClasses
      (BorderRadiusManager.applyBorderRadiusStyles this p).1.
Proof.
  rewrite applyBorderRadiusStyles_sweep. cbv zeta.
  cbn [fst BorderRadiusManager.processedClasses].
  apply (sweep_grows Engine.borderRadiusRule Engine.appendText _ (_, _)).
Qed.


Lemma applyBorderRadiusStyles_settled (this : BorderRadiusManager.t) (p : Page) :
  Frame.settled Engine.borderRadiusRule (Dom.querySelectorAll "rounded-" p)
    (BorderRadiusManager.processedClasses this) ->
  BorderRadiusManager.applyBorderRadiusStyles this p = (this, p).
Proof.
  intros H. rewrite applyBorderRadiusStyles_sweep. cbv zeta.
  rewrite sweep_settled by exact H. cbn [fst snd]. now destruct this.
Qed.

Lemma applyFontSizeStyles_grows (this : FontSizeManager.t) (p : Page) :
  FontSizeManager.processedClasses this
  ⊆ FontSizeManager.processedClasses (FontSizeManager.applyFontSizeStyles this p).1.
Proof.
  rewrite applyFontSizeStyles_sweep. cbv zeta. cbn [fst FontSizeManager.processedClasses].
  apply (sweep_grows Engine.fontSizeRule Engine.push _ (_, _)).
Qed.


Lemma applyFontSizeStyles_settled (this : FontSizeManager.t) (p : Page) :
  Frame.settled Engine.fontSizeRule (Dom.querySelectorAll "fs-" p)
    (FontSizeManager.processedClasses this) ->
  FontSizeManager.applyFontSizeStyles this p = (this, p).
Proof.
  intros H. rewrite applyFontSizeStyles_sweep. cbv zeta.
  rewrite sweep_settled by exact H. cbn [fst snd]. now destruct this.
Qed.

Lemma inspect_sweep (mutations : list OpacityManager.MutationRecord)
    (this : OpacityManager.t) (p : Page) :
  OpacityManager.inspect mutations this p
  = Engine.opacityState (OpacityManager.styleSheet this)
      (Engine.sweep Engine.opacityRule (Dom.insertRuleLast (OpacityManager.styleSheet this))
         (Engine.inspected mutations) (OpacityManager.processedClasses this, p)).
Proof.
  destruct this as [S sheet]. exact (opacity_inspect sheet mutations (S, p)).
Qed.

Lemma inspect_grows (mutations : list OpacityManager.MutationRecord)
    (this : OpacityManager.t) (p : Page) :
  OpacityManager.processedClasses this
  ⊆ OpacityManager.processedClasses (OpacityManager.inspect mutations this p).1.
Proof.
  rewrite inspect_sweep. cbn [fst Engine.opacityState OpacityManager.processedClasses].
  apply (sweep_grows Engine.opacityRule _ _ (_, _)).
Qed.


Lemma inspect_settled (mutations : list OpacityManager.MutationRecord)
    (this : OpacityManager.t) (p : Page) :
  Frame.settled Engine.opacityRule (Engine.inspected mutations)
    (OpacityManager.processedClasses this) ->
  OpacityManager.inspect mutations this p = (this, p).
Proof.
  intros H. rewrite inspect_sweep.
  rewrite sweep_settled by exact H. now destruct this.
Qed.

(** *** One observer *)

Lemma advances_refl (w : Script.World) : Frame.advances w w.
Proof.
  split; try reflexivity; try apply sameEnvironment_refl. intros i Hi. now left.
Qed.

Lemma advances_trans (w1 w2 w3 : Script.World) :
  Frame.advances w1 w2 -> Frame.advances w2 w3 -> Frame.advances w1 w3.
Proof.
  intros [E1 S1 A1 B1 C1 D1 F1 G1 H1 I1 J1 K1 L1] [E2 S2 A2 B2 C2 D2 F2 G2 H2 I2 J2 K2 L2].
  split; try (etransitivity; eassumption).
  - eapply sameEnvironment_trans; eassumption.
  - intros i Hi. destruct (L2 i Hi) as [H|H]; [|right; lia].
    destruct (L1 i H) as [H'|H']; [now left | now right].
Qed.

Lemma advances_onlySheet (m m' : CSSManager.t) (sheet : nat) (p q : Page) :
  Frame.onlySheet sheet p q ->
  CSSManager.screenSize m' = CSSManager.screenSize m ->
  SpaceManager.processedClassNames (CSSManager.spaceManager m)
  ⊆ SpaceManager.processedClassNames (CSSManager.spaceManager m') ->
  ZIndexManager.processedClasses (CSSManager.zIndexManager m)
  ⊆ ZIndexManager.processedClasses (CSSManager.zIndexManager m') ->
  OpacityManager.processedClasses (CSSManager.opacityManager m)
  ⊆ OpacityManager.processedClasses (CSSManager.opacityManager m') ->
  BorderRadiusManager.processedClasses (CSSManager.borderRadiusManager m)
  ⊆ BorderRadiusManager.processedClasses (CSSManager.borderRadiusManager m') ->
  FontSizeManager.processedClasses (CSSManager.fontSizeManager m)
  ⊆ FontSizeManager.processedClasses (CSSManager.fontSizeManager m') ->
  ZIndexManager.styleSheet (CSSManager.zIndexManager m')
  = ZIndexManager.styleSheet (CSSManager.zIndexManager m) ->
  OpacityManager.styleSheet (CSSManager.opacityManager m')
  = OpacityManager.styleSheet (CSSManager.opacityManager m) ->
  BorderRadiusManager.styleSheet (CSSManager.borderRadiusManager m')
  = BorderRadiusManager.styleSheet (CSSManager.borderRadiusManager m) ->
  FontSizeManager.styleSheet (CSSManager.fontSizeManager m')
  = FontSizeManager.styleSheet (CSSManager.fontSizeManager m) ->
  Frame.advances (m, p) (m', q).
Proof.
  intros (He & Ha & Hl & _) **. split; cbn [fst snd]; try assumption.
  - now rewrite Hl.
  - intros i Hi. left. now rewrite <- Ha.
Qed.

Lemma callBack_advances (records : list OpacityManager.MutationRecord) (cb : callback)
    (w : Script.World) :
  Frame.advances w (Script.callBack records cb w).2.
Proof.
  destruct w as [m p]. destruct cb as [last| | | |]; cbn [Script.callBack].
  - destruct (length records =? 0)%nat; [apply advances_refl|].
    unfold SpaceManager.throttled.
    destruct (300 <=? clock p - last); [|destruct m; apply advances_refl].
    pose proof (applyStyles_grows (CSSManager.spaceManager m) p) as Hg.
    pose proof (applyStyles_frame (CSSManager.spaceManager m) p) as [He Hs].
    destruct (SpaceManager.applyStyles _ p) as [x p1]. cbn [fst snd] in *.
    split; cbn [fst snd Script.withSpaceManager CSSManager.screenSize CSSManager.spaceManager
                CSSManager.zIndexManager CSSManager.opacityManager
                CSSManager.borderRadiusManager CSSManager.fontSizeManager];
      try reflexivity; try assumption.
    + destruct Hs as [[Hs _]|(rules & Hs & _)]; rewrite Hs; [lia|].
      rewrite length_app. lia.
    + intros i Hi. destruct Hs as [[_ Ha]|(rules & _ & Ha)]; rewrite Ha in Hi; [now left|].
      apply elem_of_app in Hi as [Hi|Hi]; [now left|].
      apply list_elem_of_singleton in Hi. right. lia.
  - destruct (length records =? 0)%nat; [apply advances_refl|].
    pose proof (applyZIndexStyles_grows (CSSManager.zIndexManager m) p) as Hg.
    pose proof (applyZIndexStyles_frame (CSSManager.zIndexManager m) p) as [He Hs].
    destruct (ZIndexManager.applyZIndexStyles _ p) as [x p1]. cbn [fst snd] in *.
    eapply advances_onlySheet; [exact Hs|..]; try reflexivity; assumption.
  - destruct (length (Script.classRecords records) =? 0)%nat; [apply advances_refl|].
    pose proof (inspect_grows (Script.classRecords records) (CSSManager.opacityManager m) p) as Hg.
    pose proof (inspect_frame (Script.classRecords records) (CSSManager.opacityManager m) p)
      as [He Hs].
    destruct (OpacityManager.inspect _ _ p) as [x p1]. cbn [fst snd] in *.
    eapply advances_onlySheet; [exact Hs|..]; try reflexivity; assumption.
  - destruct (length records =? 0)%nat; [apply advances_refl|].
    pose proof (applyBorderRadiusStyles_grows (CSSManager.borderRadiusManager m) p) as Hg.
    pose proof (applyBorderRadiusStyles_frame (CSSManager.borderRadiusManager m) p) as [He Hs].
    destruct (BorderRadiusManager.applyBorderRadiusStyles _ p) as [x p1]. cbn [fst snd] in *.
    eapply advances_onlySheet; [exact Hs|..]; try reflexivity; assumption.
  - destruct (length records =? 0)%nat; [apply advances_refl|].
    pose proof (applyFontSizeStyles_grows (CSSManager.fontSizeManager m) p) as Hg.
    pose proof (applyFontSizeStyles_frame (CSSManager.fontSizeManager m) p) as [He Hs].
    destruct (FontSizeManager.applyFontSizeStyles _ p) as [x p1]. cbn [fst snd] in *.
    eapply advances_onlySheet; [exact Hs|..]; try reflexivity; assumption.
Qed.





(** An observer with nothing left to do leaves the world as it is. *)
Lemma callBack_served (records : list OpacityManager.MutationRecord) (cb : callback)
    (w : Script.World) :
  Frame.served records cb w -> (Script.callBack records cb w).2 = w.
Proof.
  destruct w as [m p]. destruct cb as [last| | | |]; cbn [Script.callBack Frame.served fst snd];
    intros H.
  - destruct (length records =? 0)%nat eqn:E; [reflexivity|].
    apply Nat.eqb_neq in E. unfold SpaceManager.throttled.
    destruct (Z.leb_spec 300 (clock p - last)) as [Hrun|Hskip].
    + rewrite applyStyles_settled by now apply H. now destruct m.
    + now destruct m.
  - destruct (length records =? 0)%nat eqn:E; [reflexivity|].
    apply Nat.eqb_neq in E.
    rewrite applyZIndexStyles_settled by now apply H. now destruct m.
  - destruct (length (Script.classRecords records) =? 0)%nat eqn:E; [reflexivity|].
    rewrite inspect_settled by exact H. now destruct m.
  - destruct (length records =? 0)%nat eqn:E; [reflexivity|].
    apply Nat.eqb_neq in E.
    rewrite applyBorderRadiusStyles_settled by now apply H. now destruct m.
  - destruct (length records =? 0)%nat eqn:E; [reflexivity|].
    apply Nat.eqb_neq in E.
    rewrite applyFontSizeStyles_settled by now apply H. now destruct m.
Qed.


(** *** All observers *)

Lemma deliver_cons (records : list OpacityManager.MutationRecord) (cb : callback)
    (cbs : list callback) (w : Script.World) :
  Script.deliver records (cb :: cbs) w
  = ((Script.callBack records cb w).1
       :: (Script.deliver records cbs (Script.callBack records cb w).2).1,
     (Script.deliver records cbs (Script.callBack records cb w).2).2).
Proof.
  cbn [Script.deliver]. destruct (Script.callBack records cb w) as [cb1 w1].
  cbn [fst snd]. now destruct (Script.deliver records cbs w1).
Qed.


Lemma deliver_advances (records : list OpacityManager.MutationRecord) (l : list callback)
    (w : Script.World) :
  Frame.advances w (Script.deliver records l w).2.
Proof.
  revert w. induction l as [|cb l IH]; intros w; [apply advances_refl|].
  rewrite deliver_cons. cbn [snd].
  eapply advances_trans; [apply callBack_advances | apply IH].
Qed.






End Observers.

(** ** What the script builds *)

Section Construction.

Lemma onlySheet_registers_allocates (cb : callback) (sheet : nat) (p q r : Page) :
  Frame.registers cb p q -> Frame.allocates sheet p q -> Frame.onlySheet sheet q r ->
  Frame.registers cb p r /\ Frame.allocates sheet p r.
Proof.
  intros (H1 & H2 & H3 & H4 & H5 & H6) (A1 & A2 & A3 & A4)
         ((E1 & E2 & E3 & E4 & E5 & E6) & O1 & O2 & O3).
  split.
  - repeat split; congruence.
  - split; [exact A1|]. split; [congruence|]. split; [congruence|].
    intros i Hi. rewrite O3 by lia. now apply A4.
Qed.

Lemma allocated (cb : callback) (p : Page) :
  let q := Dom.observe cb
             (Dom.setAdoptedStyleSheets
                (adoptedStyleSheets (Dom.newCSSStyleSheet p).2 ++ [length (sheets p)])
                (Dom.newCSSStyleSheet p).2) in
  Frame.registers cb p q /\ Frame.allocates (length (sheets p)) p q.
Proof.
  cbv zeta. split; [repeat split|].
  split; [reflexivity|]. cbn. unfold CSSStyleSheet. rewrite length_app. cbn.
  split; [lia|]. split; [reflexivity|].
  intros i Hi. now rewrite lookup_app_l.
Qed.

Lemma zIndex_constructor (p : Page) :
  let r := ZIndexManager.constructor p in
  Frame.registers ZIndexApplyStyles p r.2 /\
  Frame.allocates (ZIndexManager.styleSheet r.1) p r.2.
Proof.
  cbv zeta. unfold ZIndexManager.constructor, ZIndexManager.initiateDomObserver.
  cbn [Dom.newCSSStyleSheet].
  destruct (allocated ZIndexApplyStyles p) as [H1 H2]. cbv zeta in H1, H2.
  cbn [Dom.newCSSStyleSheet snd] in H1, H2.
  match goal with
  | |- context [ZIndexManager.applyZIndexStyles ?this ?q] =>
      destruct (applyZIndexStyles_frame this q) as [Hs Hf]
  end.
  cbn [ZIndexManager.styleSheet] in Hs, Hf. rewrite Hs.
  eapply onlySheet_registers_allocates; eassumption.
Qed.

Lemma borderRadius_constructor (p : Page) :
  let r := BorderRadiusManager.constructor p in
  Frame.registers BorderRadiusApplyStyles p r.2 /\
  Frame.allocates (BorderRadiusManager.styleSheet r.1) p r.2.
Proof.
  cbv zeta. unfold BorderRadiusManager.constructor, BorderRadiusManager.initiateDomObserver.
  cbn [Dom.newCSSStyleSheet].
  destruct (allocated BorderRadiusApplyStyles p) as [H1 H2]. cbv zeta in H1, H2.
  cbn [Dom.newCSSStyleSheet snd] in H1, H2.
  match goal with
  | |- context [BorderRadiusManager.applyBorderRadiusStyles ?this ?q] =>
      destruct (applyBorderRadiusStyles_frame this q) as [Hs Hf]
  end.
  cbn [BorderRadiusManager.styleSheet] in Hs, Hf. rewrite Hs.
  eapply onlySheet_registers_allocates; eassumption.
Qed.

Lemma fontSize_constructor (p : Page) :
  let r := FontSizeManager.constructor p in
  Frame.registers FontSizeApplyStyles p r.2 /\
  Frame.allocates (FontSizeManager.styleSheet r.1) p r.2.
Proof.
  cbv zeta. unfold FontSizeManager.constructor, FontSizeManager.initiateDomObserver.
  cbn [Dom.newCSSStyleSheet fst snd FontSizeManager.styleSheet].
  exact (allocated FontSizeApplyStyles p).
Qed.

Lemma opacity_constructor (p : Page) :
  let r := OpacityManager.constructor p in
  Frame.registers OpacityInspect p r.2 /\
  Frame.allocates (OpacityManager.styleSheet r.1) p r.2.
Proof.
  cbv zeta. unfold OpacityManager.constructor, OpacityManager.initiateDomObserver.
  cbn [Dom.newCSSStyleSheet].
  match goal with
  | |- context [OpacityManager.applyInitialOpacityStyles ?this ?q] =>
      destruct (applyInitialOpacityStyles_frame this q) as [Hs Hf];
      destruct (OpacityManager.applyInitialOpacityStyles this q) as [x p3]
  end.
  cbn [OpacityManager.styleSheet fst snd] in *. rewrite Hs.
  destruct Hf as ((E1 & E2 & E3 & E4 & E5 & E6) & O1 & O2 & O3).
  cbn in E1, E2, E3, E4, E5, E6, O1, O2, O3.
  split.
  - repeat split; cbn; congruence.
  - split; [reflexivity|]. cbn. unfold CSSStyleSheet in *. rewrite length_app in O2. cbn in O2.
    split; [lia|]. split; [exact O1|].
    intros i Hi. rewrite O3 by lia. now rewrite lookup_app_l.
Qed.

Lemma main_built (p : Page) : Frame.built p (Script.main p).
Proof.
  unfold Script.main, CSSManager.constructor, ScreenSize.constructor,
    SpaceManager.constructor, SpaceManager.observeDomChanges.
  pose proof (updateDeviceType_eq p) as Hu. cbv zeta in Hu.
  set (p1 := ScreenSize.updateDeviceType p) in *.
  set (p2 := Dom.observe (SpaceApplyStyles 0) p1).
  destruct (zIndex_constructor p2) as [(Z1 & Z2 & Z3 & Z4 & Z5 & Z6) (ZA1 & ZA2 & ZA3 & _)].
  destruct (ZIndexManager.constructor p2) as [z p3]. cbn [fst snd] in *.
  destruct (opacity_constructor p3) as [(O1 & O2 & O3 & O4 & O5 & O6) (OA1 & OA2 & OA3 & _)].
  destruct (OpacityManager.constructor p3) as [o p4]. cbn [fst snd] in *.
  destruct (borderRadius_constructor p4)
    as [(B1 & B2 & B3 & B4 & B5 & B6) (BA1 & BA2 & BA3 & _)].
  destruct (BorderRadiusManager.constructor p4) as [b p5]. cbn [fst snd] in *.
  destruct (fontSize_constructor p5) as [(F1 & F2 & F3 & F4 & F5 & F6) (FA1 & FA2 & FA3 & _)].
  destruct (FontSizeManager.constructor p5) as [f p6]. cbn [fst snd] in *.
  assert (Hl : length (sheets p2) = S (length (sheets p))).
  { subst p2. cbn [Dom.observe sheets]. rewrite Hu. cbn. unfold CSSStyleSheet.
    rewrite length_app. cbn. lia. }
  assert (Ha : adoptedStyleSheets p2 = [length (sheets p)]).
  { subst p2. cbn [Dom.observe adoptedStyleSheets]. now rewrite Hu. }
  assert (Ho : observers p2 = observers p ++ [SpaceApplyStyles 0]).
  { subst p2. cbn [Dom.observe observers]. now rewrite Hu. }
  assert (He : innerWidth p2 = innerWidth p /\ body p2 = body p /\ clock p2 = clock p /\
               timers p2 = timers p /\ nextTimer p2 = nextTimer p).
  { subst p2. cbn [Dom.observe innerWidth body clock timers nextTimer]. now rewrite Hu. }
  destruct He as (E1 & E2 & E3 & E4 & E5).
  clearbody p2. clear Hu. clearbody p1.
  unfold CSSManager.observeDomChanges, SpaceManager.observeDomChanges,
    ZIndexManager.initiateDomObserver, OpacityManager.initiateDomObserver,
    BorderRadiusManager.initiateDomObserver, FontSizeManager.initiateDomObserver.
  split; cbn [Dom.observe fst snd innerWidth body clock timers nextTimer observers sheets
              adoptedStyleSheets CSSManager.screenSize CSSManager.zIndexManager
              CSSManager.opacityManager CSSManager.borderRadiusManager
              CSSManager.fontSizeManager ScreenSize.timeout]; try congruence; try lia.
  - rewrite F6, B6, O6, Z6, Ho. unfold Frame.fiveObservers.
    rewrite <- !app_assoc. reflexivity.
  - rewrite FA3, BA3, OA3, ZA3, Ha, FA1, BA1, OA1, ZA1, BA2, OA2, ZA2, Hl.
    cbn [seq app]. repeat f_equal; lia.
Qed.

End Construction.

(** ** Invariants of the running script *)

Section Traces.

Lemma run_cons (now : Z) (e : Script.event) (rest : list (Z * Script.event))
    (w : Script.World) :
  Script.run ((now, e) :: rest) w
  = ((Script.handle now e w).1 ++ (Script.run rest (Script.handle now e w).2).1,
     (Script.run rest (Script.handle now e w).2).2).
Proof.
  cbn [Script.run]. destruct (Script.handle now e w) as [bs1 w1].
  cbn [fst snd]. now destruct (Script.run rest w1).
Qed.

(** What every event keeps, the script keeps. *)
Lemma run_invariant (P : Script.World -> Prop) (trace : list (Z * Script.event))
    (w : Script.World) :
  (forall now e w, P w -> P (Script.handle now e w).2) ->
  P w -> P (Script.run trace w).2.
Proof.
  intros Hstep. revert w. induction trace as [|[now e] rest IH]; intros w H; [exact H|].
  rewrite run_cons. cbn [snd]. apply IH. now apply Hstep.
Qed.

(** A timer turn: the timeouts that ran each added one sheet; when one ran,
    the last of these sheets is the only adopted sheet. *)
Lemma fire_frame (pending : list (nat * Z)) (p : Page) :
  let r := Script.fire pending p in
  (innerWidth r.2 = innerWidth p /\ body r.2 = body p /\ observers r.2 = observers p /\
   clock r.2 = clock p /\ nextTimer r.2 = nextTimer p) /\
  (exists more : list CSSStyleSheet,
     sheets r.2 = sheets p ++ more /\ length more = length r.1) /\
  (r.1 = [] -> r.2 = p) /\
  (r.1 <> [] ->
   exists k : nat, adoptedStyleSheets r.2 = [k] /\ (length (sheets p) <= k)%nat).
Proof.
  cbv zeta. revert p. induction pending as [|[id due] rest IH]; intros p.
  - cbn [Script.fire fst snd]. repeat split; try congruence.
    exists []. now rewrite app_nil_r.
  - cbn [Script.fire]. destruct (due <=? clock p); [|apply IH].
    set (q := ScreenSize.updateDeviceType (Dom.clearTimeout (Some id) p)).
    pose proof (updateDeviceType_eq (Dom.clearTimeout (Some id) p)) as Hq.
    cbv zeta in Hq. fold q in Hq.
    destruct (IH q) as ((E1 & E2 & E3 & E4 & E5) & (more & Hs & Hl) & Hnil & Hcons).
    destruct (Script.fire rest q) as [bs q']. cbn [fst snd] in *.
    assert (Hsq : exists rules, sheets q = sheets p ++ [rules]).
    { rewrite Hq. cbn. eauto. }
    destruct Hsq as [rules Hsq].
    split; [rewrite E1, E2, E3, E4, E5, Hq; repeat split|].
    split; [exists (rules :: more); rewrite Hs, Hsq, <- app_assoc; cbn; split;
            [reflexivity | now rewrite Hl]|].
    split; [discriminate|]. intros _.
    destruct bs as [|b bs].
    + rewrite (Hnil eq_refl). exists (length (sheets p)). split; [|lia].
      rewrite Hq. reflexivity.
    + destruct Hcons as (k & Hk & Hle); [discriminate|].
      exists k. split; [exact Hk|].
      rewrite Hsq in Hle. unfold CSSStyleSheet in *. rewrite length_app in Hle. cbn in Hle. lia.
Qed.

(** A mutation: the document changes, then the observers are called. *)
Lemma handle_mutation (now : Z) (elements : list element)
    (records : list OpacityManager.MutationRecord) (w : Script.World) :
  let w0 := (w.1, Dom.setBody elements (Dom.setClock now w.2)) in
  let d := Script.deliver records (observers w.2) w0 in
  Script.handle now (Script.Mutation elements records) w
  = ([], (d.2.1, Dom.setObservers d.1 d.2.2)).
Proof.
  destruct w as [m p]. cbv zeta. cbn [Script.handle fst snd].
  change (observers (Dom.setBody elements (Dom.setClock now p))) with (observers p).
  destruct (Script.deliver records (observers p) _) as [cbs [m1 p2]]. reflexivity.
Qed.

(** *** The observers stay three equal runs of five *)



(** *** The debounce, over any trace *)

Lemma getDeviceTypeAndContainer_width (p q : Page) :
  innerWidth p = innerWidth q ->
  ScreenSize.getDeviceTypeAndContainer p = ScreenSize.getDeviceTypeAndContainer q.
Proof. intros H. unfold ScreenSize.getDeviceTypeAndContainer. now rewrite H. Qed.

Lemma handle_due_turn (t0 w0 now : Z) (w : Script.World) :
  Spec.pending (Some (t0, w0)) w -> t0 + 300 <= now ->
  (Script.handle now Script.RunTimers w).1
  = [ScreenSize.getDeviceTypeAndContainer (Dom.setInnerWidth w0 w.2)] /\
  Spec.pending None (Script.handle now Script.RunTimers w).2.
Proof.
  destruct w as [m p]. intros (id & Ht & Hid & Hw) Hdue. cbn [fst snd] in *.
  unfold Script.handle, Dom.setClock. cbn [timers]. rewrite Ht.
  cbn [Script.fire clock].
  destruct (Z.leb_spec (t0 + 300) now); [|lia].
  cbn [Script.fire fst snd Spec.pending]. split.
  - f_equal. apply getDeviceTypeAndContainer_width. cbn. exact Hw.
  - rewrite updateDeviceType_eq. cbn [timers Dom.setAdoptedStyleSheets Dom.setSheets
      Dom.clearTimeout].
    rewrite filter_cons_False by (cbn; tauto). reflexivity.
Qed.

Lemma handle_mutation_pending (latest : option (Z * Z)) (now : Z) (elements : list element)
    (records : list OpacityManager.MutationRecord) (w : Script.World) :
  Spec.pending latest w ->
  (Script.handle now (Script.Mutation elements records) w).1 = [] /\
  Spec.pending latest (Script.handle now (Script.Mutation elements records) w).2.
Proof.
  intros H. rewrite handle_mutation. cbv zeta. split; [reflexivity|].
  destruct (deliver_advances records (observers w.2)
              (w.1, Dom.setBody elements (Dom.setClock now w.2)))
    as [(Hi & _ & _ & _ & Ht & _) Hs _ _ _ _ _ _ _ _ _ _ _].
  cbn [fst snd] in Hi, Ht, Hs.
  destruct latest as [[t0 w0]|]; cbn [Spec.pending fst snd Dom.setObservers timers innerWidth] in *.
  - destruct H as (id & H1 & H2 & H3). exists id.
    rewrite Ht, Hs, Hi. destruct w as [m p]. repeat split; assumption.
  - rewrite Ht. destruct w as [m p]. exact H.
Qed.

Lemma pending_timers (latest : option (Z * Z)) (w : Script.World) :
  Spec.pending latest w ->
  length (timers w.2) = match latest with Some _ => 1%nat | None => 0%nat end.
Proof.
  destruct latest as [[t0 w0]|]; cbn [Spec.pending].
  - intros (id & H & _). now rewrite H.
  - intros H. now rewrite H.
Qed.

(** One event: at most one recomputation, only when a timeout was pending,
    and for the width of the resize that set it. *)
Lemma handle_pending (latest : option (Z * Z)) (now : Z) (e : Script.event)
    (w : Script.World) :
  Spec.pending latest w ->
  exists latest' : option (Z * Z),
    Spec.pending latest' (Script.handle now e w).2 /\
    (latest' = latest \/ latest' = None \/
     exists width, e = Script.Resize width /\ latest' = Some (now, width)) /\
    (length (Script.handle now e w).1 + length (timers (Script.handle now e w).2.2)
     <= length (timers w.2) + length (Spec.resizes [(now, e)]))%nat /\
    forall b, b ∈ (Script.handle now e w).1 ->
      exists t0 w0, latest = Some (t0, w0) /\
        b = ScreenSize.getDeviceTypeAndContainer (Dom.setInnerWidth w0 w.2).
Proof.
  intros H. pose proof (pending_timers latest w H) as Hn.
  destruct e as [width| |elements records].
  - destruct (handle_resize latest now width w H) as [H1 H2].
    exists (Some (now, width)). rewrite H1, (pending_timers _ _ H2).
    split; [exact H2|]. split; [eauto|]. split; [cbn; lia|].
    intros b Hb. now apply elem_of_nil in Hb.
  - destruct latest as [[t0 w0]|].
    + destruct (Z.leb_spec (t0 + 300) now) as [Hdue|Hearly].
      * destruct (handle_due_turn t0 w0 now w H Hdue) as [H1 H2].
        exists None. rewrite H1, (pending_timers _ _ H2), Hn.
        split; [exact H2|]. split; [auto|]. split; [cbn; lia|].
        intros b Hb. apply list_elem_of_singleton in Hb. eauto.
      * destruct (handle_early_turn (Some (t0, w0)) now w H Hearly) as [H1 H2].
        exists (Some (t0, w0)). rewrite H1, (pending_timers _ _ H2), Hn.
        split; [exact H2|]. split; [auto|]. split; [cbn; lia|].
        intros b Hb. now apply elem_of_nil in Hb.
    + destruct (handle_early_turn None now w H I) as [H1 H2].
      exists None. rewrite H1, (pending_timers _ _ H2), Hn.
      split; [exact H2|]. split; [auto|]. split; [cbn; lia|].
      intros b Hb. now apply elem_of_nil in Hb.
  - destruct (handle_mutation_pending latest now elements records w H) as [H1 H2].
    exists latest. rewrite H1, (pending_timers _ _ H2), Hn.
    split; [exact H2|]. split; [auto|]. split; [cbn; lia|].
    intros b Hb. now apply elem_of_nil in Hb.
Qed.

Lemma resizes_cons (now : Z) (e : Script.event) (rest : list (Z * Script.event)) :
  Spec.resizes ((now, e) :: rest) = Spec.resizes [(now, e)] ++ Spec.resizes rest.
Proof. unfold Spec.resizes. cbn [flat_map]. now rewrite app_nil_r. Qed.

Lemma run_pending (trace : list (Z * Script.event)) (latest : option (Z * Z))
    (w : Script.World) :
  Spec.pending latest w ->
  (exists latest', Spec.pending latest' (Script.run trace w).2) /\
  (length (Script.run trace w).1 + length (timers (Script.run trace w).2.2)
   <= length (timers w.2) + length (Spec.resizes trace))%nat /\
  forall b, b ∈ (Script.run trace w).1 ->
    exists t0 w0, (latest = Some (t0, w0) \/ (t0, w0) ∈ Spec.resizes trace) /\
      forall q : Page, b = ScreenSize.getDeviceTypeAndContainer (Dom.setInnerWidth w0 q).
Proof.
  revert latest w. induction trace as [|[now e] rest IH]; intros latest w H.
  - cbn [Script.run fst snd]. split; [eauto|]. split; [cbn; lia|].
    intros b Hb. now apply elem_of_nil in Hb.
  - rewrite run_cons, resizes_cons. cbn [fst snd].
    destruct (handle_pending latest now e w H) as (latest1 & H1 & Hl & Hb1 & Hv1).
    destruct (IH latest1 _ H1) as (H2 & Hb2 & Hv2).
    split; [exact H2|]. rewrite !length_app. split; [lia|].
    intros b Hb. apply elem_of_app in Hb as [Hb|Hb].
    + destruct (Hv1 b Hb) as (t0 & w0 & E & ->). exists t0, w0. split; [now left|].
      intros q. now apply getDeviceTypeAndContainer_width.
    + destruct (Hv2 b Hb) as (t0 & w0 & [E|E] & Hq); exists t0, w0.
      * split; [|exact Hq].
        destruct Hl as [->|[->|(width & -> & ->)]]; [now left | discriminate |].
        right. injection E as <- <-. apply elem_of_app. left. cbn. left.
      * split; [|exact Hq]. right. apply elem_of_app. now right.
Qed.

(** X9.  The breakpoint is recomputed at most once per resize, whatever the
    events and their times: on a page without pending timeouts, the script
    recomputes the breakpoint no more often than the viewport was resized,
    each recomputation is for the width of one of these resizes, and at most
    one timeout is pending at any time. *)
Theorem recomputations_bounded (p : Page) (trace : list (Z * Script.event)) :
  timers p = [] ->
  let r := Script.run trace (Script.main p) in
  (length r.1 <= length (Spec.resizes trace))%nat /\
  (length (timers r.2.2) <= 1)%nat /\
  forall b, b ∈ r.1 ->
    exists t width, (t, width) ∈ Spec.resizes trace /\
      b = ScreenSize.getDeviceTypeAndContainer (Dom.setInnerWidth width p).
Proof.
  intros Hp. cbv zeta.
  assert (H : Spec.pending None (Script.main p)).
  { cbn [Spec.pending]. destruct (main_built p) as [_ _ _ Ht _ _ _ _ _ _ _ _ _]. congruence. }
  destruct (run_pending trace None _ H) as ((latest' & H1) & H2 & H3).
  rewrite H in H2. cbn [length] in H2.
  split; [lia|]. split.
  - rewrite (pending_timers _ _ H1). destruct latest'; lia.
  - intros b Hb. destruct (H3 b Hb) as (t0 & w0 & [E|E] & Hq); [discriminate|].
    exists t0, w0. split; [exact E | apply Hq].
Qed.

(** Three resizes, a mutation and four timer turns: two recomputations. *)
Lemma recomputations_bounded_witness :
  let trace :=
    [ (1000, Script.Resize 500); (1100, Script.Resize 800); (1500, Script.RunTimers);
      (1600, Script.Mutation [["m-4"]] []); (1700, Script.RunTimers);
      (2000, Script.Resize 1300); (2100, Script.RunTimers); (2400, Script.RunTimers) ] in
  (length (Script.run trace (Script.main (Dom.load 1024 [] 0))).1 <= 3)%nat.
Proof.
  intros trace.
  exact (proj1 (recomputations_bounded (Dom.load 1024 [] 0) trace eq_refl)).
Defined.

End Traces.

(** ** The managers' sheets after a breakpoint update *)

Section Detached.

Lemma main_wellFormed (p : Page) : Frame.wellFormed (Script.main p).
Proof.
  destruct (main_built p) as [_ _ _ _ _ _ _ Hl _ Hz Ho Hb Hf].
  unfold Frame.wellFormed. cbv zeta. rewrite Hl, Hz, Ho, Hb, Hf. lia.
Qed.

Lemma advances_wellFormed (w w' : Script.World) :
  Frame.advances w w' -> Frame.wellFormed w -> Frame.wellFormed w'.
Proof.
  intros [_ _ _ _ _ _ _ Hz Ho Hb Hf Hl _]. unfold Frame.wellFormed. cbv zeta.
  rewrite Hz, Ho, Hb, Hf. lia.
Qed.

Lemma advances_detached (w w' : Script.World) :
  Frame.advances w w' -> Frame.wellFormed w -> Frame.detached w -> Frame.detached w'.
Proof.
  intros [_ _ _ _ _ _ _ Hz Ho Hb Hf Hl Ha] Hwf Hd i Hi.
  rewrite Hz, Ho, Hb, Hf. destruct (Ha i Hi) as [H|H]; [now apply Hd|].
  unfold Frame.wellFormed in Hwf. cbv zeta in Hwf. lia.
Qed.

Lemma handle_wellFormed (now : Z) (e : Script.event) (w : Script.World) :
  Frame.wellFormed w -> Frame.wellFormed (Script.handle now e w).2.
Proof.
  intros H. destruct e as [width| |elements records].
  - destruct w as [m p]. exact H.
  - destruct w as [m p]. cbn [Script.handle].
    destruct (fire_frame (timers (Dom.setClock now p)) (Dom.setClock now p))
      as (_ & (more & Hs & _) & _).
    cbv zeta in Hs. destruct (Script.fire _ _) as [bs p1]. cbn [fst snd] in *.
    unfold Frame.wellFormed in *. cbv zeta in *. cbn [fst snd] in *.
    rewrite Hs. cbn [Dom.setClock sheets]. unfold CSSStyleSheet in *.
    rewrite length_app. lia.
  - rewrite handle_mutation. cbv zeta.
    pose proof (deliver_advances records (observers w.2)
                  (w.1, Dom.setBody elements (Dom.setClock now w.2))) as Ha.
    apply advances_wellFormed in Ha; [|destruct w; exact H].
    exact Ha.
Qed.

Lemma handle_detached (now : Z) (e : Script.event) (w : Script.World) :
  Frame.wellFormed w -> Frame.detached w -> Frame.detached (Script.handle now e w).2.
Proof.
  intros Hwf H. destruct e as [width| |elements records].
  - destruct w as [m p]. exact H.
  - destruct w as [m p]. cbn [Script.handle].
    destruct (fire_frame (timers (Dom.setClock now p)) (Dom.setClock now p))
      as (_ & _ & Hnil & Hcons).
    cbv zeta in Hnil, Hcons. destruct (Script.fire _ _) as [bs p1]. cbn [fst snd] in *.
    destruct bs as [|b bs].
    + rewrite (Hnil eq_refl). exact H.
    + destruct Hcons as (k & Hk & Hle); [discriminate|].
      intros i Hi. cbn [fst snd] in *. rewrite Hk in Hi.
      apply list_elem_of_singleton in Hi. subst i.
      unfold Frame.wellFormed in Hwf. cbv zeta in Hwf. cbn [fst snd Dom.setClock sheets] in *.
      lia.
  - rewrite handle_mutation. cbv zeta.
    pose proof (deliver_advances records (observers w.2)
                  (w.1, Dom.setBody elements (Dom.setClock now w.2))) as Ha.
    apply advances_detached in Ha; [exact Ha | destruct w; exact Hwf | destruct w; exact H].
Qed.

Lemma fired_detached (now : Z) (w : Script.World) :
  Frame.wellFormed w ->
  (Script.handle now Script.RunTimers w).1 <> [] ->
  Frame.detached (Script.handle now Script.RunTimers w).2.
Proof.
  destruct w as [m p]. intros Hwf. cbn [Script.handle].
  destruct (fire_frame (timers (Dom.setClock now p)) (Dom.setClock now p))
    as (_ & _ & _ & Hcons).
  cbv zeta in Hcons. destruct (Script.fire _ _) as [bs p1]. cbn [fst snd] in *.
  intros Hbs. destruct (Hcons Hbs) as (k & Hk & Hle).
  intros i Hi. cbn [fst snd] in *. rewrite Hk in Hi.
  apply list_elem_of_singleton in Hi. subst i.
  unfold Frame.wellFormed in Hwf. cbv zeta in Hwf. cbn [fst snd Dom.setClock sheets] in *.
  lia.
Qed.

(** X10.  Once a breakpoint update has run, the rules of the z-index, the
    opacity, the border-radius and the font-size manager are out of force
    for good: whatever the script handled before the timer turn in which the
    update ran, and whatever it handles after it, none of the four sheets is
    among the adopted sheets. *)
Theorem updates_detach_for_good (p : Page) (before after : list (Z * Script.event))
    (now : Z) :
  let w := (Script.run before (Script.main p)).2 in
  (Script.handle now Script.RunTimers w).1 <> [] ->
  Frame.detached (Script.run after (Script.handle now Script.RunTimers w).2).2.
Proof.
  cbv zeta. intros Hran.
  assert (Hwf : Frame.wellFormed (Script.run before (Script.main p)).2).
  { apply run_invariant; [intros; now apply handle_wellFormed | apply main_wellFormed]. }
  apply (run_invariant (fun w => Frame.wellFormed w /\ Frame.detached w)).
  - intros t e w [H1 H2]. split; [now apply handle_wellFormed | now apply handle_detached].
  - split; [now apply handle_wellFormed | now apply fired_detached].
Qed.

(** A resize at 1000 ms, the timer turn at 1300 ms that runs the update,
    then a mutation that brings a new z-index class: the sheet of the z-index
    manager (sheet 1) is not adopted. *)
Lemma updates_detach_for_good_witness :
  let w := Script.main (Dom.load 1024 [["z-1"]] 0) in
  let w1 := (Script.run [(1000, Script.Resize 500)] w).2 in
  let w2 := (Script.run [(1400, Script.Mutation [["z-1"; "z-2"]]
                            [OpacityManager.mkRecord OpacityManager.childList None []])]
               (Script.handle 1300 Script.RunTimers w1).2).2 in
  Frame.detached w2.
Proof.
  intros w w1 w2.
  apply (updates_detach_for_good (Dom.load 1024 [["z-1"]] 0) [(1000, Script.Resize 500)]
           [(1400, Script.Mutation [["z-1"; "z-2"]]
                     [OpacityManager.mkRecord OpacityManager.childList None []])] 1300).
  vm_compute. discriminate.
Defined.

End Detached.

(** ** The sheet of the opacity manager *)

Section OpacitySheet.

Lemma oneRule_step (sheet : nat) (c : string) (st : gset string * Page) :
  Frame.oneRulePerClass (OpacityManager.mk st.1 sheet) st.2 ->
  let st' := Engine.step Engine.opacityRule (Dom.insertRuleLast sheet) c st in
  Frame.oneRulePerClass (OpacityManager.mk st'.1 sheet) st'.2.
Proof.
  destruct st as [S p]. cbv zeta. unfold Engine.step. cbn [fst snd].
  intros H. destruct (decide (c ∈ S)) as [Hin|Hout]; [exact H|].
  destruct (Engine.opacityRule c) as [rule|] eqn:Hrule; [|exact H].
  destruct H as (rules & Hs & Hl & Hm).
  cbn [OpacityManager.styleSheet OpacityManager.processedClasses fst snd] in *.
  exists (rules ++ [rule]).
  cbn [OpacityManager.styleSheet OpacityManager.processedClasses fst snd].
  unfold Dom.insertRuleLast, Dom.setSheets, CSSStyleSheet in *. cbn [sheets].
  split; [now rewrite list_lookup_alter_eq, Hs|].
  split.
  - rewrite length_app, size_union by (now apply disjoint_singleton_l).
    rewrite size_singleton, Hl. cbn. lia.
  - intros r. rewrite elem_of_app, list_elem_of_singleton, Hm. split.
    + intros [(d & Hd & Hr)|E]; [|subst r].
      * exists d. split; [apply elem_of_union; now right | exact Hr].
      * exists c. split; [apply elem_of_union; left; now apply elem_of_singleton | exact Hrule].
    + intros (d & Hd & Hr). apply elem_of_union in Hd as [Hd|Hd].
      * apply elem_of_singleton in Hd. subst d. right. congruence.
      * left. eauto.
Qed.

Lemma oneRule_sweep (sheet : nat) (els : list element) (st : gset string * Page) :
  Frame.oneRulePerClass (OpacityManager.mk st.1 sheet) st.2 ->
  let st' := Engine.sweep Engine.opacityRule (Dom.insertRuleLast sheet) els st in
  Frame.oneRulePerClass (OpacityManager.mk st'.1 sheet) st'.2.
Proof.
  cbv zeta. unfold Engine.sweep. revert st.
  induction els as [|el els IH]; intros st H; [exact H|].
  rewrite forEach_cons. apply IH. clear IH. revert st H.
  induction el as [|c el IH]; intros st H; [exact H|].
  rewrite forEach_cons. apply IH. now apply oneRule_step.
Qed.

Lemma inspect_oneRule (mutations : list OpacityManager.MutationRecord)
    (this : OpacityManager.t) (p : Page) :
  Frame.oneRulePerClass this p ->
  Frame.oneRulePerClass (OpacityManager.inspect mutations this p).1
    (OpacityManager.inspect mutations this p).2.
Proof.
  intros H. rewrite inspect_sweep. destruct this as [S sheet].
  apply (oneRule_sweep sheet _ (S, p)). exact H.
Qed.

Lemma applyInitialOpacityStyles_oneRule (this : OpacityManager.t) (p : Page) :
  Frame.oneRulePerClass this p ->
  Frame.oneRulePerClass (OpacityManager.applyInitialOpacityStyles this p).1
    (OpacityManager.applyInitialOpacityStyles this p).2.
Proof.
  intros H. rewrite applyInitialOpacityStyles_sweep. destruct this as [S sheet].
  apply (oneRule_sweep sheet _ (S, p)). exact H.
Qed.

(** The invariant depends on the manager and on its sheet only. *)
Lemma oneRule_sheet (this : OpacityManager.t) (p q : Page) :
  sheets q !! OpacityManager.styleSheet this = sheets p !! OpacityManager.styleSheet this ->
  Frame.oneRulePerClass this p -> Frame.oneRulePerClass this q.
Proof.
  intros E (rules & H1 & H2). exists rules. split; [exact (eq_trans E H1) | exact H2].
Qed.

Lemma constructor_oneRule (p : Page) :
  Frame.oneRulePerClass (OpacityManager.constructor p).1 (OpacityManager.constructor p).2.
Proof.
  unfold OpacityManager.constructor, OpacityManager.initiateDomObserver.
  cbn [Dom.newCSSStyleSheet].
  match goal with
  | |- context [OpacityManager.applyInitialOpacityStyles ?this ?q] =>
      assert (H : Frame.oneRulePerClass this q);
      [|apply (applyInitialOpacityStyles_oneRule this q) in H;
        destruct (OpacityManager.applyInitialOpacityStyles this q) as [x p3]]
  end.
  - exists []. cbn. unfold CSSStyleSheet.
    rewrite list_lookup_middle by reflexivity.
    split; [reflexivity|]. split; [now rewrite size_empty|].
    intros rule. split; [intros Hr; now apply elem_of_nil in Hr|].
    intros (c & Hc & _). now apply elem_of_empty in Hc.
  - cbn [fst snd] in *. eapply oneRule_sheet; [|exact H]. reflexivity.
Qed.

End OpacitySheet.

(** ** The opacity sheet in the running script *)

Section OpacityRunning.

(** An observer leaves the rules of the sheets it does not own. *)
Lemma callBack_keeps (records : list OpacityManager.MutationRecord) (cb : callback)
    (w : Script.World) (i : nat) :
  (i < length (sheets w.2))%nat -> ~ Frame.owns cb w.1 i ->
  sheets (Script.callBack records cb w).2.2 !! i = sheets w.2 !! i.
Proof.
  destruct w as [m p]. cbn [fst snd]. intros Hi Hown.
  destruct cb as [last| | | |]; cbn [Script.callBack Frame.owns] in *.
  - destruct (length records =? 0)%nat; [reflexivity|].
    unfold SpaceManager.throttled.
    destruct (300 <=? clock p - last); [|reflexivity].
    pose proof (applyStyles_frame (CSSManager.spaceManager m) p) as [_ Hs].
    destruct (SpaceManager.applyStyles _ p) as [x p1]. cbn [fst snd] in *.
    destruct Hs as [[Hs _]|(rules & Hs & _)]; rewrite Hs; [reflexivity|].
    now apply lookup_app_l.
  - destruct (length records =? 0)%nat; [reflexivity|].
    pose proof (applyZIndexStyles_frame (CSSManager.zIndexManager m) p) as [_ (_ & _ & _ & Hs)].
    destruct (ZIndexManager.applyZIndexStyles _ p) as [x p1]. cbn [fst snd] in *.
    now apply Hs.
  - destruct (length (Script.classRecords records) =? 0)%nat; [reflexivity|].
    pose proof (inspect_frame (Script.classRecords records) (CSSManager.opacityManager m) p)
      as [_ (_ & _ & _ & Hs)].
    destruct (OpacityManager.inspect _ _ p) as [x p1]. cbn [fst snd] in *.
    now apply Hs.
  - destruct (length records =? 0)%nat; [reflexivity|].
    pose proof (applyBorderRadiusStyles_frame (CSSManager.borderRadiusManager m) p)
      as [_ (_ & _ & _ & Hs)].
    destruct (BorderRadiusManager.applyBorderRadiusStyles _ p) as [x p1]. cbn [fst snd] in *.
    now apply Hs.
  - destruct (length records =? 0)%nat; [reflexivity|].
    pose proof (applyFontSizeStyles_frame (CSSManager.fontSizeManager m) p)
      as [_ (_ & _ & _ & Hs)].
    destruct (FontSizeManager.applyFontSizeStyles _ p) as [x p1]. cbn [fst snd] in *.
    now apply Hs.
Qed.

(** Only its own observer changes the opacity manager. *)
Lemma callBack_opacityManager (records : list OpacityManager.MutationRecord) (cb : callback)
    (w : Script.World) :
  cb <> OpacityInspect ->
  CSSManager.opacityManager (Script.callBack records cb w).2.1 = CSSManager.opacityManager w.1.
Proof.
  destruct w as [m p]. intros Hcb.
  destruct cb as [last| | | |]; cbn [Script.callBack]; try contradiction.
  - destruct (length records =? 0)%nat; [reflexivity|].
    unfold SpaceManager.throttled.
    destruct (300 <=? clock p - last); [|reflexivity].
    now destruct (SpaceManager.applyStyles _ p).
  - destruct (length records =? 0)%nat; [reflexivity|].
    now destruct (ZIndexManager.applyZIndexStyles _ p).
  - destruct (length records =? 0)%nat; [reflexivity|].
    now destruct (BorderRadiusManager.applyBorderRadiusStyles _ p).
  - destruct (length records =? 0)%nat; [reflexivity|].
    now destruct (FontSizeManager.applyFontSizeStyles _ p).
Qed.

Lemma callBack_oneRule (records : list OpacityManager.MutationRecord) (cb : callback)
    (w : Script.World) :
  Frame.wellFormed w ->
  Frame.oneRulePerClass (CSSManager.opacityManager w.1) w.2 ->
  Frame.oneRulePerClass (CSSManager.opacityManager (Script.callBack records cb w).2.1)
    (Script.callBack records cb w).2.2.
Proof.
  intros Hwf H.
  assert (Hother : cb <> OpacityInspect ->
            Frame.oneRulePerClass
              (CSSManager.opacityManager (Script.callBack records cb w).2.1)
              (Script.callBack records cb w).2.2).
  { intros Hcb. rewrite callBack_opacityManager by exact Hcb.
    eapply oneRule_sheet; [|exact H].
    unfold Frame.wellFormed in Hwf. cbv zeta in Hwf.
    apply callBack_keeps; [lia|].
    destruct cb; cbn [Frame.owns]; try tauto; try lia. }
  destruct cb as [last| | | |]; try (apply Hother; discriminate). clear Hother.
  destruct w as [m p]. cbn [Script.callBack fst snd] in *.
  destruct (length (Script.classRecords records) =? 0)%nat; [exact H|].
  apply (inspect_oneRule (Script.classRecords records)) in H.
  now destruct (OpacityManager.inspect _ _ p).
Qed.

Lemma deliver_oneRule (records : list OpacityManager.MutationRecord) (l : list callback)
    (w : Script.World) :
  Frame.wellFormed w ->
  Frame.oneRulePerClass (CSSManager.opacityManager w.1) w.2 ->
  Frame.oneRulePerClass (CSSManager.opacityManager (Script.deliver records l w).2.1)
    (Script.deliver records l w).2.2.
Proof.
  revert w. induction l as [|cb l IH]; intros w Hwf H; [exact H|].
  rewrite deliver_cons. cbn [snd]. apply IH.
  - eapply advances_wellFormed; [apply callBack_advances | exact Hwf].
  - now apply callBack_oneRule.
Qed.

Lemma handle_oneRule (now : Z) (e : Script.event) (w : Script.World) :
  Frame.wellFormed w ->
  Frame.oneRulePerClass (CSSManager.opacityManager w.1) w.2 ->
  Frame.oneRulePerClass (CSSManager.opacityManager (Script.handle now e w).2.1)
    (Script.handle now e w).2.2.
Proof.
  intros Hwf H. destruct e as [width| |elements records].
  - destruct w as [m p]. exact H.
  - destruct w as [m p]. cbn [Script.handle].
    destruct (fire_frame (timers (Dom.setClock now p)) (Dom.setClock now p))
      as (_ & (more & Hs & _) & _).
    cbv zeta in Hs. destruct (Script.fire _ _) as [bs p1]. cbn [fst snd] in *.
    eapply oneRule_sheet; [|exact H]. rewrite Hs. cbn [Dom.setClock sheets].
    apply lookup_app_l. unfold Frame.wellFormed in Hwf. cbv zeta in Hwf.
    cbn [fst snd] in Hwf. lia.
  - rewrite handle_mutation. cbv zeta. cbn [fst snd].
    pose proof (deliver_oneRule records (observers w.2)
                  (w.1, Dom.setBody elements (Dom.setClock now w.2))) as Hd.
    eapply oneRule_sheet; [|apply Hd].
    + reflexivity.
    + destruct w; exact Hwf.
    + destruct w; exact H.
Qed.

Lemma main_oneRule (p : Page) :
  Frame.oneRulePerClass (CSSManager.opacityManager (Script.main p).1) (Script.main p).2.
Proof.
  unfold Script.main, CSSManager.constructor.
  destruct (ScreenSize.constructor p) as [s p1].
  destruct (SpaceManager.constructor p1) as [x p2].
  destruct (ZIndexManager.constructor p2) as [z p3].
  pose proof (constructor_oneRule p3) as H.
  destruct (opacity_constructor p3) as [_ (OA1 & OA2 & _)].
  destruct (OpacityManager.constructor p3) as [o p4]. cbn [fst snd] in *.
  destruct (borderRadius_constructor p4) as [_ (_ & BA2 & _ & BA4)].
  destruct (BorderRadiusManager.constructor p4) as [b p5]. cbn [fst snd] in *.
  destruct (fontSize_constructor p5) as [_ (_ & _ & _ & FA4)].
  destruct (FontSizeManager.constructor p5) as [f p6]. cbn [fst snd] in *.
  cbn [CSSManager.opacityManager].
  eapply oneRule_sheet; [|exact H].
  transitivity (sheets p6 !! OpacityManager.styleSheet o); [reflexivity|].
  rewrite FA4 by lia. apply BA4. lia.
Qed.

(** X11.  In every world the script reaches, the sheet of the opacity manager
    holds exactly one rule for each class name the manager has processed,
    and no other rule: no event removes, repeats or overwrites a rule of
    this sheet. *)
Theorem opacity_sheet_invariant (p : Page) (trace : list (Z * Script.event)) :
  let w := (Script.run trace (Script.main p)).2 in
  Frame.oneRulePerClass (CSSManager.opacityManager w.1) w.2.
Proof.
  cbv zeta.
  apply (run_invariant
           (fun w => Frame.wellFormed w /\
                     Frame.oneRulePerClass (CSSManager.opacityManager w.1) w.2)).
  - intros now e w [H1 H2]. split; [now apply handle_wellFormed | now apply handle_oneRule].
  - split; [apply main_wellFormed | apply main_oneRule].
Qed.

End OpacityRunning.

(** ** Batches that are not served *)

Section Unserved.

Lemma callBack_throttled (records : list OpacityManager.MutationRecord) (cb : callback)
    (w : Script.World) :
  (forall last, cb = SpaceApplyStyles last -> clock w.2 - last < 300) ->
  (Script.callBack records cb w).1 = cb /\
  CSSManager.spaceManager (Script.callBack records cb w).2.1 = CSSManager.spaceManager w.1 /\
  length (sheets (Script.callBack records cb w).2.2) = length (sheets w.2) /\
  adoptedStyleSheets (Script.callBack records cb w).2.2 = adoptedStyleSheets w.2.
Proof.
  destruct w as [m p]. cbn [fst snd]. intros Hcb.
  destruct cb as [last| | | |]; cbn [Script.callBack].
  - destruct (length records =? 0)%nat; [auto|].
    unfold SpaceManager.throttled. specialize (Hcb last eq_refl).
    destruct (Z.leb_spec 300 (clock p - last)); [lia|]. auto.
  - destruct (length records =? 0)%nat; [auto|].
    pose proof (applyZIndexStyles_frame (CSSManager.zIndexManager m) p)
      as [_ (_ & Ha & Hl & _)].
    destruct (ZIndexManager.applyZIndexStyles _ p) as [x p1]. cbn [fst snd] in *. auto.
  - destruct (length (Script.classRecords records) =? 0)%nat; [auto|].
    pose proof (inspect_frame (Script.classRecords records) (CSSManager.opacityManager m) p)
      as [_ (_ & Ha & Hl & _)].
    destruct (OpacityManager.inspect _ _ p) as [x p1]. cbn [fst snd] in *. auto.
  - destruct (length records =? 0)%nat; [auto|].
    pose proof (applyBorderRadiusStyles_frame (CSSManager.borderRadiusManager m) p)
      as [_ (_ & Ha & Hl & _)].
    destruct (BorderRadiusManager.applyBorderRadiusStyles _ p) as [x p1]. cbn [fst snd] in *.
    auto.
  - destruct (length records =? 0)%nat; [auto|].
    pose proof (applyFontSizeStyles_frame (CSSManager.fontSizeManager m) p)
      as [_ (_ & Ha & Hl & _)].
    destruct (FontSizeManager.applyFontSizeStyles _ p) as [x p1]. cbn [fst snd] in *. auto.
Qed.

Lemma deliver_throttled (records : list OpacityManager.MutationRecord) (l : list callback)
    (w : Script.World) :
  (forall last, SpaceApplyStyles last ∈ l -> clock w.2 - last < 300) ->
  (Script.deliver records l w).1 = l /\
  CSSManager.spaceManager (Script.deliver records l w).2.1 = CSSManager.spaceManager w.1 /\
  length (sheets (Script.deliver records l w).2.2) = length (sheets w.2) /\
  adoptedStyleSheets (Script.deliver records l w).2.2 = adoptedStyleSheets w.2.
Proof.
  revert w. induction l as [|cb l IH]; intros w H; [auto|].
  rewrite deliver_cons. cbn [fst snd].
  destruct (callBack_throttled records cb w) as (C1 & C2 & C3 & C4).
  { intros last ->. apply H. left. }
  destruct (callBack_advances records cb w) as [(_ & _ & _ & Hc & _) _ _ _ _ _ _ _ _ _ _ _ _].
  destruct (IH (Script.callBack records cb w).2) as (D1 & D2 & D3 & D4).
  { intros last Hin. rewrite Hc. apply H. now right. }
  rewrite C1, D1, D2, D3, D4. auto.
Qed.

(** X12.  The throttle drops what it does not run: a mutation that comes less
    than 300 ms after the last run of every spacing observer leaves the
    spacing manager, the number of sheets and the adopted sheets as they
    are, whatever classes the document has gained; the observers are as
    before and no timeout is set, so that nothing will process the batch
    later. *)
Theorem throttled_batch_is_dropped (w : Script.World) (now : Z) (elements : list element)
    (records : list OpacityManager.MutationRecord) :
  (forall last, SpaceApplyStyles last ∈ observers w.2 -> now - last < 300) ->
  let w' := (Script.handle now (Script.Mutation elements records) w).2 in
  CSSManager.spaceManager w'.1 = CSSManager.spaceManager w.1 /\
  length (sheets w'.2) = length (sheets w.2) /\
  adoptedStyleSheets w'.2 = adoptedStyleSheets w.2 /\
  observers w'.2 = observers w.2 /\
  timers w'.2 = timers w.2.
Proof.
  intros H. cbv zeta. rewrite handle_mutation. cbv zeta.
  cbn [fst snd Dom.setObservers sheets adoptedStyleSheets observers timers].
  destruct (deliver_throttled records (observers w.2)
              (w.1, Dom.setBody elements (Dom.setClock now w.2)))
    as (D1 & D2 & D3 & D4); [exact H|].
  destruct (deliver_advances records (observers w.2)
              (w.1, Dom.setBody elements (Dom.setClock now w.2)))
    as [(_ & _ & _ & _ & Ht & _) _ _ _ _ _ _ _ _ _ _ _ _].
  rewrite D1, D2, D3, D4, Ht. destruct w as [m p]. repeat split.
Qed.

(** The script observes a mutation at 1000 ms, which runs the three spacing
    observers; at 1200 ms the document gains the class [m-8], and the
    spacing manager does not take it up. *)
Lemma throttled_batch_is_dropped_witness :
  let record := OpacityManager.mkRecord OpacityManager.childList None [] in
  let w := (Script.run [(1000, Script.Mutation [["m-4"]] [record])]
              (Script.main (Dom.load 1024 [] 0))).2 in
  let w' := (Script.handle 1200 (Script.Mutation [["m-4"]; ["m-8"]] [record]) w).2 in
  CSSManager.spaceManager w'.1 = CSSManager.spaceManager w.1.
Proof.
  intros record w w'.
  assert (Ho : observers w.2
               = [SpaceApplyStyles 1000; ZIndexApplyStyles; OpacityInspect;
                  BorderRadiusApplyStyles; FontSizeApplyStyles;
                  SpaceApplyStyles 1000; ZIndexApplyStyles; OpacityInspect;
                  BorderRadiusApplyStyles; FontSizeApplyStyles;
                  SpaceApplyStyles 1000; ZIndexApplyStyles; OpacityInspect;
                  BorderRadiusApplyStyles; FontSizeApplyStyles])
    by (vm_compute; reflexivity).
  apply (throttled_batch_is_dropped w 1200 [["m-4"]; ["m-8"]] [record]).
  intros last Hin. rewrite Ho in Hin. apply list_elem_of_In in Hin. cbn [In] in Hin.
  repeat (destruct Hin as [Hin|Hin]; [try discriminate Hin; injection Hin as <-; lia|]).
  destruct Hin.
Defined.

Lemma inspected_nil (records : list OpacityManager.MutationRecord) :
  (forall r, r ∈ records ->
     OpacityManager.type r = OpacityManager.childList \/
     OpacityManager.attributeName r <> Some "class") ->
  Engine.inspected (Script.classRecords records) = [].
Proof.
  induction records as [|r records IH]; intros H; [reflexivity|].
  assert (IH' : Engine.inspected (Script.classRecords records) = []).
  { apply IH. intros r' Hr'. apply H. now right. }
  unfold Script.classRecords in *. 
  assert (Hr : OpacityManager.type r = OpacityManager.childList \/
               OpacityManager.attributeName r <> Some "class") by (apply H; left).
  destruct (OpacityManager.type r) eqn:Et.
  - destruct Hr as [Hr|Hr]; [discriminate|].
    rewrite filter_cons_False; [exact IH'|].
    rewrite Et, bool_decide_false by exact Hr. discriminate.
  - rewrite filter_cons_True by now rewrite Et.
    cbn [Engine.inspected flat_map app]. rewrite Et. exact IH'.
Qed.

Lemma deliver_unread (records : list OpacityManager.MutationRecord) (l : list callback)
    (w : Script.World) :
  Engine.inspected (Script.classRecords records) = [] ->
  CSSManager.opacityManager (Script.deliver records l w).2.1 = CSSManager.opacityManager w.1 /\
  (Frame.wellFormed w ->
   sheets (Script.deliver records l w).2.2
     !! OpacityManager.styleSheet (CSSManager.opacityManager w.1)
   = sheets w.2 !! OpacityManager.styleSheet (CSSManager.opacityManager w.1)).
Proof.
  intros Hnil. revert w. induction l as [|cb l IH]; intros w; [auto|].
  rewrite deliver_cons. cbn [snd].
  assert (Hcb : CSSManager.opacityManager (Script.callBack records cb w).2.1
                = CSSManager.opacityManager w.1 /\
                (Frame.wellFormed w ->
                 sheets (Script.callBack records cb w).2.2
                   !! OpacityManager.styleSheet (CSSManager.opacityManager w.1)
                 = sheets w.2 !! OpacityManager.styleSheet (CSSManager.opacityManager w.1))).
  { assert (Hother : cb <> OpacityInspect ->
              CSSManager.opacityManager (Script.callBack records cb w).2.1
              = CSSManager.opacityManager w.1 /\
              (Frame.wellFormed w ->
               sheets (Script.callBack records cb w).2.2
                 !! OpacityManager.styleSheet (CSSManager.opacityManager w.1)
               = sheets w.2 !! OpacityManager.styleSheet (CSSManager.opacityManager w.1))).
    { intros Hne. split; [now apply callBack_opacityManager|].
      intros Hwf. unfold Frame.wellFormed in Hwf. cbv zeta in Hwf.
      apply callBack_keeps; [lia|].
      destruct cb; cbn [Frame.owns]; try tauto; try lia. }
    destruct cb as [last| | | |]; try (apply Hother; discriminate).
    rewrite callBack_served; [auto|].
    cbn [Frame.served]. rewrite Hnil. intros el c Hel. now apply elem_of_nil in Hel. }
  destruct Hcb as [C1 C2]. destruct (IH (Script.callBack records cb w).2) as [D1 D2].
  rewrite D1, C1. split; [reflexivity|].
  intros Hwf. rewrite <- C2 by exact Hwf. rewrite <- C1. apply D2.
  eapply advances_wellFormed; [apply callBack_advances | exact Hwf].
Qed.

(** X13.  The opacity observer reads attribute records only: a batch without a
    record of a changed [class] attribute, such as the records of added
    elements, leaves the opacity manager as it is, and the rules of its
    sheet too, whatever opacity classes the document has gained. *)
Theorem added_elements_get_no_opacity (w : Script.World) (now : Z)
    (elements : list element) (records : list OpacityManager.MutationRecord) :
  (forall r, r ∈ records ->
     OpacityManager.type r = OpacityManager.childList \/
     OpacityManager.attributeName r <> Some "class") ->
  let w' := (Script.handle now (Script.Mutation elements records) w).2 in
  CSSManager.opacityManager w'.1 = CSSManager.opacityManager w.1 /\
  (Frame.wellFormed w ->
   sheets w'.2 !! OpacityManager.styleSheet (CSSManager.opacityManager w.1)
   = sheets w.2 !! OpacityManager.styleSheet (CSSManager.opacityManager w.1)).
Proof.
  intros H. cbv zeta. rewrite handle_mutation. cbv zeta.
  cbn [fst snd Dom.setObservers sheets].
  destruct (deliver_unread records (observers w.2)
              (w.1, Dom.setBody elements (Dom.setClock now w.2)) (inspected_nil records H))
    as [D1 D2].
  cbn [fst snd] in D1, D2.
  split; [exact D1|]. intros Hwf.
  etransitivity; [apply D2; destruct w; exact Hwf|]. now destruct w.
Qed.

(** An element of class [opacity-5] is added to the document the script
    runs on: the opacity manager does not process the class. *)
Lemma added_elements_get_no_opacity_witness :
  let w := Script.main (Dom.load 1024 [] 0) in
  let w' := (Script.handle 1000
               (Script.Mutation [["opacity-5"]]
                  [OpacityManager.mkRecord OpacityManager.childList None []]) w).2 in
  CSSManager.opacityManager w'.1 = CSSManager.opacityManager w.1.
Proof.
  intros w w'.
  apply (added_elements_get_no_opacity w 1000 [["opacity-5"]]
           [OpacityManager.mkRecord OpacityManager.childList None []]).
  intros r Hr. apply list_elem_of_singleton in Hr. subst r. now left.
Defined.

End Unserved.

(** ** What the script sets up, and what a mutation makes up for *)

Section Setup.






End Setup.

(** ** The lines of a generated stylesheet *)

Section Lines.











End Lines.

(** ** A scan replaces the rules of its sheet *)

Section Replaced.




Section Scanning.
Context {B : Type}.
Variable ruleOf : string -> option string.
Variable emit : string -> B -> B.
Variable stored : string -> string -> Prop.
Variable holds : B -> list string -> Prop.
Variable clean : string -> Prop.

Hypothesis emitted :
  forall (buf : B) (rules : list string) (c r : string),
    holds buf rules -> clean c -> ruleOf c = Some r ->
    exists rule : string, stored c rule /\ holds (emit r buf) (rules ++ [rule]).



End Scanning.
















End Replaced.

(** ** A spacing scan adds a sheet *)

Section Added.











End Added.
